(** * gcdm: generalized-cost and QSI+ engine, shallow embedding

    The Python sources under [gcdm/] are embedded function by function.
    Python [float] values are modelled as real numbers ([R]) and
    arithmetic as the exact real operations, so rounding is outside the
    model.  In [softmin], where the logarithm of a sum of exponentials
    turns an underflow into an infinite result, the exponential is the
    binary64 one, with its underflow to 0.0 and its overflow to [inf];
    elsewhere [exp] is the real function.  Python dictionaries are finite
    maps ([gmap]), [Optional] values and caught exceptions are [option]s, and
    the process-wide numpy generator is an explicit state that every
    sampling call threads through. *)

From Stdlib Require Import Reals Lra Lia ZArith List.
From stdpp Require Import gmap strings list.

Open Scope R_scope.

(** ** Numeric helpers shared by the modules (numpy / builtins) *)

Module Numeric.

(** [np.clip(x, lo, hi)] *)
Definition clip (x lo hi : R) : R := Rmin (Rmax x lo) hi.

(** [np.sum] and [ndarray.mean] over a one-dimensional array *)
Definition rsum (a : list R) : R := fold_right Rplus 0 a.

Definition mean (a : list R) : R := rsum a / INR (length a).

(** ascending sort, as done inside [np.quantile] *)
Fixpoint insert_sorted (x : R) (a : list R) : list R :=
  match a with
  | [] => [x]
  | y :: a' => if Rle_dec x y then x :: y :: a' else y :: insert_sorted x a'
  end.

Definition sort (a : list R) : list R := fold_right insert_sorted [] a.

(** [np.quantile(a, q)] with the default linear interpolation: the virtual
    index [(n-1)*q] is split into its floor and fractional part and the
    two neighbouring order statistics are interpolated.  A [q] outside
    [0,1] raises [ValueError]; the callers never pass an empty array. *)
Definition quantile (a : list R) (q : R) : option R :=
  if Rle_dec 0 q then
    if Rle_dec q 1 then
      match sort a with
      | [] => None
      | s =>
          let h := (INR (length s) - 1) * q in
          let lo := Z.to_nat (Int_part h) in
          let hi := Nat.min (lo + 1) (length s - 1) in
          let g := h - IZR (Int_part h) in
          Some (nth lo s 0 + (nth hi s 0 - nth lo s 0) * g)
      end
    else None
  else None.

(** boolean mask selection [a[a >= q]] *)
Definition select_ge (a : list R) (q : R) : list R :=
  List.filter (fun x => if Rle_dec q x then true else false) a.

(** A float that may be infinite. *)
Inductive xfloat :=
  | Fin (r : R)
  | PosInf
  | NegInf.

(** [np.exp] on a binary64.  The exact value of [exp x] rounds to 0.0
    once it is at most [2^-1075], that is for [x <= -1075 ln 2] (about
    -745.13), and to [inf] once it reaches [2^1024], for [x >= 1024 ln 2]
    (about 709.78).  Between the two bounds the exact value stands for
    the float: from [2^-1022] on, that is for [x >= -1022 ln 2] (about
    -708.40), the float is a normal number and differs from it in the
    last digit only; below, it is a subnormal number with fewer digits. *)
Definition exp_underflow : R := - (1075 * ln 2).


Definition exp_overflow : R := 1024 * ln 2.

Definition fexp (x : R) : xfloat :=
  if Rle_dec x exp_underflow then Fin 0
  else if Rle_dec exp_overflow x then PosInf
  else Fin (exp x).

(** [np.sum(np.exp(-mu * x))]: every entry is 0, positive or [inf] (never
    [-inf]), and the sum is [inf] as soon as one entry is. *)
Fixpoint sum_exp (mu : R) (x : list R) : xfloat :=
  match x with
  | [] => Fin 0
  | v :: x' =>
      match fexp (- mu * v), sum_exp mu x' with
      | Fin e, Fin s => Fin (e + s)
      | _, _ => PosInf
      end
  end.

(** [np.log] of such a sum: [-inf] at 0.0 (with a warning, not an
    exception) and [inf] at [inf] *)
Definition xlog (s : xfloat) : xfloat :=
  match s with
  | Fin x => if Req_dec_T x 0 then NegInf else Fin (ln x)
  | PosInf => PosInf
  | NegInf => NegInf
  end.

(** the product [c * x] of a non-zero float and a possibly infinite one *)
Definition xscale (c : R) (x : xfloat) : xfloat :=
  match x with
  | Fin y => Fin (c * y)
  | PosInf => if Rlt_dec 0 c then PosInf else NegInf
  | NegInf => if Rlt_dec 0 c then NegInf else PosInf
  end.

End Numeric.

(** ** gcdm/qsi.py *)

Module Qsi.
Import Numeric.

Record Itinerary := {
  origin_airport : string;
  hub : string;
  dest : string;
  mode_access : string;
  block_minutes : R;
  layover_minutes : R;
  L_star : R;
  U_star : R;
  sk : R;
  tdep_iso : string;
  tarr_iso : string;
  cancel_rate : R;
  inbound_delay_mean : R;
  inbound_taxi_in_mean : R;
  delay_pos_mean : R;
  delay_var : R;
  hub_WxRisk : R;
  hub_CapacityRisk : R;
  reprotect_time_mean : R;
  n_alternates_window : Z;
  seat_pitch : R;
  wifi_rel : R;
  is_widebody : Z;
  is_priority : Z;
  has_lounge : Z;
  has_precheck : Z;
  price_mean : R;
  price_ancillary : R;
  price_rebates : R;
  seats_available : Z;
  dupcount : Z;
  loadfactor_risk : R;
  bag_miss_prob : R;
  hub_bank_times : list string
}.

(** config.py: [QSIState], [QSISegment], [QSIQualityWeights],
    [QSIDestWeight]; the [name] and [weight] attributes carry a prefix *)
Record QSIState := {
  state_name : string;
  state_weight : R;
  price_multiplier : R;
  delay_mean_add : R;
  delay_var_mult : R
}.

Record QSISegment := {
  seg_name : string;
  seg_weight : R;
  beta_P : R;
  p_star : R;
  seats_threshold : Z
}.

Record QSIQualityWeights := {
  wseat : R;
  wwifi : R;
  wac : R;
  wprio : R
}.

Record QSIDestWeight := {
  dest_code : string;
  dest_weight : R
}.

(** One entry of the raw [hub_risks] dictionary; every key is optional
    because the code reads it with [.get(key, default)]. *)
Record HubRisk := {
  WxRisk : option R;
  CapacityRisk : option R;
  MCT : option R;
  bank_times : list string
}.

(** the [{}] of [cfg.hub_risks.get(hub, {})] *)
Definition no_hub_risk : HubRisk :=
  {| WxRisk := None; CapacityRisk := None; MCT := None; bank_times := [] |}.

(** config.py: [QSIConfig] *)
Record QSIConfig := {
  muA : R;
  betaA : R;
  betaD : R;
  betaV : R;
  betaW : R;
  betaC : R;
  beta_rec : R;
  xi : R;
  betaQ : R;
  quality_weights : QSIQualityWeights;
  beta_ffp : R;
  beta_lounge : R;
  beta_pre : R;
  beta_scar : R;
  beta_B : R;
  bank_window_w : R;
  beta_MCT : R;
  beta_bag : R;
  alt_window_minutes : R;
  share_theta : R;
  states : list QSIState;
  segments : list QSISegment;
  dests : list QSIDestWeight;
  hub_risks : gmap string HubRisk
}.

(** [cfg.hub_risks.get(hub, {})] *)
Definition hub_entry (cfg : QSIConfig) (h : string) : HubRisk :=
  default no_hub_risk (hub_risks cfg !! h).

(** [mct = cfg.hub_risks.get(hub, {}).get("MCT", 40)] *)
Definition hub_mct (cfg : QSIConfig) (h : string) : R :=
  default 40 (MCT (hub_entry cfg h)).

(** the [pi_mis] line of [reliability_terms].  Over the reals the term is
    below 1 for every layover; the float is exactly 1.0 once the
    exponential is lost in the rounding of [1 - exp(...)], so only
    [pi_mis <= 1] is relied upon. *)
Definition pi_mis (cfg : QSIConfig) (Lk : R) (h : string) : R :=
  Rmax 0 (Rmin 1 (1 - exp (- (Rmax (Lk - hub_mct cfg h) 0) / 20))).

Definition reliability_terms (cfg : QSIConfig) (k : Itinerary) (Lk : R)
    (h : string) : R :=
  let cancel := 1 - cancel_rate k in
  let rel := cancel * (1 - pi_mis cfg Lk h)
             * exp (- betaD cfg * Rmax (delay_pos_mean k) 0
                    - betaV cfg * Rmax (delay_var k) 0) in
  let Wx := default 0.2 (WxRisk (hub_entry cfg h)) in
  let Cap := default 0.3 (CapacityRisk (hub_entry cfg h)) in
  rel * exp (- betaW cfg * Wx - betaC cfg * Cap).

(** [next((f(seg) for seg in cfg.segments if seg.name == s), dflt)] *)
Definition segment_field {A} (cfg : QSIConfig) (s : string)
    (f : QSISegment -> A) (dflt : A) : A :=
  match List.find (fun seg => String.eqb (seg_name seg) s) (segments cfg) with
  | Some seg => f seg
  | None => dflt
  end.

(** effective price [eff] of [price_availability]; [state] holds the
    numeric entries of the state dictionary *)
Definition effective_price (k : Itinerary) (state : gmap string R) : R :=
  price_mean k * default 1 (state !! "price_multiplier"%string)
  + price_ancillary k - price_rebates k.

(** Over the reals the value is positive; the float is 0.0 once the
    exponential underflows, so only a value that is not negative is relied
    upon. *)
Definition price_availability (cfg : QSIConfig) (k : Itinerary) (s : string)
    (state : gmap string R) : R :=
  let betaP := segment_field cfg s beta_P 0.01 in
  let p_star' := segment_field cfg s p_star 300 in
  let n_req := segment_field cfg s seats_threshold 2%Z in
  let eff := effective_price k state in
  let avail :=
    if Rle_dec eff p_star' then
      if Z_le_dec n_req (seats_available k) then 1 else 0.3
    else 0.3 in
  avail * exp (- betaP * eff).

End Qsi.

(** ** gcdm/aggregators.py *)

Module Aggregators.
Import Numeric.

Record ProviderConfig := {
  enable_google : bool;
  enable_openrouteservice : bool;
  enable_weather : bool;
  enable_events : bool;
  enable_mapbox : bool;
  google_api_key : string;
  ors_api_key : string;
  owm_api_key : string;
  ticketmaster_api_key : string;
  mapbox_api_key : string
}.

(** What one execution of a provider function body does: it raises
    [ProviderError] (every other exception is wrapped into it), or it
    returns an [Optional[float]]. *)
Inductive Reply :=
  | Raised
  | Returned (v : option R).

Definition LatLon : Type := R * R.

(** The routing services are outside the program.  A service is given by
    the reply of each successive call (numbered from 0) for an origin, a
    destination and an API key. *)
Definition Service : Type := LatLon -> LatLon -> string -> nat -> Reply.

Record Services := {
  google_body : Service;
  ors_body : Service;
  mapbox_body : Service
}.

(** [@retry(stop=stop_after_attempt(3), ..., reraise=True)]: the body is
    run again after each [ProviderError], three times at most, and the last
    error is re-raised.  The waits between attempts take time only. *)
Fixpoint retry (attempts : nat) (body : nat -> Reply) (i : nat) : Reply :=
  match attempts with
  | O => Raised
  | S n =>
      match body i with
      | Returned v => Returned v
      | Raised => retry n body (S i)
      end
  end.

Definition google_drive_minutes (W : Services) (origin dest : LatLon)
    (api_key : string) : Reply :=
  retry 3 (google_body W origin dest api_key) 0.

Definition ors_drive_minutes (W : Services) (origin dest : LatLon)
    (api_key : string) : Reply :=
  retry 3 (ors_body W origin dest api_key) 0.

Definition mapbox_drive_minutes (W : Services) (origin dest : LatLon)
    (api_key : string) : Reply :=
  retry 3 (mapbox_body W origin dest api_key) 0.

(** truth value of a Python [str]: non-empty *)
Definition str_truthy (s : string) : bool :=
  match s with EmptyString => false | _ => true end.

(** truth value of an [Optional[float]]: neither [None] nor [0.0] *)
Definition float_truthy (v : option R) : bool :=
  match v with
  | None => false
  | Some x => if Req_dec_T x 0 then false else true
  end.

(** One [if enabled and key: try: ... except ProviderError: pass] block:
    the list [vals] after the block. *)
Definition collect (enabled : bool) (key : string) (call : string -> Reply)
    (vals : list R) : list R :=
  if enabled && str_truthy key then
    match call key with
    | Returned (Some v) => if float_truthy (Some v) then vals ++ [v] else vals
    | Returned None => vals
    | Raised => vals
    end
  else vals.

(** the list [vals] just before [if not vals] *)
Definition collected_vals (W : Services) (origin dest : LatLon)
    (providers : ProviderConfig) : list R :=
  let vals := [] in
  let vals := collect (enable_google providers) (google_api_key providers)
                (google_drive_minutes W origin dest) vals in
  let vals := collect (enable_openrouteservice providers) (ors_api_key providers)
                (ors_drive_minutes W origin dest) vals in
  let vals := collect (enable_mapbox providers) (mapbox_api_key providers)
                (mapbox_drive_minutes W origin dest) vals in
  vals.

Definition aggregate_drive_minutes (W : Services) (origin dest : LatLon)
    (providers : ProviderConfig) : option R :=
  match collected_vals W origin dest providers with
  | [] => None
  | vals => quantile vals 0.75
  end.

(** *** The specification's reading of the collection step

    "Collects all successful non-null minute estimates": the estimates of
    the enabled providers whose call returned a number, whatever the
    number.  Stated from the specification, for comparison with
    [collected_vals]. *)
Definition spec_collect (enabled : bool) (key : string)
    (call : string -> Reply) (vals : list R) : list R :=
  if enabled && str_truthy key then
    match call key with
    | Returned (Some v) => vals ++ [v]
    | _ => vals
    end
  else vals.

Definition spec_collected_vals (W : Services) (origin dest : LatLon)
    (providers : ProviderConfig) : list R :=
  spec_collect (enable_mapbox providers) (mapbox_api_key providers)
    (mapbox_drive_minutes W origin dest)
    (spec_collect (enable_openrouteservice providers) (ors_api_key providers)
       (ors_drive_minutes W origin dest)
       (spec_collect (enable_google providers) (google_api_key providers)
          (google_drive_minutes W origin dest) [])).

Definition spec_aggregate_drive_minutes (W : Services) (origin dest : LatLon)
    (providers : ProviderConfig) : option R :=
  match spec_collected_vals W origin dest providers with
  | [] => None
  | vals => quantile vals 0.75
  end.

End Aggregators.

(** ** gcdm/travel.py *)

Module Travel.
Import Numeric Aggregators.

Record TravelRV := { mean : R; sd : R }.

(** attribute dictionary of one OSM edge, as far as the code reads it *)
Record EdgeData := {
  length : option R;
  speed_kph : option R;
  speed_kphs : option R
}.

(** The road network and the geodesic library are outside the program.
    [osm_route] stands for the calls from [ox.graph_from_point] to
    [nx.shortest_path]: [None] when any of them raises, otherwise the
    route as, for each consecutive pair of nodes, the attribute
    dictionaries of the parallel edges between them ([get_edge_data]).
    [geodesic_miles] is [geodesic(p, q).miles], [None] when it raises. *)
Record Geo := {
  osm_route : R -> R -> R -> R -> option (list (list EdgeData));
  geodesic_miles : LatLon -> LatLon -> option R
}.

(** [min(iterable, key=...)] on a non-empty iterable: the first element
    whose key is minimal *)
Fixpoint min_by {A} (key : A -> R) (best : A) (rest : list A) : A :=
  match rest with
  | [] => best
  | y :: rest' =>
      if Rlt_dec (key y) (key best) then min_by key y rest'
      else min_by key best rest'
  end.

(** body of the [for u, v in zip(route[:-1], route[1:])] loop: the seconds
    of one hop; [min] of no edge raises *)
Definition hop_seconds (edges : list EdgeData) : option R :=
  match edges with
  | [] => None
  | e :: es =>
      let data := min_by (fun d => default 0 (length d)) e es in
      let length_m := default 0 (length data) in
      let speed := default (default 50 (speed_kphs data)) (speed_kph data) in
      let speed := if Rle_dec speed 0 then 50 else speed in
      Some (length_m / 1000 / speed * 3600)
  end.

Fixpoint route_seconds (total_seconds : R) (hops : list (list EdgeData))
    : option R :=
  match hops with
  | [] => Some total_seconds
  | edges :: hops' =>
      match hop_seconds edges with
      | Some seconds => route_seconds (total_seconds + seconds) hops'
      | None => None
      end
  end.

(** the provider tier: [providers is not None] and the aggregate is not
    [None] *)
Definition provider_tier (W : Services) (origin dest : LatLon)
    (providers : option ProviderConfig) : option R :=
  match providers with
  | Some p => aggregate_drive_minutes W origin dest p
  | None => None
  end.

(** the [try] block: [None] when anything in it raises *)
Definition network_tier (E : Geo) (origin_lon origin_lat dest_lon dest_lat : R)
    : option R :=
  match osm_route E origin_lon origin_lat dest_lon dest_lat with
  | Some route => route_seconds 0 route
  | None => None
  end.

(** [None] is an exception leaving the function (only the geodesic call of
    the [except] branch can raise one). *)
Definition estimate_drive_time_minutes (W : Services) (E : Geo)
    (origin_lon origin_lat dest_lon dest_lat : R)
    (providers : option ProviderConfig) : option TravelRV :=
  match provider_tier W (origin_lat, origin_lon) (dest_lat, dest_lon) providers with
  | Some agg =>
      let mean_min := agg in
      Some {| mean := mean_min; sd := Rmax 5 (0.25 * mean_min) |}
  | None =>
      match network_tier E origin_lon origin_lat dest_lon dest_lat with
      | Some total_seconds =>
          let mean_min := total_seconds / 60 in
          Some {| mean := mean_min; sd := Rmax 5 (0.25 * mean_min) |}
      | None =>
          match geodesic_miles E (origin_lat, origin_lon) (dest_lat, dest_lon) with
          | Some miles =>
              let mean_min := miles / 35 * 60 in
              Some {| mean := mean_min; sd := Rmax 5 (0.30 * mean_min) |}
          | None => None
          end
      end
  end.

Definition estimate_ride_time_minutes (W : Services) (E : Geo)
    (origin_lon origin_lat dest_lon dest_lat : R)
    (providers : option ProviderConfig) : option TravelRV :=
  match estimate_drive_time_minutes W E origin_lon origin_lat dest_lon dest_lat
          providers with
  | Some rv => Some {| mean := mean rv * 1.05; sd := sd rv * 1.2 |}
  | None => None
  end.

Definition estimate_rail_time_minutes (E : Geo)
    (origin_lon origin_lat dest_lon dest_lat : R) : option TravelRV :=
  match geodesic_miles E (origin_lat, origin_lon) (dest_lat, dest_lon) with
  | Some miles =>
      let mean_min := miles / 30 * 60 in
      Some {| mean := mean_min; sd := Rmax 5 (0.20 * mean_min) |}
  | None => None
  end.

(** "All external providers are disabled": no provider settings are
    passed, or the three routing providers are switched off. *)
Definition all_disabled (providers : option ProviderConfig) : Prop :=
  match providers with
  | None => True
  | Some p =>
      enable_google p = false
      /\ enable_openrouteservice p = false
      /\ enable_mapbox p = false
  end.

(** "A TravelRV produced by the travel-time estimators": the result of
    one of the three estimators on some input. *)
Inductive produced (W : Services) (E : Geo) (rv : TravelRV) : Prop :=
  | by_drive olon olat dlon dlat providers :
      estimate_drive_time_minutes W E olon olat dlon dlat providers = Some rv ->
      produced W E rv
  | by_ride olon olat dlon dlat providers :
      estimate_ride_time_minutes W E olon olat dlon dlat providers = Some rv ->
      produced W E rv
  | by_rail olon olat dlon dlat :
      estimate_rail_time_minutes E olon olat dlon dlat = Some rv ->
      produced W E rv.

End Travel.

(** ** The process-wide random generator ([np.random]) *)

Module Rng.

(** numpy's global legacy generator: a state and the two primitive draws
    the code uses, each returning a value and the advanced state.
    [random_sample] is one uniform draw of [np.random.rand],
    [standard_normal] one standard normal deviate of [np.random.normal]. *)
Record Generator := {
  state : Type;
  random_sample : state -> R * state;
  standard_normal : state -> R * state
}.

(** Computations that read and advance the generator and may raise:
    the result is [None] when an exception leaves the computation. *)
Definition M (G : Generator) (A : Type) : Type :=
  state G -> option A * state G.

Definition ret {G A} (x : A) : M G A := fun g => (Some x, g).

Definition raise {G A} : M G A := fun g => (None, g).

Definition bind {G A B} (m : M G A) (f : A -> M G B) : M G B :=
  fun g =>
    match m g with
    | (Some x, g') => f x g'
    | (None, g') => (None, g')
    end.

(** a pure computation that may raise, run inside [M] *)
Definition lift {G A} (o : option A) : M G A := fun g => (o, g).

(** [n] successive draws *)
Fixpoint draws {G} (draw : state G -> R * state G) (n : nat) (g : state G)
    : list R * state G :=
  match n with
  | O => ([], g)
  | S n' =>
      let (x, g1) := draw g in
      let (xs, g2) := draws draw n' g1 in
      (x :: xs, g2)
  end.

(** [np.random.rand(n)] *)
Definition rand {G} (n : nat) : M G (list R) :=
  fun g => let (us, g') := draws (random_sample G) n g in (Some us, g').

(** [np.random.normal(loc, scale, size)]: [loc + scale * z] for [size]
    standard normal deviates; a negative [scale] raises [ValueError]
    before anything is drawn. *)
Definition normal {G} (loc scale : R) (size : nat) : M G (list R) :=
  fun g =>
    if Rlt_dec scale 0 then raise g
    else
      let (zs, g') := draws (standard_normal G) size g in
      (Some (List.map (fun z => loc + scale * z) zs), g').

End Rng.

Declare Scope rng_scope.
Delimit Scope rng_scope with rng.
Notation "'let!' x ':=' m 'in' k" := (Rng.bind m (fun x => k))
  (at level 10, x name, m at level 100, k at level 200) : rng_scope.

(** ** gcdm/risk.py *)

Module Risk.
Import Numeric Rng.

(** config.py: [RiskMultipliers] *)
Record RiskMultipliers := {
  weather : R;
  event : R;
  construction : R
}.

(** config.py: [RiskConfig].  [risk_with_shocks] reads [cfg.risk.shocks],
    an attribute that the dataclass does not declare and that
    [load_config] never sets: [shocks] is [None] for an instance without
    it, as every loaded configuration is, and the dictionary when the
    attribute was set on the instance afterwards. *)
Record RiskConfig := {
  alpha : R;
  rho : R;
  multipliers : RiskMultipliers;
  shocks : option (gmap string R)
}.

(** [None]: [np.quantile] raised *)
Definition cvar (samples : list R) (alpha : R) : option R :=
  match samples with
  | [] => Some 0
  | _ =>
      match quantile samples alpha with
      | Some q =>
          match select_ge samples q with
          | [] => Some q
          | tail => Some (mean tail)
          end
      | None => None
      end
  end.

Definition cvar_minus_mean (samples : list R) (alpha : R) : option R :=
  match samples with
  | [] => Some 0
  | _ =>
      match cvar samples alpha with
      | Some c => Some (c - mean samples)
      | None => None
      end
  end.

Definition apply_context_multiplier (x k_weather k_event k_construction : R) : R :=
  x * k_weather * k_event * k_construction.

Section Sampling.
Context {G : Generator}.
Local Open Scope rng_scope.

(** [lower] is [None] or a bound; [np.clip(x, lower, None)] *)
Definition gaussian_samples (mean sd : R) (size : nat) (lower : option R)
    : M G (list R) :=
  let! x := normal mean sd size in
  match lower with
  | Some lo => ret (List.map (fun v => Rmax v lo) x)
  | None => ret x
  end.

(** [samples[mask] += shock_minutes] on a copy, with
    [mask = np.random.rand(n) < shock_prob] *)
Definition add_where_below (samples us : list R) (shock_prob shock_minutes : R)
    : list R :=
  zip_with (fun x u => if Rlt_dec u shock_prob then x + shock_minutes else x)
    samples us.

Definition apply_shocks (samples : list R) (shock_prob shock_minutes : R)
    : M G (list R) :=
  if Rle_dec shock_prob 0 then ret samples
  else if Rle_dec shock_minutes 0 then ret samples
  else
    let! us := rand (List.length samples) in
    ret (add_where_below samples us shock_prob shock_minutes).

(** [sh.get(key, 0.0)] on the dictionary [sh = cfg.risk.shocks] *)
Definition shock (sh : gmap string R) (key : string) : R :=
  default 0 (sh !! key).

(** Reading [cfg.risk.shocks] raises [AttributeError] when the attribute
    is missing; that is the first thing evaluated after [alpha] and [rho],
    before anything is drawn. *)
Definition risk_with_shocks (cfg : RiskConfig) (A_samples P_samples : list R)
    : M G R :=
  let! sh := lift (shocks cfg) in
  let! A_shocked := apply_shocks A_samples (shock sh "incident_prob")
                 (shock sh "incident_minutes") in
  let! P_shocked := apply_shocks P_samples (shock sh "rail_disruption_prob")
                 (shock sh "rail_disruption_minutes") in
  let! deltaA := lift (cvar_minus_mean A_shocked (alpha cfg)) in
  let! deltaP := lift (cvar_minus_mean P_shocked (alpha cfg)) in
  ret (rho cfg * (deltaA + deltaP)).

End Sampling.

End Risk.

(** ** gcdm/model.py *)

Module Model.
Import Numeric.

(** [softmin(values, mu)].  [-1.0 / mu] is evaluated first and raises
    [ZeroDivisionError] for [mu = 0] ([None]).  The exponentials are
    binary64 values: when all of them underflow, or when the list is
    empty, their sum is 0.0, its logarithm [-inf] and the result [inf]
    for [mu > 0]; when one of them overflows the sum and its logarithm
    are [inf]. *)
Definition softmin (values : list R) (mu : R) : option xfloat :=
  if Req_dec_T mu 0 then None
  else Some (xscale (-1 / mu) (xlog (sum_exp mu values))).


(** [min(values)] of a Python list, for a non-empty list *)
Definition list_min (values : list R) : R :=
  match values with
  | [] => 0
  | v :: vs => fold_left Rmin vs v
  end.

(** config.py: [ScheduleWindow], [ScheduleConfig] *)
Record ScheduleWindow := { tmin : string; tmax : string }.

Record ScheduleConfig := {
  t_depart_iso : string;
  curb_windows : gmap string ScheduleWindow
}.

(** [dateutil] and [datetime] are outside the program: a type of parsed
    timestamps, the parser ([None] when [isoparse] raises) and the
    difference [(a - b).total_seconds()] ([None] when the subtraction
    raises, as it does between an aware and a naive timestamp). *)
Record Clock := {
  datetime : Type;
  isoparse : string -> option datetime;
  seconds_between : datetime -> datetime -> option R
}.

Section Schedule.
Context (C : Clock).

(** The body of the [try] block of [generalized_cost_delta]:
    [(t_depart_min, tmin_min, tmax_min)], or [None] when a statement of
    the block raises. *)
Definition parse_window (schedule : ScheduleConfig) (a : string)
    : option (R * R * R) :=
  t_depart ← isoparse C (t_depart_iso schedule);
  w ← curb_windows schedule !! a;
  tmin_dt ← isoparse C (tmin w);
  w' ← curb_windows schedule !! a;
  tmax_dt ← isoparse C (tmax w');
  let t_depart_min := 0 in
  dmin ← seconds_between C tmin_dt t_depart;
  let tmin_min := dmin / 60 in
  dmax ← seconds_between C tmax_dt t_depart;
  let tmax_min := dmax / 60 in
  Some (t_depart_min, tmin_min, tmax_min).

(** The [try ... except Exception] statement as a whole: the values of
    [t_depart_min], [tmin_min] and [tmax_min] after it. *)
Definition schedule_window (schedule : ScheduleConfig) (a : string)
    : R * R * R :=
  match parse_window schedule a with
  | Some w => w
  | None => (0, 60, 120)
  end.

End Schedule.

End Model.

(** ** Concrete inputs used by the examples below *)

Module Examples.
Import Qsi.

(** one leisure segment: reference price 300, two seats required *)
Definition leisure : QSISegment :=
  {| seg_name := "leisure"; seg_weight := 1; beta_P := 0.01;
     p_star := 300; seats_threshold := 2 |}.

(** what [parse_qsi] makes of a dictionary that lists only the given
    segments: every rate at its default, no state, no hub entry, so that
    every hub has the default minimum connect time of 40 minutes *)
Definition qsi_with (segs : list QSISegment) : QSIConfig :=
  {| muA := 0.2; betaA := 0.03; betaD := 0.02; betaV := 0.01;
     betaW := 0.02; betaC := 0.02; beta_rec := 0.02; xi := 0.15;
     betaQ := 0.02;
     quality_weights :=
       {| wseat := 0.5; wwifi := 0.2; wac := 0.2; wprio := 0.1 |};
     beta_ffp := 0.01; beta_lounge := 0.01; beta_pre := 0.01;
     beta_scar := 0.02; beta_B := 0.02; bank_window_w := 1;
     beta_MCT := 0.03; beta_bag := 0.02;
     alt_window_minutes := 180; share_theta := 1;
     states := []; segments := segs; dests := [];
     hub_risks := ∅ |}.

Definition qsi_defaults : QSIConfig := qsi_with [].

Definition qsi_leisure : QSIConfig := qsi_with [leisure].

(** an itinerary through ORD priced at 200 with the given number of seats
    left *)
Definition via_ord (seats : Z) : Itinerary :=
  {| origin_airport := "HVN"; hub := "ORD"; dest := "SFO";
     mode_access := "drive";
     block_minutes := 300; layover_minutes := 30;
     L_star := 45; U_star := 120; sk := 0;
     tdep_iso := "2025-01-01T08:00:00"; tarr_iso := "2025-01-01T14:00:00";
     cancel_rate := 0; inbound_delay_mean := 0; inbound_taxi_in_mean := 0;
     delay_pos_mean := 0; delay_var := 0;
     hub_WxRisk := 0; hub_CapacityRisk := 0;
     reprotect_time_mean := 0; n_alternates_window := 0;
     seat_pitch := 31; wifi_rel := 1;
     is_widebody := 0; is_priority := 0; has_lounge := 0; has_precheck := 0;
     price_mean := 200; price_ancillary := 0; price_rebates := 0;
     seats_available := seats; dupcount := 0;
     loadfactor_risk := 0; bag_miss_prob := 0;
     hub_bank_times := [] |}.

(** the provider settings that [build_provider_config] makes of an empty
    dictionary: everything disabled, no keys *)
Definition providers_off : Aggregators.ProviderConfig :=
  {| Aggregators.enable_google := false;
     Aggregators.enable_openrouteservice := false;
     Aggregators.enable_weather := false;
     Aggregators.enable_events := false;
     Aggregators.enable_mapbox := false;
     Aggregators.google_api_key := EmptyString;
     Aggregators.ors_api_key := EmptyString;
     Aggregators.owm_api_key := EmptyString;
     Aggregators.ticketmaster_api_key := EmptyString;
     Aggregators.mapbox_api_key := EmptyString |}.

(** the three routing providers enabled, each with a key *)
Definition providers_on : Aggregators.ProviderConfig :=
  {| Aggregators.enable_google := true;
     Aggregators.enable_openrouteservice := true;
     Aggregators.enable_weather := false;
     Aggregators.enable_events := false;
     Aggregators.enable_mapbox := true;
     Aggregators.google_api_key := "g";
     Aggregators.ors_api_key := "o";
     Aggregators.owm_api_key := EmptyString;
     Aggregators.ticketmaster_api_key := EmptyString;
     Aggregators.mapbox_api_key := "m" |}.

(** Google only *)
Definition providers_google : Aggregators.ProviderConfig :=
  {| Aggregators.enable_google := true;
     Aggregators.enable_openrouteservice := false;
     Aggregators.enable_weather := false;
     Aggregators.enable_events := false;
     Aggregators.enable_mapbox := false;
     Aggregators.google_api_key := "g";
     Aggregators.ors_api_key := EmptyString;
     Aggregators.owm_api_key := EmptyString;
     Aggregators.ticketmaster_api_key := EmptyString;
     Aggregators.mapbox_api_key := EmptyString |}.

(** a service that answers [minutes] at once, one that fails on every
    attempt, and one that fails twice before answering *)
Definition answers (minutes : R) : Aggregators.Service :=
  fun _ _ _ _ => Aggregators.Returned (Some minutes).

Definition down : Aggregators.Service :=
  fun _ _ _ _ => Aggregators.Raised.

Definition flaky (minutes : R) : Aggregators.Service :=
  fun _ _ _ attempt =>
    match attempt with
    | 2%nat => Aggregators.Returned (Some minutes)
    | _ => Aggregators.Raised
    end.

Definition services_ten : Aggregators.Services :=
  {| Aggregators.google_body := answers 10;
     Aggregators.ors_body := flaky 10;
     Aggregators.mapbox_body := answers 10 |}.

Definition services_zero : Aggregators.Services :=
  {| Aggregators.google_body := answers 0;
     Aggregators.ors_body := down;
     Aggregators.mapbox_body := down |}.

Definition services_down : Aggregators.Services :=
  {| Aggregators.google_body := down;
     Aggregators.ors_body := down;
     Aggregators.mapbox_body := down |}.

(** no road network at hand; every pair of points is 7 miles apart *)
Definition seven_miles : Travel.Geo :=
  {| Travel.osm_route := fun _ _ _ _ => None;
     Travel.geodesic_miles := fun _ _ => Some 7 |}.

(** New Haven origin and the HVN airport, as (longitude, latitude) *)
Definition origin_lon : R := -72.9.
Definition origin_lat : R := 41.3.
Definition hvn_lon : R := -72.887.
Definition hvn_lat : R := 41.263.

(** A generator that replays a script: its state is the list of the
    values still to be handed out, by either kind of draw. *)
Definition replay : Rng.Generator :=
  {| Rng.state := list R;
     Rng.random_sample := fun script => (hd 0 script, tl script);
     Rng.standard_normal := fun script => (hd 0 script, tl script) |}.

(** risk settings with tail level 0.5, unit risk aversion and incident
    shocks of the given probability and size; no rail disruption *)
Definition risk_cfg (incident_prob incident_minutes : R) : Risk.RiskConfig :=
  {| Risk.alpha := 0.5;
     Risk.rho := 1;
     Risk.multipliers :=
       {| Risk.weather := 1; Risk.event := 1; Risk.construction := 1 |};
     Risk.shocks :=
       Some (<["incident_prob" := incident_prob]>
               (<["incident_minutes" := incident_minutes]> ∅)) |}.

(** A clock that knows the timestamps of a table (as seconds) and fails
    to parse every other string. *)
Definition table_clock (known : gmap string Z) : Model.Clock :=
  {| Model.datetime := Z;
     Model.isoparse := fun s => known !! s;
     Model.seconds_between := fun a b => Some (IZR (a - b)) |}.

(** a schedule whose departure time is not an ISO timestamp *)
Definition loose_schedule : Model.ScheduleConfig :=
  {| Model.t_depart_iso := "tomorrow 8am";
     Model.curb_windows :=
       {[ "HVN" := {| Model.tmin := "2025-01-01T06:00:00";
                      Model.tmax := "2025-01-01T07:00:00" |} ]} |}.

End Examples.

(** ** gcdm/config.py: the configuration dataclasses

    Where two dataclasses have an attribute of the same name, the
    attribute carries the name of its class as a prefix.  [RiskConfig],
    [ScheduleConfig] and [QSIConfig] are the records of the modules
    above. *)

Module Config.

Record ProjectConfig := {
  project_name : string;
  seed : Z;
  processes : Z
}.

Record RegionConfig := {
  focus_state_fips : string;
  region_airports : list string;
  region_modes : list string
}.

Record PartyConfig := {
  NA : Z;
  NC : Z;
  vA_usd_per_hour : R;
  vC_usd_per_hour : R;
  lambda_child_time_weight : R
}.

Record VOTBand := {
  band_name : string;
  minutes_value : R
}.

Record VOTConfig := {
  tod_bands : list VOTBand;
  peak_hours : list Z
}.

Record DriveCostConfig := {
  cmile : R;
  tolled_miles_multiplier : R;
  rem_lot_fee : R;
  shuttle_fee : R;
  drive_fare_risk : R
}.

Record DriveModeConfig := {
  cost : DriveCostConfig;
  parking_daily : gmap string R;
  parking_weekly : gmap string R
}.

Record RideModeConfig := {
  surge : R;
  base_fare : R;
  per_mile : R;
  per_minute : R;
  booking_fee : R;
  tip_fraction : R;
  ride_fare_risk : R
}.

(** [transfer_handling] reads [rail.miss_slope], an attribute that the
    dataclass does not declare and that [load_config] cannot set:
    [miss_slope] is [None] for an instance without it, as every loaded
    configuration is, and the number when the attribute was set on the
    instance afterwards. *)
Record RailModeConfig := {
  adult_fare_default : R;
  child_fare_default : R;
  transfer_fare : R;
  airtrain : gmap string R;
  station_parking : R;
  miss_prob_base : R;
  headway_minutes : Z;
  miss_slope : option R
}.

Record ModesConfig := {
  drive : DriveModeConfig;
  ride : RideModeConfig;
  rail : RailModeConfig
}.

Record ProcessTimesConfig := {
  security_mean : gmap string R;
  bag_drop_mean : gmap string R;
  walk_mean : gmap string R
}.

Record ComfortConfig := {
  omega_peak : R;
  omega_night : R
}.

Record CarbonConfig := {
  enabled : bool;
  social_cost_per_ton : R;
  emissions_kg_per_mile : gmap string R
}.

Record SoftMinConfig := { mu : R }.

Record MapConfig := {
  output_crs : Z;
  interactive : bool;
  basemap : string;
  title : string
}.

Record ProvidersConfig := {
  enable_google : bool;
  enable_openrouteservice : bool;
  enable_weather : bool;
  enable_events : bool;
  google_api_key : string;
  ors_api_key : string;
  owm_api_key : string;
  ticketmaster_api_key : string
}.

Record AppConfig := {
  project : ProjectConfig;
  region : RegionConfig;
  party : PartyConfig;
  schedule : Model.ScheduleConfig;
  vot : VOTConfig;
  risk : Risk.RiskConfig;
  modes : ModesConfig;
  process_times : ProcessTimesConfig;
  comfort_cfg : ComfortConfig;
  carbon_cfg : CarbonConfig;
  softmin_cfg : SoftMinConfig;
  map_cfg : MapConfig;
  providers : ProvidersConfig;
  qsi : Qsi.QSIConfig
}.

End Config.

(** ** gcdm/components.py *)

Module Components.
Import Numeric Rng Risk Config.

(** [np.ceil] *)
Definition ceil (x : R) : R := - IZR (Int_part (- x)).

(** the dataclass [Components]; its attributes carry the prefix [comp_],
    the bare names being those of the functions below *)
Record Components := {
  comp_cash : R;
  comp_timeval : R;
  comp_risk : R;
  comp_sched : R;
  comp_xfer : R;
  comp_comfort : R;
  comp_carbon : R
}.

Definition total (self : Components) : R :=
  comp_cash self + comp_timeval self + comp_risk self + comp_sched self
  + comp_xfer self + comp_comfort self + comp_carbon self.

Definition party_vot_per_minute (cfg : AppConfig) : R :=
  (IZR (NA (party cfg)) * vA_usd_per_hour (party cfg)
   + IZR (NC (party cfg)) * vC_usd_per_hour (party cfg)) / 60.

(** [None]: [KeyError], the airport has no entry in a parking table *)
Definition cash_drive (cfg : AppConfig) (airport : string)
    (distance_miles duration_days : R) : option R :=
  let dcfg := drive (modes cfg) in
  daily ← parking_daily dcfg !! airport;
  weekly ← parking_weekly dcfg !! airport;
  let D := Rmax 1 duration_days in
  let park := Rmin (ceil D * daily) (ceil (D / 7) * weekly) in
  let vehop := cmile (cost dcfg) * 2 * distance_miles in
  let tolls := 0 in
  let cash := park + tolls + vehop + rem_lot_fee (cost dcfg)
              + shuttle_fee (cost dcfg) + drive_fare_risk (cost dcfg) in
  Some cash.

Definition cash_ride (cfg : AppConfig) (airport : string)
    (distance_miles mean_minutes : R) : R :=
  let rcfg := ride (modes cfg) in
  let s := surge rcfg in
  let cost := s * (base_fare rcfg + per_mile rcfg * 2 * distance_miles
                   + per_minute rcfg * 2 * mean_minutes + booking_fee rcfg)
              + ride_fare_risk rcfg in
  let tip := tip_fraction rcfg * cost in
  cost + tip.

Definition cash_rail (cfg : AppConfig) (airport : string) : R :=
  let rail := rail (modes cfg) in
  let fa := adult_fare_default rail * IZR (NA (party cfg)) in
  let fc := child_fare_default rail * IZR (NC (party cfg)) in
  let xfer := IZR (NA (party cfg) + NC (party cfg))
              * (transfer_fare rail + default 0 (airtrain rail !! airport)) in
  fa + fc + xfer + station_parking rail.

(** [{b.name: b.minutes_value for b in cfg.vot.tod_bands}]: of several
    bands of one name the last one stays *)
Definition band_values (cfg : AppConfig) : gmap string R :=
  list_to_map
    (rev (List.map (fun b => (band_name b, minutes_value b))
            (tod_bands (vot cfg)))).

Definition _tod_multiplier (cfg : AppConfig) (access_mean_min : R) : R :=
  let bands := band_values cfg in
  let peak := default (party_vot_per_minute cfg) (bands !! "peak") in
  let off := default (party_vot_per_minute cfg) (bands !! "offpeak") in
  let night := default (party_vot_per_minute cfg) (bands !! "night") in
  0.4 * peak + 0.5 * off + 0.1 * night.

Definition timeval (cfg : AppConfig) (r : Z)
    (access_mean_min proc_mean_min : R) : R :=
  let vot_per_min := _tod_multiplier cfg access_mean_min in
  vot_per_min * IZR r * (access_mean_min + proc_mean_min).

(** [None]: reading [rail.miss_slope] raised [AttributeError] *)
Definition transfer_handling (cfg : AppConfig) (airport : string)
    (has_checked_bag : bool) (r : Z) : option R :=
  let rail := rail (modes cfg) in
  slope ← miss_slope rail;
  let miss_prob := clip (miss_prob_base rail + slope * 5) 0 0.9 in
  let xfer_rail :=
    (IZR (NA (party cfg))
     + lambda_child_time_weight (party cfg) * IZR (NC (party cfg)))
    * party_vot_per_minute cfg * miss_prob * IZR (headway_minutes rail) in
  let bag_pen :=
    if has_checked_bag
    then party_vot_per_minute cfg * (10 + rho (risk cfg) * 5)
    else 0 in
  let geom_pen := party_vot_per_minute cfg * IZR r * 5 in
  Some (xfer_rail + bag_pen + geom_pen).

(** the defaults [peak_fraction = 0.4] and [night_fraction = 0.1] are
    passed by the callers *)
Definition comfort (cfg : AppConfig) (r : Z) (access_mean_min : R)
    (peak_fraction night_fraction : R) : R :=
  let omega := (omega_peak (comfort_cfg cfg) - 1) * peak_fraction
               + (omega_night (comfort_cfg cfg) - 1) * night_fraction in
  party_vot_per_minute cfg * IZR r * access_mean_min * omega.

Definition carbon (cfg : AppConfig) (mode : string) (distance_miles : R) : R :=
  if negb (enabled (carbon_cfg cfg)) then 0
  else
    let SC := social_cost_per_ton (carbon_cfg cfg) in
    let em := default 0 (emissions_kg_per_mile (carbon_cfg cfg) !! mode) in
    SC / 1000 * em * 2 * distance_miles.

Section Sampling.
Context {G : Generator}.
Local Open Scope rng_scope.

(** the sample size that [gaussian_samples] has by default *)
Definition default_size : nat := 2000.

Definition risk_component (cfg : AppConfig) (r : Z) (access_rv : Travel.TravelRV)
    (proc_mean_min : R) : M G R :=
  let alpha := alpha (risk cfg) in
  let rho := rho (risk cfg) in
  let k := apply_context_multiplier 1 (weather (multipliers (risk cfg)))
             (event (multipliers (risk cfg)))
             (construction (multipliers (risk cfg))) in
  let! A := gaussian_samples (Travel.mean access_rv) (Travel.sd access_rv)
              default_size (Some 0) in
  let! P := gaussian_samples proc_mean_min (Rmax 2 (0.2 * proc_mean_min))
              default_size (Some 0) in
  let! deltaA := lift (cvar_minus_mean A alpha) in
  let! deltaP := lift (cvar_minus_mean P alpha) in
  ret (k * rho * party_vot_per_minute cfg * IZR r * (deltaA + deltaP)).

(** the penalty [phi] of one sample of the access time; the defaults
    [thetaE = 1.0] and [thetaL = 2.0] are passed by the callers *)
Definition window_penalty (t_depart_min tmin_min tmax_min thetaE thetaL : R)
    (a : R) : R :=
  let U := t_depart_min - a in
  let early_pen := Rmax (tmin_min - U) 0 in
  let late_pen := Rmax (U - tmax_min) 0 in
  thetaE * early_pen + thetaL * late_pen.

Definition schedule_alignment (cfg : AppConfig) (airport : string)
    (t_depart_min : R) (access_rv : Travel.TravelRV) (tmin_min tmax_min : R)
    (thetaE thetaL : R) : M G R :=
  let! A := gaussian_samples (Travel.mean access_rv) (Travel.sd access_rv)
              default_size (Some 0) in
  let phi := List.map
               (window_penalty t_depart_min tmin_min tmax_min thetaE thetaL) A in
  ret (party_vot_per_minute cfg * mean phi).

End Sampling.

End Components.

(** ** gcdm/data.py: the airport table *)

Module Data.

Record Airport := {
  code : string;
  name : string;
  lon : R;
  lat : R
}.

Definition AIRPORTS : gmap string Airport :=
  <["HVN" := {| code := "HVN"; name := "Tweed New Haven";
                lon := -72.887; lat := 41.263 |}]>
  (<["JFK" := {| code := "JFK"; name := "John F. Kennedy Intl";
                 lon := -73.7781; lat := 40.6413 |}]>
  (<["LGA" := {| code := "LGA"; name := "LaGuardia";
                 lon := -73.8733; lat := 40.7769 |}]>
  (<["EWR" := {| code := "EWR"; name := "Newark Liberty Intl";
                 lon := -74.1745; lat := 40.6895 |}]> ∅))).

(** The list [rows] that the loop of [airports_gdf] fills, one row per
    code and in the order of the codes; a row holds the code, the name and
    the point [(lon, lat)].  [None]: [KeyError] for a code outside the
    table. *)
Fixpoint airport_rows (codes : list string) : option (list Airport) :=
  match codes with
  | [] => Some []
  | c :: codes' =>
      a ← AIRPORTS !! c;
      rows ← airport_rows codes';
      Some (a :: rows)
  end.

(** The frame [gpd.GeoDataFrame(rows, crs=4326)] as the list of its rows.
    A frame of no row has no geometry column: giving it a CRS raises (and
    where geopandas lets the constructor pass, the [to_crs] of the only
    caller raises), so no code at all is [None] too. *)
Definition airports_gdf (codes : list string) : option (list Airport) :=
  rows ← airport_rows codes;
  match rows with
  | [] => None
  | _ => Some rows
  end.

End Data.

(** ** gcdm/aggregators.py, further: provider settings and the context
    multiplier *)

Module ContextProviders.
Import Numeric Aggregators.

(** the values that a provider settings dictionary holds *)
Inductive PyVal :=
  | PyBool (b : bool)
  | PyStr (s : string).

(** [bool(v)] and [str(v)] *)
Definition py_bool (v : PyVal) : bool :=
  match v with
  | PyBool b => b
  | PyStr s => str_truthy s
  end.

Definition py_str (v : PyVal) : string :=
  match v with
  | PyStr s => s
  | PyBool true => "True"
  | PyBool false => "False"
  end.

Definition build_provider_config (raw : gmap string PyVal) : ProviderConfig :=
  {| enable_google := py_bool (default (PyBool false) (raw !! "enable_google"));
     enable_openrouteservice :=
       py_bool (default (PyBool false) (raw !! "enable_openrouteservice"));
     enable_weather := py_bool (default (PyBool false) (raw !! "enable_weather"));
     enable_events := py_bool (default (PyBool false) (raw !! "enable_events"));
     enable_mapbox := py_bool (default (PyBool false) (raw !! "enable_mapbox"));
     google_api_key :=
       py_str (default (PyStr EmptyString) (raw !! "google_api_key"));
     ors_api_key := py_str (default (PyStr EmptyString) (raw !! "ors_api_key"));
     owm_api_key := py_str (default (PyStr EmptyString) (raw !! "owm_api_key"));
     ticketmaster_api_key :=
       py_str (default (PyStr EmptyString) (raw !! "ticketmaster_api_key"));
     mapbox_api_key :=
       py_str (default (PyStr EmptyString) (raw !! "mapbox_api_key")) |}.

(** [cfg.providers.__dict__] of a [ProvidersConfig] *)
Definition providers_dict (p : Config.ProvidersConfig) : gmap string PyVal :=
  <["enable_google" := PyBool (Config.enable_google p)]>
  (<["enable_openrouteservice" := PyBool (Config.enable_openrouteservice p)]>
  (<["enable_weather" := PyBool (Config.enable_weather p)]>
  (<["enable_events" := PyBool (Config.enable_events p)]>
  (<["google_api_key" := PyStr (Config.google_api_key p)]>
  (<["ors_api_key" := PyStr (Config.ors_api_key p)]>
  (<["owm_api_key" := PyStr (Config.owm_api_key p)]>
  (<["ticketmaster_api_key" := PyStr (Config.ticketmaster_api_key p)]>
   ∅))))))).

(** What [weather_context_multiplier] reads of an observation: the wind
    speed if the wind dictionary has one, whether the rain and snow
    dictionaries are non-empty, and the visibility distance if any. *)
Record Observation := {
  wind_speed : option R;
  rain : bool;
  snow : bool;
  visibility_distance : option R
}.

(** The weather and event services are outside the program: the
    observation at a latitude, a longitude and an API key, and the number
    of events near them; [None] when the call (or the import of its
    library) raises. *)
Record ContextServices := {
  weather_at_coords : R -> R -> string -> option Observation;
  events_total : R -> R -> string -> option Z
}.

Definition weather_context_multiplier (X : ContextServices) (lat lon : R)
    (api_key : string) : R :=
  match weather_at_coords X lat lon api_key with
  | Some w =>
      let wind := default 0 (wind_speed w) in
      let rain := if rain w then 1 else 0 in
      let snow := if snow w then 1 else 0 in
      let vis :=
        if float_truthy (visibility_distance w)
        then default 10000 (visibility_distance w)
        else 10000 in
      let mult := 1 + 0.02 * wind + 0.3 * rain + 0.5 * snow
                  + (if Rlt_dec vis 2000 then 0.2 else 0) in
      clip mult 1 2
  | None => 1
  end.

Definition events_context_multiplier (X : ContextServices) (lat lon : R)
    (api_key : string) : R :=
  match events_total X lat lon api_key with
  | Some total =>
      if Z_le_dec 100 total then 1.3
      else if Z_le_dec 50 total then 1.15
      else if Z_le_dec 10 total then 1.05
      else 1
  | None => 1
  end.

(** [np.prod] *)
Definition rprod (a : list R) : R := fold_right Rmult 1 a.

Definition aggregate_context_multiplier (X : ContextServices)
    (origin : R * R) (providers : ProviderConfig) : R :=
  let lat := snd origin in
  let lon := fst origin in
  let mults := [1] in
  let mults :=
    if enable_weather providers && str_truthy (owm_api_key providers)
    then mults ++ [weather_context_multiplier X lat lon (owm_api_key providers)]
    else mults in
  let mults :=
    if enable_events providers && str_truthy (ticketmaster_api_key providers)
    then mults ++ [events_context_multiplier X lat lon
                     (ticketmaster_api_key providers)]
    else mults in
  rprod mults.

End ContextProviders.

(** ** gcdm/model.py, further: the per-mode components and the
    generalized-cost table *)

Module GcModel.
Import Numeric Rng Risk Config Components.

(** A Python dictionary with string keys, in insertion order: assigning
    to a key that is present replaces its value in place, assigning to a
    new key appends it. *)
Definition dict (A : Type) : Type := list (string * A).

Fixpoint dict_set {A} (d : dict A) (k : string) (v : A) : dict A :=
  match d with
  | [] => [(k, v)]
  | (k', v') :: d' =>
      if String.eqb k' k then (k', v) :: d' else (k', v') :: dict_set d' k v
  end.

Fixpoint dict_get {A} (d : dict A) (k : string) : option A :=
  match d with
  | [] => None
  | (k', v') :: d' => if String.eqb k' k then Some v' else dict_get d' k
  end.

Definition dict_values {A} (d : dict A) : list A := List.map snd d.

Definition compute_proc_mean_minutes (cfg : AppConfig) (airport luggage : string)
    : R :=
  let s := default 15 (security_mean (process_times cfg) !! airport) in
  let c := default 0 (bag_drop_mean (process_times cfg) !! luggage) in
  let w := default 10 (walk_mean (process_times cfg) !! airport) in
  s + c + w.

(** [np.hypot] *)
Definition hypot (x y : R) : R := sqrt (x * x + y * y).

(** one row of [origins_df]: the [zip] column may be missing *)
Record Origin := {
  origin_zip : option string;
  origin_lon : R;
  origin_lat : R
}.

(** one row of the returned frame; [delta_gc] is [None] for NaN, [gc]
    holds the [GC_<airport>] columns in their order *)
Record Row := {
  row_zip : string;
  row_lon : R;
  row_lat : R;
  delta_gc : option R;
  gc : dict xfloat
}.

(** [np.nanmin] of a non-empty list without NaN *)
Definition xmin (a b : xfloat) : xfloat :=
  match a, b with
  | NegInf, _ | _, NegInf => NegInf
  | PosInf, x | x, PosInf => x
  | Fin x, Fin y => Fin (Rmin x y)
  end.

Definition nanmin (v : xfloat) (vs : list xfloat) : xfloat :=
  fold_left xmin vs v.

(** the lines from [hvn = ...] to [delta = ...]: the home airport's cost
    minus the best other cost, NaN ([None]) unless both are finite *)
Definition delta_of (per_airport_gc : dict xfloat) : option R :=
  let hvn := dict_get per_airport_gc "HVN" in
  let others :=
    dict_values
      (List.filter (fun kv => negb (String.eqb (fst kv) "HVN")) per_airport_gc) in
  let best_other :=
    match others with
    | [] => None
    | v :: vs => Some (nanmin v vs)
    end in
  match hvn, best_other with
  | Some (Fin h), Some (Fin b) => Some (h - b)
  | _, _ => None
  end.

Section Table.
Context {G : Generator}.
Context (W : Aggregators.Services) (E : Travel.Geo) (C : Model.Clock)
        (X : ContextProviders.ContextServices).
Local Open Scope rng_scope.

Definition compute_components_for_mode (cfg : AppConfig) (mode airport : string)
    (dist_miles : R) (access_rv : Travel.TravelRV) (r_legs : Z)
    (duration_days t_depart_min tmin_min tmax_min : R) (luggage : string)
    : M G Components.Components :=
  let proc_mean := compute_proc_mean_minutes cfg airport luggage in
  let! cash :=
    if String.eqb mode "drive"
    then lift (cash_drive cfg airport dist_miles duration_days)
    else if String.eqb mode "ride"
    then ret (cash_ride cfg airport dist_miles (Travel.mean access_rv))
    else ret (cash_rail cfg airport) in
  let tv := timeval cfg r_legs (Travel.mean access_rv) proc_mean in
  let! rk := risk_component cfg r_legs access_rv proc_mean in
  let! sch := schedule_alignment cfg airport t_depart_min access_rv
                tmin_min tmax_min 1 2 in
  let! xf := lift (transfer_handling cfg airport
                     (String.eqb luggage "checked") r_legs) in
  let cmf := comfort cfg r_legs (Travel.mean access_rv) 0.4 0.1 in
  let crb := carbon cfg mode dist_miles in
  ret {| comp_cash := cash; comp_timeval := tv; comp_risk := rk;
         comp_sched := sch; comp_xfer := xf; comp_comfort := cmf;
         comp_carbon := crb |}.

(** the body of [for m in modes]: the adjusted total of mode [m];
    [mode_rv[m]] raises [KeyError] for a mode without an estimate *)
Definition mode_total (cfg : AppConfig) (m a : string) (dist_miles : R)
    (mode_rv : dict Travel.TravelRV) (r_legs : Z)
    (duration_days t_depart_min tmin_min tmax_min : R) (luggage : string)
    (k_ctx : R) : M G R :=
  let! rv := lift (dict_get mode_rv m) in
  let! comp := compute_components_for_mode cfg m a dist_miles rv r_legs
                 duration_days t_depart_min tmin_min tmax_min luggage in
  let! A := gaussian_samples (Travel.mean rv) (Travel.sd rv) default_size
              (Some 0) in
  let! P := gaussian_samples (compute_proc_mean_minutes cfg a luggage)
              (Rmax 2 (0.2 * compute_proc_mean_minutes cfg a luggage))
              default_size (Some 0) in
  let! shocked := risk_with_shocks (risk cfg) A P in
  let risk_delta := shocked * party_vot_per_minute cfg * IZR r_legs in
  let risk_delta := risk_delta * k_ctx in
  let comp_adj_total :=
    comp_cash comp + comp_timeval comp + risk_delta + comp_sched comp
    + comp_xfer comp + comp_comfort comp + comp_carbon comp in
  ret comp_adj_total.

Fixpoint modes_loop (cfg : AppConfig) (modes : list string) (a : string)
    (dist_miles : R) (mode_rv : dict Travel.TravelRV) (r_legs : Z)
    (duration_days t_depart_min tmin_min tmax_min : R) (luggage : string)
    (k_ctx : R) (per_mode_gc : dict R) : M G (dict R) :=
  match modes with
  | [] => ret per_mode_gc
  | m :: modes' =>
      let! total := mode_total cfg m a dist_miles mode_rv r_legs duration_days
                      t_depart_min tmin_min tmax_min luggage k_ctx in
      modes_loop cfg modes' a dist_miles mode_rv r_legs duration_days
        t_depart_min tmin_min tmax_min luggage k_ctx
        (dict_set per_mode_gc m total)
  end.

(** the body of [for a in airports]: the blended cost of airport [a] for
    the origin at [(lon, lat)] *)
Definition airport_gc (cfg : AppConfig) (apts : dict (R * R))
    (providers : Aggregators.ProviderConfig) (lon lat : R) (a : string)
    (modes : list string) (luggage : string) (r_legs : Z) (duration_days : R)
    : M G xfloat :=
  let! apt := lift (dict_get apts a) in
  let alon := fst apt in
  let alat := snd apt in
  let dist_miles := hypot ((lon - alon) * 54.6) ((lat - alat) * 69) in
  let! drive_rv :=
    lift (Travel.estimate_drive_time_minutes W E lon lat alon alat
            (Some providers)) in
  let! ride_rv :=
    lift (Travel.estimate_ride_time_minutes W E lon lat alon alat None) in
  let! rail_rv :=
    lift (Travel.estimate_rail_time_minutes E lon lat alon alat) in
  let mode_rv :=
    dict_set (dict_set (dict_set [] "drive" drive_rv) "ride" ride_rv)
      "rail" rail_rv in
  let '(t_depart_min, tmin_min, tmax_min) :=
    Model.schedule_window C (schedule cfg) a in
  let k_ctx :=
    ContextProviders.aggregate_context_multiplier X (lon, lat) providers in
  let! per_mode_gc :=
    modes_loop cfg modes a dist_miles mode_rv r_legs duration_days
      t_depart_min tmin_min tmax_min luggage k_ctx [] in
  lift (Model.softmin (dict_values per_mode_gc) (mu (softmin_cfg cfg))).

Fixpoint airports_loop (cfg : AppConfig) (apts : dict (R * R))
    (providers : Aggregators.ProviderConfig) (lon lat : R)
    (airports modes : list string) (luggage : string) (r_legs : Z)
    (duration_days : R) (per_airport_gc : dict xfloat) : M G (dict xfloat) :=
  match airports with
  | [] => ret per_airport_gc
  | a :: airports' =>
      let! gc_soft := airport_gc cfg apts providers lon lat a modes luggage
                        r_legs duration_days in
      airports_loop cfg apts providers lon lat airports' modes luggage r_legs
        duration_days (dict_set per_airport_gc a gc_soft)
  end.

(** the body of [for _, row in origins_df.iterrows()]: the row appended
    for one origin *)
Definition origin_row (cfg : AppConfig) (apts : dict (R * R))
    (providers : Aggregators.ProviderConfig) (row : Origin)
    (airports modes : list string) (luggage : string) (r_legs : Z)
    (duration_days : R) : M G Row :=
  let lon := origin_lon row in
  let lat := origin_lat row in
  let zip_code := default EmptyString (origin_zip row) in
  let! per_airport_gc :=
    airports_loop cfg apts providers lon lat airports modes luggage r_legs
      duration_days [] in
  ret {| row_zip := zip_code; row_lon := lon; row_lat := lat;
         delta_gc := delta_of per_airport_gc;
         gc := per_airport_gc |}.

Fixpoint origins_loop (cfg : AppConfig) (apts : dict (R * R))
    (providers : Aggregators.ProviderConfig) (origins : list Origin)
    (airports modes : list string) (luggage : string) (r_legs : Z)
    (duration_days : R) (rows : list Row) : M G (list Row) :=
  match origins with
  | [] => ret rows
  | row :: origins' =>
      let! r := origin_row cfg apts providers row airports modes luggage
                  r_legs duration_days in
      origins_loop cfg apts providers origins' airports modes luggage r_legs
        duration_days (rows ++ [r])
  end.

(** the dictionary [apts]: the point of every row of the airport frame *)
Definition apts_of (ap : list Data.Airport) : dict (R * R) :=
  fold_left (fun d row => dict_set d (Data.code row) (Data.lon row, Data.lat row))
    ap [].

(** The returned frame as the list of its rows.  The defaults
    [luggage = "none"], [r_legs = 1] and [duration_days = 3.0] are passed by
    the callers. *)
Definition generalized_cost_delta (cfg : AppConfig) (origins_df : list Origin)
    (airports modes : list string) (luggage : string) (r_legs : Z)
    (duration_days : R) : M G (list Row) :=
  let! ap := lift (Data.airports_gdf airports) in
  let apts := apts_of ap in
  let providers :=
    ContextProviders.build_provider_config
      (ContextProviders.providers_dict (providers cfg)) in
  origins_loop cfg apts providers origins_df airports modes luggage r_legs
    duration_days [].

End Table.

End GcModel.

(** ** gcdm/qsi.py, further: the itinerary factors and the market score *)

Module QsiMarket.
Import Numeric Qsi.

(** [dateutil] is outside the program: a type of parsed timestamps, the
    two parsers ([None] when they raise) and the clock fields that the
    code reads. *)
Record Calendar := {
  timestamp : Type;
  isoparse : string -> option timestamp;
  parse : string -> option timestamp;
  hour : timestamp -> Z;
  minute : timestamp -> Z;
  second : timestamp -> Z;
  microsecond : timestamp -> Z
}.

(** [softmin_access(cfg, per_mode_gc)] over the values of the dictionary,
    given as its items in order.  The expression is that of [softmin]; the
    real-valued formula here stands for the floats where [muA] is not 0,
    the dictionary is not empty and no exponential underflows or
    overflows, which is where [Model.softmin] has the same value. *)
Definition softmin_access (cfg : Config.AppConfig)
    (per_mode_gc : list (string * R)) : R :=
  let mu := muA (Config.qsi cfg) in
  let vals := List.map snd per_mode_gc in
  -1 / mu * ln (rsum (List.map (fun v => exp (- mu * v)) vals)).

Definition access_factor (cfg : Config.AppConfig) (gc_soft : R) : R :=
  exp (- betaA (Config.qsi cfg) * gc_soft).

(** the defaults [alpha_short = 0.03], [alpha_long = 0.01] and
    [alpha_s = 0.02] are passed by the caller *)
Definition layover_quality (Lk sk L_star U_star alpha_short alpha_long alpha_s : R)
    : R :=
  alpha_short * Rmax (L_star - Lk) 0 + alpha_long * Rmax (Lk - U_star) 0
  + alpha_s * sk.

Definition reprotect (cfg : QSIConfig) (k : Itinerary) (h : string) : R :=
  let t := exp (- beta_rec cfg * Rmax (reprotect_time_mean k) 0) in
  let alt := 1 + xi cfg * IZR (Z.max (n_alternates_window k) 0) in
  t * alt.

Definition product_score (cfg : QSIConfig) (k : Itinerary) : R :=
  let q := quality_weights cfg in
  let qk := wseat q * seat_pitch k + wwifi q * wifi_rel k
            + wac q * IZR (is_widebody k) + wprio q * IZR (is_priority k) in
  exp (betaQ cfg * qk).

Definition perks (cfg : QSIConfig) (k : Itinerary) : R :=
  exp (beta_ffp cfg * price_rebates k + beta_lounge cfg * IZR (has_lounge k)
       + beta_pre cfg * IZR (has_precheck k)).

Definition duplicates_scarcity (cfg : QSIConfig) (k : Itinerary) : R :=
  1 / (1 + IZR (Z.max (dupcount k) 0))
  * exp (- beta_scar cfg * Rmax (loadfactor_risk k) 0).

Definition iops (cfg : QSIConfig) (k : Itinerary) (h : string) : R :=
  let mct := hub_mct cfg h in
  let Lk := layover_minutes k in
  exp (- beta_MCT cfg * Rmax (mct - Lk) 0)
  * exp (- beta_bag cfg * Rmax (bag_miss_prob k) 0).

Section Timestamps.
Context (D : Calendar).

(** the defaults [eta_red = 0.1] and [eta_curfew = 0.05] are passed by the
    caller; [None] when a timestamp does not parse *)
Definition hod_penalty (tdep tarr : string) (eta_red eta_curfew : R)
    : option R :=
  d ← isoparse D tdep;
  a ← isoparse D tarr;
  let is_redeye := Z.ltb (hour D a) 6 in
  let is_curfew := Z.ltb (hour D d) 6 || Z.ltb 22 (hour D d) in
  Some (eta_red * (if is_redeye then 1 else 0)
        + eta_curfew * (if is_curfew then 1 else 0)).

(** [abs((arr - b).total_seconds()) / 60.0] where [b] is [arr] with the
    hour and the minute of the bank time and no seconds: both have the
    date and the zone of [arr], so only the clock fields count *)
Definition bank_gap_minutes (arr b : timestamp D) : R :=
  Rabs (IZR ((hour D arr - hour D b) * 3600 + (minute D arr - minute D b) * 60
             + second D arr)
        + IZR (microsecond D arr) / 1000000) / 60.

(** the loop that fills [diffs]; [None] when a bank time does not parse *)
Fixpoint bank_diffs (arr : timestamp D) (bts : list string) : option (list R) :=
  match bts with
  | [] => Some []
  | t :: bts' =>
      b ← parse D t;
      diffs ← bank_diffs arr bts';
      Some (bank_gap_minutes arr b :: diffs)
  end.

Definition bank_alignment (cfg : QSIConfig) (k : Itinerary) (h : string)
    : option R :=
  arr ← isoparse D (tarr_iso k);
  let bts := bank_times (hub_entry cfg h) in
  match bts with
  | [] => Some 1
  | _ =>
      diffs ← bank_diffs arr bts;
      Some (exp (- beta_B cfg * Model.list_min diffs
                 / Rmax (bank_window_w cfg) 0.001))
  end.

Definition itinerary_weight (cfg : Config.AppConfig) (k : Itinerary)
    (segment : string) (state : gmap string R) : option R :=
  let T := block_minutes k + layover_minutes k in
  let phi_conn := layover_quality (layover_minutes k) (sk k) (L_star k)
                    (U_star k) 0.03 0.01 0.02 in
  phi_hod ← hod_penalty (tdep_iso k) (tarr_iso k) 0.1 0.05;
  let R := reliability_terms (Config.qsi cfg) k (layover_minutes k) (hub k) in
  let Rh := 1 in
  let REC := reprotect (Config.qsi cfg) k (hub k) in
  let Pk := product_score (Config.qsi cfg) k in
  let ALk := perks (Config.qsi cfg) k in
  let Fk := price_availability (Config.qsi cfg) k segment state in
  let Dk := duplicates_scarcity (Config.qsi cfg) k in
  Bk ← bank_alignment (Config.qsi cfg) k (hub k);
  let IOPS := iops (Config.qsi cfg) k (hub k) in
  let betaT := segment_field (Config.qsi cfg) segment beta_P 0.01 in
  let betaC := 0.02 in
  let betaH := 0.02 in
  let f_gamma := 1 in
  let W := f_gamma * exp (- betaT * T) * exp (- betaC * phi_conn)
           * exp (- betaH * phi_hod) * R * Rh * REC * Pk * ALk * Fk * Dk * Bk
           * IOPS in
  Some W.

(** the numeric entries of a state dictionary *)
Definition state_dict (weight : R) (s : QSIState) : gmap string R :=
  <["weight" := weight]>
  (<["price_multiplier" := price_multiplier s]>
  (<["delay_mean_add" := delay_mean_add s]>
  (<["delay_var_mult" := delay_var_mult s]> ∅))).

(** the state of the mixture when the configuration lists none *)
Definition base_state : QSIState :=
  {| state_name := "base"; state_weight := 1; price_multiplier := 1;
     delay_mean_add := 0; delay_var_mult := 1 |}.

(** the list [states] after the weights are normalised *)
Definition normalised_states (cfg : QSIConfig) : list (gmap string R) :=
  let states := match states cfg with [] => [base_state] | sts => sts end in
  let sw := rsum (List.map state_weight states) in
  List.map (fun s => state_dict (state_weight s / Rmax sw 0.000001) s) states.

(** the three nested loops that accumulate [W_sum] *)
Fixpoint itineraries_loop (cfg : Config.AppConfig) (w_s : R) (s : string)
    (st : gmap string R) (itineraries : list Itinerary) (W_sum : R)
    : option R :=
  match itineraries with
  | [] => Some W_sum
  | k :: itineraries' =>
      w ← itinerary_weight cfg k s st;
      itineraries_loop cfg w_s s st itineraries'
        (W_sum + w_s * default 0 (st !! "weight") * w)
  end.

Fixpoint states_loop (cfg : Config.AppConfig) (w_s : R) (s : string)
    (sts : list (gmap string R)) (itineraries : list Itinerary) (W_sum : R)
    : option R :=
  match sts with
  | [] => Some W_sum
  | st :: sts' =>
      W_sum' ← itineraries_loop cfg w_s s st itineraries W_sum;
      states_loop cfg w_s s sts' itineraries W_sum'
  end.

Fixpoint segments_loop (cfg : Config.AppConfig) (segs : list string)
    (sts : list (gmap string R)) (itineraries : list Itinerary) (W_sum : R)
    : option R :=
  match segs with
  | [] => Some W_sum
  | s :: segs' =>
      let w_s := segment_field (Config.qsi cfg) s seg_weight 1 in
      W_sum' ← states_loop cfg w_s s sts itineraries W_sum;
      segments_loop cfg segs' sts itineraries W_sum'
  end.

Record QSIResult := {
  A : R;
  W_sum : R;
  QSI_plus : R
}.

(** [None]: an exception leaves the function ([ZeroDivisionError] for
    [muA = 0], or a timestamp that does not parse) *)
Definition qsi_plus_for_market (cfg : Config.AppConfig)
    (per_mode_gc : list (string * R)) (itineraries : list Itinerary)
    (segs : list string) : option QSIResult :=
  if Req_dec_T (muA (Config.qsi cfg)) 0 then None
  else
    let gc_soft := softmin_access cfg per_mode_gc in
    let A := access_factor cfg gc_soft in
    let sts := normalised_states (Config.qsi cfg) in
    W_sum ← segments_loop cfg segs sts itineraries 0;
    Some {| A := A; W_sum := W_sum; QSI_plus := A * W_sum |}.

End Timestamps.

End QsiMarket.

(** ** Notions used to state properties of the cost table *)

Module GcAux.
Import Numeric Rng Config GcModel.

(** Mode [m] at airport [a] raises whatever the estimates, the window,
    the context multiplier and the generator state are. *)
Definition doomed (G : Generator) (cfg : AppConfig) (luggage : string)
    (r_legs : Z) (duration_days : R) (m a : string) : Prop :=
  forall dist_miles drive_rv ride_rv rail_rv t_depart_min tmin_min tmax_min
         k_ctx (g : state G),
    fst (mode_total cfg m a dist_miles
           [("drive", drive_rv); ("ride", ride_rv); ("rail", rail_rv)]
           r_legs duration_days t_depart_min tmin_min tmax_min luggage k_ctx g)
    = None.

(** Every mode of [modes] returns at airport [a], whatever the estimates
    (of non-negative spread), the window, the context multiplier and the
    generator state are. *)
Definition modes_return (G : Generator) (cfg : AppConfig) (luggage : string)
    (r_legs : Z) (duration_days : R) (modes : list string) (a : string)
    : Prop :=
  forall m dist_miles drive_rv ride_rv rail_rv t_depart_min tmin_min tmax_min
         k_ctx (g : state G),
    In m modes ->
    0 <= Travel.sd drive_rv -> 0 <= Travel.sd ride_rv ->
    0 <= Travel.sd rail_rv ->
    exists total g',
      mode_total cfg m a dist_miles
        [("drive", drive_rv); ("ride", ride_rv); ("rail", rail_rv)]
        r_legs duration_days t_depart_min tmin_min tmax_min luggage k_ctx g
      = (Some total, g').

Section Window.
Context {G : Generator}.
Context (W : Aggregators.Services) (E : Travel.Geo)
        (X : ContextProviders.ContextServices).
Local Open Scope rng_scope.


End Window.

(** the configuration [cfg] with other risk multipliers *)
Definition with_multipliers (cfg : AppConfig) (mult : Risk.RiskMultipliers)
    : AppConfig :=
  {| project := project cfg; region := region cfg; party := party cfg;
     schedule := schedule cfg; vot := vot cfg;
     risk := {| Risk.alpha := Risk.alpha (risk cfg);
                Risk.rho := Risk.rho (risk cfg);
                Risk.multipliers := mult;
                Risk.shocks := Risk.shocks (risk cfg) |};
     modes := modes cfg; process_times := process_times cfg;
     comfort_cfg := comfort_cfg cfg; carbon_cfg := carbon_cfg cfg;
     softmin_cfg := softmin_cfg cfg; map_cfg := map_cfg cfg;
     providers := providers cfg; qsi := qsi cfg |}.

(** what a returned row copies from its origin and how its columns hang
    together *)
Definition row_of (airports : list string) (o : Origin) (r : Row) : Prop :=
  row_zip r = default EmptyString (origin_zip o)
  /\ row_lon r = origin_lon o
  /\ row_lat r = origin_lat o
  /\ delta_gc r = delta_of (gc r)
  /\ (forall a, In a airports <-> dict_get (gc r) a <> None).

End GcAux.

(** ** Notions used to state properties of the itinerary score *)

Module QsiAux.
Import Qsi.

(** the itinerary [k] with other values in the attributes that the score
    does not read: the endpoints, the access mode, the inbound statistics
    and the itinerary's own hub risks and bank times *)
Definition replace_unread (k : Itinerary) (oa de ma : string)
    (idm iti wx cap : R) (banks : list string) : Itinerary :=
  {| origin_airport := oa; hub := hub k; dest := de; mode_access := ma;
     block_minutes := block_minutes k; layover_minutes := layover_minutes k;
     L_star := L_star k; U_star := U_star k; sk := sk k;
     tdep_iso := tdep_iso k; tarr_iso := tarr_iso k;
     cancel_rate := cancel_rate k;
     inbound_delay_mean := idm; inbound_taxi_in_mean := iti;
     delay_pos_mean := delay_pos_mean k; delay_var := delay_var k;
     hub_WxRisk := wx; hub_CapacityRisk := cap;
     reprotect_time_mean := reprotect_time_mean k;
     n_alternates_window := n_alternates_window k;
     seat_pitch := seat_pitch k; wifi_rel := wifi_rel k;
     is_widebody := is_widebody k; is_priority := is_priority k;
     has_lounge := has_lounge k; has_precheck := has_precheck k;
     price_mean := price_mean k; price_ancillary := price_ancillary k;
     price_rebates := price_rebates k;
     seats_available := seats_available k; dupcount := dupcount k;
     loadfactor_risk := loadfactor_risk k; bag_miss_prob := bag_miss_prob k;
     hub_bank_times := banks |}.

(** a timestamp of the itinerary, or a bank time configured for its hub,
    that the parser rejects *)
Definition unreadable (D : QsiMarket.Calendar) (cfg : QSIConfig)
    (k : Itinerary) : Prop :=
  QsiMarket.isoparse D (tdep_iso k) = None
  \/ QsiMarket.isoparse D (tarr_iso k) = None
  \/ exists t, In t (bank_times (hub_entry cfg (hub k)))
                /\ QsiMarket.parse D t = None.

End QsiAux.

(** ** Concrete inputs for the functions above *)

Module Examples2.
Import Config.

(** two adults and a child; an adult hour is worth 30, a child hour 12 *)
Definition family : PartyConfig :=
  {| NA := 2; NC := 1; vA_usd_per_hour := 30; vC_usd_per_hour := 12;
     lambda_child_time_weight := 0.5 |}.

(** parking rates for HVN and JFK only *)
Definition drive_cfg : DriveModeConfig :=
  {| cost := {| cmile := 0.6; tolled_miles_multiplier := 1;
                rem_lot_fee := 0; shuttle_fee := 0; drive_fare_risk := 0 |};
     parking_daily := <["HVN" := 12]> (<["JFK" := 35]> ∅);
     parking_weekly := <["HVN" := 60]> (<["JFK" := 180]> ∅) |}.

Definition ride_cfg : RideModeConfig :=
  {| surge := 1.2; base_fare := 3; per_mile := 1.5; per_minute := 0.3;
     booking_fee := 2; tip_fraction := 0.15; ride_fare_risk := 1 |}.

Definition rail_cfg : RailModeConfig :=
  {| adult_fare_default := 18; child_fare_default := 9; transfer_fare := 3;
     airtrain := <["JFK" := 8.5]> ∅; station_parking := 6;
     miss_prob_base := 0.1; headway_minutes := 30; miss_slope := Some 0.02 |}.

(** a configuration with the given risk settings, time-of-day bands and
    itinerary-scoring settings *)
Definition app_cfg (r : Risk.RiskConfig) (bands : list VOTBand)
    (q : Qsi.QSIConfig) : AppConfig :=
  {| project := {| project_name := "gcdm"; seed := 42; processes := 1 |};
     region := {| focus_state_fips := "09";
                  region_airports := ["HVN"; "JFK"];
                  region_modes := ["drive"; "ride"; "rail"] |};
     party := family;
     schedule := Examples.loose_schedule;
     vot := {| tod_bands := bands; peak_hours := [7; 8; 17; 18]%Z |};
     risk := r;
     modes := {| drive := drive_cfg; ride := ride_cfg; rail := rail_cfg |};
     process_times :=
       {| security_mean := <["JFK" := 30]> ∅;
          bag_drop_mean := <["checked" := 12]> ∅;
          walk_mean := <["JFK" := 15]> ∅ |};
     comfort_cfg := {| omega_peak := 1.3; omega_night := 1.1 |};
     carbon_cfg :=
       {| enabled := true; social_cost_per_ton := 50;
          emissions_kg_per_mile := <["drive" := 0.4]> (<["ride" := 0.45]> ∅) |};
     softmin_cfg := {| mu := 0.05 |};
     map_cfg := {| output_crs := 3857; interactive := false;
                   basemap := "cartodbpositron"; title := "Delta" |};
     providers :=
       {| enable_google := true; enable_openrouteservice := true;
          enable_weather := true; enable_events := true;
          google_api_key := "g"; ors_api_key := "o";
          owm_api_key := "w"; ticketmaster_api_key := "t" |};
     qsi := q |}.

Definition plain_cfg : AppConfig :=
  app_cfg (Examples.risk_cfg 0.5 10) [] Examples.qsi_leisure.

(** risk settings as [load_config] builds them: no [shocks] attribute *)
Definition loaded_risk : Risk.RiskConfig :=
  {| Risk.alpha := 0.5; Risk.rho := 1;
     Risk.multipliers :=
       {| Risk.weather := 1; Risk.event := 1; Risk.construction := 1 |};
     Risk.shocks := None |}.

(** no weather or event service answers *)
Definition silent : ContextProviders.ContextServices :=
  {| ContextProviders.weather_at_coords := fun _ _ _ => None;
     ContextProviders.events_total := fun _ _ _ => None |}.

(** an origin in New Haven *)
Definition new_haven : GcModel.Origin :=
  {| GcModel.origin_zip := Some "06511";
     GcModel.origin_lon := -72.9;
     GcModel.origin_lat := 41.3 |}.

(** the services of [services_ten] with Mapbox out of order *)
Definition services_ten_without_mapbox : Aggregators.Services :=
  {| Aggregators.google_body := Examples.answers 10;
     Aggregators.ors_body := Examples.flaky 10;
     Aggregators.mapbox_body := Examples.down |}.

(** A calendar that knows two timestamps and two bank times and fails
    on every other string.  A parsed timestamp is its clock fields: hour,
    minute, second, microsecond. *)
Definition clock_fields : Type := Z * Z * Z * Z.

Definition pocket_calendar : QsiMarket.Calendar :=
  {| QsiMarket.timestamp := clock_fields;
     QsiMarket.isoparse := fun s =>
       if String.eqb s "2025-01-01T08:00:00" then Some (8, 0, 0, 0)%Z
       else if String.eqb s "2025-01-01T14:00:00" then Some (14, 0, 0, 0)%Z
       else None;
     QsiMarket.parse := fun s =>
       if String.eqb s "13:30" then Some (13, 30, 0, 0)%Z
       else if String.eqb s "17:00" then Some (17, 0, 0, 0)%Z
       else None;
     QsiMarket.hour := fun t => fst (fst (fst t));
     QsiMarket.minute := fun t => snd (fst (fst t));
     QsiMarket.second := fun t => snd (fst t);
     QsiMarket.microsecond := fun t => snd t |}.

(** the leisure configuration with two states of the world, weights 3
    and 1, prices a fifth higher in the second *)
Definition qsi_two_states : Qsi.QSIConfig :=
  {| Qsi.muA := 0.2; Qsi.betaA := 0.03; Qsi.betaD := 0.02;
     Qsi.betaV := 0.01; Qsi.betaW := 0.02; Qsi.betaC := 0.02;
     Qsi.beta_rec := 0.02; Qsi.xi := 0.15; Qsi.betaQ := 0.02;
     Qsi.quality_weights :=
       {| Qsi.wseat := 0.5; Qsi.wwifi := 0.2; Qsi.wac := 0.2;
          Qsi.wprio := 0.1 |};
     Qsi.beta_ffp := 0.01; Qsi.beta_lounge := 0.01; Qsi.beta_pre := 0.01;
     Qsi.beta_scar := 0.02; Qsi.beta_B := 0.02; Qsi.bank_window_w := 1;
     Qsi.beta_MCT := 0.03; Qsi.beta_bag := 0.02;
     Qsi.alt_window_minutes := 180; Qsi.share_theta := 1;
     Qsi.states :=
       [ {| Qsi.state_name := "calm"; Qsi.state_weight := 3;
            Qsi.price_multiplier := 1; Qsi.delay_mean_add := 0;
            Qsi.delay_var_mult := 1 |};
         {| Qsi.state_name := "storm"; Qsi.state_weight := 1;
            Qsi.price_multiplier := 1.2; Qsi.delay_mean_add := 15;
            Qsi.delay_var_mult := 2 |} ];
     Qsi.segments := [Examples.leisure]; Qsi.dests := [];
     Qsi.hub_risks := ∅ |}.

End Examples2.

(** * Properties *)

(** ** Facts about the real-number helpers *)

Module NumericFacts.
Import Numeric.

Lemma exp_le_1 (y : R) : y <= 0 -> exp y <= 1.
Proof.
  intros [Hy | ->].
  - left. rewrite <- exp_0. now apply exp_increasing.
  - rewrite exp_0. lra.
Qed.

Lemma exp_gt_1 (y : R) : 0 < y -> 1 < exp y.
Proof. intros Hy. rewrite <- exp_0. now apply exp_increasing. Qed.

Lemma clip_unit_id (x : R) : 0 <= x <= 1 -> clip x 0 1 = x.
Proof.
  intros [H0 H1]. unfold clip.
  rewrite Rmax_left by lra. now rewrite Rmin_left by lra.
Qed.

Lemma clip_unit_neg (x : R) : x <= 0 -> clip x 0 1 = 0.
Proof.
  intros H. unfold clip.
  rewrite Rmax_right by lra. now rewrite Rmin_left by lra.
Qed.

End NumericFacts.

(** ** qsi.py: misconnect probability and price/availability *)

Module QsiFacts.
Import Numeric NumericFacts Qsi.

(** above the minimum connect time the misconnect term is
    [1 - exp(-(Lk - mct)/20)], a number of [[0,1]] *)
Lemma pi_mis_above (cfg : QSIConfig) (Lk : R) (h : string) :
  hub_mct cfg h <= Lk ->
  pi_mis cfg Lk h = 1 - exp (- (Lk - hub_mct cfg h) / 20)
  /\ 0 <= pi_mis cfg Lk h <= 1.
Proof.
  intros Hle. unfold pi_mis.
  rewrite (Rmax_left (Lk - hub_mct cfg h) 0) by lra.
  set (e := exp (- (Lk - hub_mct cfg h) / 20)).
  assert (He1 : e <= 1) by (apply exp_le_1; lra).
  assert (He0 : 0 < e) by apply exp_pos.
  rewrite (Rmin_right 1 (1 - e)) by lra.
  rewrite (Rmax_right 0 (1 - e)) by lra.
  lra.
Qed.

(** at or below the minimum connect time it is 0 *)
Lemma pi_mis_below (cfg : QSIConfig) (Lk : R) (h : string) :
  Lk <= hub_mct cfg h -> pi_mis cfg Lk h = 0.
Proof.
  intros Hle. unfold pi_mis.
  rewrite (Rmax_right (Lk - hub_mct cfg h) 0) by lra.
  replace (- 0 / 20) with 0 by lra.
  rewrite exp_0. replace (1 - 1) with 0 by lra.
  rewrite (Rmin_right 1 0) by lra.
  now rewrite Rmax_left by lra.
Qed.

Lemma pi_mis_is_clip (cfg : QSIConfig) (Lk : R) (h : string) :
  pi_mis cfg Lk h = clip (1 - exp (- (Lk - hub_mct cfg h) / 20)) 0 1.
Proof.
  destruct (Rle_lt_dec (hub_mct cfg h) Lk) as [Hle | Hlt].
  - destruct (pi_mis_above cfg Lk h Hle) as [Heq Hrange].
    rewrite Heq in Hrange |- *.
    symmetry. apply clip_unit_id. lra.
  - rewrite pi_mis_below by lra.
    symmetry. apply clip_unit_neg.
    assert (1 < exp (- (Lk - hub_mct cfg h) / 20)) by (apply exp_gt_1; lra).
    lra.
Qed.

(** C1 (as amended).  Inside [reliability_terms] the misconnect
    probability is [clip(1 - exp(-(layover - MCT)/20), 0, 1)] with the
    hub's minimum connect time (40 when the hub has none); it is 0 for
    every layover at or below the minimum connect time, lies between 0
    and 1, and comes as close to 1 as wanted once the layover is long
    enough. *)
Theorem misconnect_probability_formula (cfg : QSIConfig) (k : Itinerary)
    (Lk : R) (h : string) :
  reliability_terms cfg k Lk h
  = (1 - cancel_rate k)
    * (1 - clip (1 - exp (- (Lk - hub_mct cfg h) / 20)) 0 1)
    * exp (- betaD cfg * Rmax (delay_pos_mean k) 0
           - betaV cfg * Rmax (delay_var k) 0)
    * exp (- betaW cfg * default 0.2 (WxRisk (hub_entry cfg h))
           - betaC cfg * default 0.3 (CapacityRisk (hub_entry cfg h)))
  /\ pi_mis cfg Lk h = clip (1 - exp (- (Lk - hub_mct cfg h) / 20)) 0 1
  /\ (Lk <= hub_mct cfg h -> pi_mis cfg Lk h = 0)
  /\ 0 <= pi_mis cfg Lk h <= 1
  /\ (forall eps, 0 < eps ->
        exists L0, forall L, L0 <= L -> 1 - eps < pi_mis cfg L h).
Proof.
  split; [| split; [| split; [| split]]].
  - unfold reliability_terms. now rewrite pi_mis_is_clip.
  - apply pi_mis_is_clip.
  - apply pi_mis_below.
  - destruct (Rle_lt_dec (hub_mct cfg h) Lk) as [Hle | Hlt].
    + apply pi_mis_above in Hle. lra.
    + rewrite pi_mis_below by lra. lra.
  - intros eps Heps.
    exists (hub_mct cfg h + 20 / eps). intros L HL.
    assert (Hq : 0 < 20 / eps) by (apply Rdiv_lt_0_compat; lra).
    destruct (pi_mis_above cfg L h) as [Heq _]; [lra |].
    rewrite Heq.
    set (y := (L - hub_mct cfg h) / 20).
    assert (Hy : / eps <= y).
    { unfold y. apply (Rmult_le_reg_l 20); [lra |].
      replace (20 * ((L - hub_mct cfg h) / 20)) with (L - hub_mct cfg h) by field.
      replace (20 * / eps) with (20 / eps) by (unfold Rdiv; ring). lra. }
    assert (Hinv : 0 < / eps) by now apply Rinv_0_lt_compat.
    replace (- (L - hub_mct cfg h) / 20) with (- y) by (unfold y; field).
    rewrite exp_Ropp.
    assert (Hexp : 1 + y <= exp y) by apply exp_ineq1_le.
    assert (Hlt : / exp y < eps).
    { rewrite <- (Rinv_inv eps).
      apply Rinv_0_lt_contravar; lra. }
    lra.
Qed.

Lemma misconnect_probability_formula_witness :
  30 <= hub_mct Examples.qsi_defaults "ORD"
  /\ pi_mis Examples.qsi_defaults 30 "ORD" = 0.
Proof.
  assert (H : 30 <= hub_mct Examples.qsi_defaults "ORD").
  { unfold hub_mct, hub_entry. simpl. rewrite lookup_empty. simpl. lra. }
  split; [exact H |].
  destruct (misconnect_probability_formula Examples.qsi_defaults
              (Examples.via_ord 5) 30 "ORD") as (_ & _ & Hzero & _).
  exact (Hzero H).
Defined.

(** A 30-minute layover at a hub whose minimum connect time is 40: the
    misconnect probability is 0, not 1. *)
Lemma short_layover_misconnect_is_zero :
  30 < hub_mct Examples.qsi_defaults "ORD"
  /\ pi_mis Examples.qsi_defaults 30 "ORD" = 0
  /\ pi_mis Examples.qsi_defaults 30 "ORD" <> 1.
Proof.
  assert (H : 30 < hub_mct Examples.qsi_defaults "ORD").
  { unfold hub_mct, hub_entry. simpl. rewrite lookup_empty. simpl. lra. }
  assert (Hz : pi_mis Examples.qsi_defaults 30 "ORD" = 0)
    by (apply pi_mis_below; lra).
  repeat split; [exact H | exact Hz | rewrite Hz; lra].
Qed.

Lemma price_availability_nonneg (cfg : QSIConfig) (k : Itinerary)
    (s : string) (state : gmap string R) :
  0 <= price_availability cfg k s state.
Proof.
  unfold price_availability.
  set (e := exp _). assert (He : 0 < e) by apply exp_pos.
  destruct (Rle_dec _ _); [destruct (Z_le_dec _ _) |]; nra.
Qed.

Lemma price_availability_few_seats (cfg : QSIConfig) (k : Itinerary)
    (s : string) (state : gmap string R) :
  (seats_available k < segment_field cfg s seats_threshold 2)%Z ->
  price_availability cfg k s state
  = 0.3 * exp (- segment_field cfg s beta_P 0.01 * effective_price k state).
Proof.
  intros Hseats. unfold price_availability.
  destruct (Rle_dec _ _); [destruct (Z_le_dec _ _) |]; try reflexivity; lia.
Qed.

(** C5 (as amended).  [price_availability] has no hard gate.  With fewer
    seats than the segment's threshold, or with an effective price above
    the segment's reference price, the availability factor is 0.3, not 0,
    and the value is [0.3 * exp(-beta_P * eff)]; with enough seats and a
    price within the reference it is [exp(-beta_P * eff)]. *)
Theorem price_availability_soft_gate (cfg : QSIConfig) (k : Itinerary)
    (s : string) (state : gmap string R) :
  let eff := effective_price k state in
  let betaP := segment_field cfg s beta_P 0.01 in
  let n_req := segment_field cfg s seats_threshold 2%Z in
  let ref_price := segment_field cfg s p_star 300 in
  ((seats_available k < n_req)%Z ->
     price_availability cfg k s state = 0.3 * exp (- betaP * eff))
  /\ (ref_price < eff ->
        price_availability cfg k s state = 0.3 * exp (- betaP * eff))
  /\ (eff <= ref_price -> (n_req <= seats_available k)%Z ->
        price_availability cfg k s state = exp (- betaP * eff)).
Proof.
  intros eff betaP n_req ref_price.
  split; [apply price_availability_few_seats |].
  split.
  - intros Hprice. unfold price_availability.
    fold eff betaP ref_price.
    destruct (Rle_dec eff ref_price); [lra | reflexivity].
  - intros Hprice Hseats. unfold price_availability.
    fold eff betaP ref_price n_req.
    destruct (Rle_dec eff ref_price); [| lra].
    destruct (Z_le_dec n_req (seats_available k)); [| lia].
    now rewrite Rmult_1_l.
Qed.

Lemma price_availability_soft_gate_witness :
  (seats_available (Examples.via_ord 0)
   < segment_field Examples.qsi_leisure "leisure" seats_threshold 2)%Z
  /\ price_availability Examples.qsi_leisure (Examples.via_ord 0) "leisure" ∅
     = 0.3 * exp (- segment_field Examples.qsi_leisure "leisure" beta_P 0.01
                   * effective_price (Examples.via_ord 0) ∅).
Proof.
  assert (H : (seats_available (Examples.via_ord 0)
               < segment_field Examples.qsi_leisure "leisure" seats_threshold 2)%Z)
    by reflexivity.
  split; [exact H |].
  destruct (price_availability_soft_gate Examples.qsi_leisure
              (Examples.via_ord 0) "leisure" ∅) as (Hfew & _).
  exact (Hfew H).
Defined.

(** No seat left, two required: the availability factor is 0.3 and the
    itinerary keeps the weight [0.3 * exp(-2)], which is not zero. *)
Lemma sold_out_itinerary_keeps_weight :
  (seats_available (Examples.via_ord 0)
   < segment_field Examples.qsi_leisure "leisure" seats_threshold 2)%Z
  /\ price_availability Examples.qsi_leisure (Examples.via_ord 0) "leisure" ∅
     <> 0.
Proof.
  assert (H : (seats_available (Examples.via_ord 0)
               < segment_field Examples.qsi_leisure "leisure"
                   seats_threshold 2)%Z) by reflexivity.
  split; [exact H |].
  rewrite (price_availability_few_seats _ _ _ _ H).
  pose proof (exp_pos (- segment_field Examples.qsi_leisure "leisure" beta_P 0.01
                       * effective_price (Examples.via_ord 0) ∅)).
  lra.
Qed.

End QsiFacts.

(** ** aggregators.py: the conservative blend of the provider estimates *)

Module AggregatorsFacts.
Import Numeric NumericFacts Aggregators.

Lemma length_insert_sorted (x : R) (a : list R) :
  List.length (insert_sorted x a) = S (List.length a).
Proof.
  induction a as [| y a IH]; simpl; [reflexivity |].
  destruct (Rle_dec x y); simpl; [reflexivity | now rewrite IH].
Qed.

Lemma length_sort (a : list R) : List.length (sort a) = List.length a.
Proof.
  induction a as [| x a IH]; simpl; [reflexivity |].
  now rewrite length_insert_sorted, IH.
Qed.

Lemma sort_nonempty (a : list R) : a <> [] -> sort a <> [].
Proof.
  intros Ha Hs. apply Ha.
  apply (f_equal (@List.length R)) in Hs. rewrite length_sort in Hs.
  now destruct a.
Qed.

(** the third attempt is the last one *)
Example retry_gives_up (origin dest : LatLon) :
  google_drive_minutes Examples.services_down origin dest "g" = Raised.
Proof. reflexivity. Qed.

Example retry_third_attempt (origin dest : LatLon) :
  ors_drive_minutes Examples.services_ten origin dest "o" = Returned (Some 10).
Proof. reflexivity. Qed.

(** [np.quantile] of a non-empty array at a level of [[0,1]] returns *)
Lemma quantile_defined (a : list R) (q : R) :
  a <> [] -> 0 <= q <= 1 -> exists r, quantile a q = Some r.
Proof.
  intros Ha [H0 H1]. unfold quantile.
  destruct (Rle_dec 0 q); [| lra]. destruct (Rle_dec q 1); [| lra].
  pose proof (sort_nonempty a Ha) as Hs.
  destruct (sort a); [contradiction | eauto].
Qed.

Lemma sort_three_equal (v : R) : sort [v; v; v] = [v; v; v].
Proof.
  unfold sort. simpl.
  destruct (Rle_dec v v) as [_ | Hn]; [| exfalso; lra].
  simpl. destruct (Rle_dec v v) as [_ | Hn]; [reflexivity | exfalso; lra].
Qed.

Lemma quantile_three_equal (v : R) : quantile [v; v; v] 0.75 = Some v.
Proof.
  unfold quantile.
  destruct (Rle_dec 0 0.75); [| lra]. destruct (Rle_dec 0.75 1); [| lra].
  rewrite sort_three_equal. cbv zeta.
  replace (Int_part ((INR (List.length [v; v; v]) - 1) * 0.75)) with 1%Z.
  - simpl. f_equal. lra.
  - apply Int_part_spec. simpl. lra.
Qed.

(** the code keeps, of the estimates the specification collects, the
    non-zero ones *)
Lemma collect_filter (enabled : bool) (key : string) (call : string -> Reply)
    (vals svals : list R) :
  vals = List.filter (fun v => float_truthy (Some v)) svals ->
  collect enabled key call vals
  = List.filter (fun v => float_truthy (Some v))
      (spec_collect enabled key call svals).
Proof.
  intros ->. unfold collect, spec_collect.
  destruct (enabled && str_truthy key); [| reflexivity].
  destruct (call key) as [| [v |]]; try reflexivity.
  rewrite List.filter_app. cbn [List.filter].
  destruct (float_truthy (Some v)); [reflexivity | now rewrite app_nil_r].
Qed.

Lemma collected_vals_filter (W : Services) (origin dest : LatLon)
    (providers : ProviderConfig) :
  collected_vals W origin dest providers
  = List.filter (fun v => float_truthy (Some v))
      (spec_collected_vals W origin dest providers).
Proof.
  unfold collected_vals, spec_collected_vals.
  repeat apply collect_filter. reflexivity.
Qed.

Lemma quantile_single (v q : R) : 0 <= q <= 1 -> quantile [v] q = Some v.
Proof.
  intros [H0 H1]. unfold quantile.
  destruct (Rle_dec 0 q); [| lra]. destruct (Rle_dec q 1); [| lra].
  simpl.
  replace (Int_part ((1 - 1) * q)) with 0%Z.
  - simpl. f_equal. lra.
  - apply Int_part_spec. simpl. lra.
Qed.

(** three providers answering 10 minutes, the second one at its third
    attempt *)
Lemma collected_vals_ten (origin dest : LatLon) :
  collected_vals Examples.services_ten origin dest Examples.providers_on
  = [10; 10; 10].
Proof.
  unfold collected_vals, collect. simpl.
  destruct (Req_dec_T 10 0) as [H | _]; [exfalso; lra | reflexivity].
Qed.

Lemma aggregate_ten (origin dest : LatLon) :
  aggregate_drive_minutes Examples.services_ten origin dest Examples.providers_on
  = Some 10.
Proof.
  unfold aggregate_drive_minutes. rewrite collected_vals_ten.
  apply quantile_three_equal.
Qed.

(** C2 (as amended).  [aggregate_drive_minutes] collects the estimates of
    the enabled providers that returned a number other than zero (an
    estimate of 0.0 is dropped like an absent one); it returns an absent
    value when nothing was collected, and otherwise it returns the 75th
    percentile of the collected estimates; for the estimates
    [10, 10, 10] that is exactly 10. *)
Theorem aggregate_drive_minutes_blend (W : Services) (origin dest : LatLon)
    (providers : ProviderConfig) :
  let vals := collected_vals W origin dest providers in
  vals = List.filter (fun v => float_truthy (Some v))
           (spec_collected_vals W origin dest providers)
  /\ (vals = [] -> aggregate_drive_minutes W origin dest providers = None)
  /\ (vals <> [] ->
        aggregate_drive_minutes W origin dest providers = quantile vals 0.75
        /\ exists r, aggregate_drive_minutes W origin dest providers = Some r)
  /\ (vals = [10; 10; 10] ->
        aggregate_drive_minutes W origin dest providers = Some 10).
Proof.
  intros vals. split; [apply collected_vals_filter |].
  subst vals. unfold aggregate_drive_minutes.
  generalize (collected_vals W origin dest providers) as vals. intros vals.
  split; [| split].
  - now intros ->.
  - intros Hne. destruct vals as [| v vals]; [contradiction |].
    split; [reflexivity |].
    apply quantile_defined; [exact Hne | lra].
  - intros ->. apply quantile_three_equal.
Qed.

Lemma aggregate_drive_minutes_blend_witness :
  collected_vals Examples.services_ten (Examples.origin_lat, Examples.origin_lon)
    (Examples.hvn_lat, Examples.hvn_lon) Examples.providers_on = [10; 10; 10]
  /\ aggregate_drive_minutes Examples.services_ten
       (Examples.origin_lat, Examples.origin_lon)
       (Examples.hvn_lat, Examples.hvn_lon) Examples.providers_on = Some 10.
Proof.
  pose proof (collected_vals_ten (Examples.origin_lat, Examples.origin_lon)
                (Examples.hvn_lat, Examples.hvn_lon)) as H.
  split; [exact H |].
  destruct (aggregate_drive_minutes_blend Examples.services_ten
              (Examples.origin_lat, Examples.origin_lon)
              (Examples.hvn_lat, Examples.hvn_lon) Examples.providers_on)
    as (_ & _ & _ & Hten).
  exact (Hten H).
Defined.

(** Google alone is enabled and answers 0.0 minutes: a successful,
    non-null estimate, whose 75th percentile is 0.0; the code returns an
    absent value. *)
Lemma zero_estimate_is_dropped :
  spec_collected_vals Examples.services_zero
    (Examples.origin_lat, Examples.origin_lon)
    (Examples.hvn_lat, Examples.hvn_lon) Examples.providers_google = [0]
  /\ spec_aggregate_drive_minutes Examples.services_zero
       (Examples.origin_lat, Examples.origin_lon)
       (Examples.hvn_lat, Examples.hvn_lon) Examples.providers_google = Some 0
  /\ aggregate_drive_minutes Examples.services_zero
       (Examples.origin_lat, Examples.origin_lon)
       (Examples.hvn_lat, Examples.hvn_lon) Examples.providers_google = None.
Proof.
  assert (Hs : spec_collected_vals Examples.services_zero
                 (Examples.origin_lat, Examples.origin_lon)
                 (Examples.hvn_lat, Examples.hvn_lon) Examples.providers_google
               = [0]) by reflexivity.
  split; [exact Hs |]. split.
  - unfold spec_aggregate_drive_minutes. rewrite Hs.
    apply quantile_single. lra.
  - unfold aggregate_drive_minutes, collected_vals, collect. simpl.
    destruct (Req_dec_T 0 0) as [_ | H]; [reflexivity | contradiction].
Qed.

End AggregatorsFacts.

(** ** travel.py: the fallback chain and the spread floor *)

Module TravelFacts.
Import Aggregators Travel.

(** with every routing provider switched off nothing is collected *)
Lemma provider_tier_disabled (W : Services) (origin dest : LatLon)
    (providers : option ProviderConfig) :
  all_disabled providers -> provider_tier W origin dest providers = None.
Proof.
  destruct providers as [p |]; [| reflexivity].
  intros (Hg & Ho & Hm). unfold provider_tier, aggregate_drive_minutes.
  unfold collected_vals, collect. now rewrite Hg, Ho, Hm.
Qed.

(** one kilometre at 60 km/h takes a minute; a non-positive speed is
    replaced by 50 km/h *)
Example hop_one_kilometre :
  hop_seconds [{| length := Some 1000; speed_kph := Some 60;
                  speed_kphs := None |}] = Some 60
  /\ hop_seconds [{| length := Some 1000; speed_kph := Some 0;
                     speed_kphs := None |}] = Some 72.
Proof.
  unfold hop_seconds. simpl.
  destruct (Rle_dec 60 0); [lra |]. destruct (Rle_dec 0 0); [| lra].
  split; f_equal; lra.
Qed.

Lemma drive_sd_floor (W : Services) (E : Geo) (olon olat dlon dlat : R)
    (providers : option ProviderConfig) (rv : TravelRV) :
  estimate_drive_time_minutes W E olon olat dlon dlat providers = Some rv ->
  5 <= sd rv.
Proof.
  unfold estimate_drive_time_minutes.
  destruct (provider_tier _ _ _ _).
  { intros [= <-]. apply Rmax_l. }
  destruct (network_tier _ _ _ _ _).
  { intros [= <-]. apply Rmax_l. }
  destruct (geodesic_miles _ _ _); [| discriminate].
  intros [= <-]. apply Rmax_l.
Qed.

(** C6.  With all external providers disabled and the network-routing
    tier unavailable, the drive estimate is the straight-line heuristic:
    the mean is the geodesic distance in miles divided by 35 mph, times 60
    minutes, and the spread is [max(5, 0.30 * mean)]. *)
Theorem drive_falls_back_to_straight_line (W : Services) (E : Geo)
    (olon olat dlon dlat : R) (providers : option ProviderConfig) (miles : R) :
  all_disabled providers ->
  network_tier E olon olat dlon dlat = None ->
  geodesic_miles E (olat, olon) (dlat, dlon) = Some miles ->
  exists rv,
    estimate_drive_time_minutes W E olon olat dlon dlat providers = Some rv
    /\ mean rv = miles / 35 * 60
    /\ sd rv = Rmax 5 (0.30 * mean rv).
Proof.
  intros Hoff Hnet Hgeo. unfold estimate_drive_time_minutes.
  rewrite provider_tier_disabled by exact Hoff.
  rewrite Hnet, Hgeo. eexists. split; [reflexivity |]. split; reflexivity.
Qed.

Lemma drive_falls_back_to_straight_line_witness :
  exists rv,
    estimate_drive_time_minutes Examples.services_ten Examples.seven_miles
      Examples.origin_lon Examples.origin_lat Examples.hvn_lon Examples.hvn_lat
      (Some Examples.providers_off) = Some rv
    /\ mean rv = 7 / 35 * 60
    /\ sd rv = Rmax 5 (0.30 * mean rv).
Proof.
  apply (drive_falls_back_to_straight_line Examples.services_ten
           Examples.seven_miles Examples.origin_lon Examples.origin_lat
           Examples.hvn_lon Examples.hvn_lat (Some Examples.providers_off) 7).
  - simpl. repeat split; reflexivity.
  - reflexivity.
  - reflexivity.
Defined.

(** C7.  Every [TravelRV] that the drive estimator (through any of its
    three tiers), the rideshare estimator or the rail estimator returns has
    a spread of at least 5 minutes. *)
Theorem travel_rv_sd_floor (W : Services) (E : Geo) (rv : TravelRV) :
  produced W E rv -> 5 <= sd rv.
Proof.
  intros [olon olat dlon dlat providers H
         | olon olat dlon dlat providers H
         | olon olat dlon dlat H].
  - exact (drive_sd_floor _ _ _ _ _ _ _ _ H).
  - unfold estimate_ride_time_minutes in H.
    destruct (estimate_drive_time_minutes _ _ _ _ _ _ _) as [rv0 |] eqn:Hd;
      [| discriminate].
    injection H as <-. simpl.
    pose proof (drive_sd_floor _ _ _ _ _ _ _ _ Hd). lra.
  - unfold estimate_rail_time_minutes in H.
    destruct (geodesic_miles _ _ _); [| discriminate].
    injection H as <-. apply Rmax_l.
Qed.

Lemma travel_rv_sd_floor_witness :
  5 <= sd {| mean := 10 * 1.05; sd := Rmax 5 (0.25 * 10) * 1.2 |}.
Proof.
  apply (travel_rv_sd_floor Examples.services_ten Examples.seven_miles).
  apply (by_ride _ _ _ Examples.origin_lon Examples.origin_lat
           Examples.hvn_lon Examples.hvn_lat (Some Examples.providers_on)).
  unfold estimate_ride_time_minutes, estimate_drive_time_minutes, provider_tier.
  rewrite AggregatorsFacts.aggregate_ten. reflexivity.
Defined.

End TravelFacts.

(** ** risk.py: tail risk, sampling and shocks *)

Module RiskFacts.
Import Numeric NumericFacts Rng Risk.

(** C10.  On an empty sample array [cvar] returns 0.0 whatever the tail
    level is, without raising, and so does [cvar_minus_mean]. *)
Theorem cvar_of_no_samples (alpha : R) :
  cvar [] alpha = Some 0 /\ cvar_minus_mean [] alpha = Some 0.
Proof. split; reflexivity. Qed.

Lemma draws_length {G : Generator} (draw : state G -> R * state G) (n : nat)
    (g : state G) :
  List.length (fst (draws draw n g)) = n.
Proof.
  revert g. induction n as [| n IH]; intros g; simpl; [reflexivity |].
  destruct (draw g) as [x g1]. specialize (IH g1).
  destruct (draws draw n g1) as [xs g2]. simpl in *. now rewrite IH.
Qed.

Lemma rsum_le (a b : list R) : Forall2 Rle a b -> rsum a <= rsum b.
Proof. induction 1; simpl; lra. Qed.

Lemma mean_le (a b : list R) : Forall2 Rle a b -> mean a <= mean b.
Proof.
  intros H. unfold mean.
  rewrite <- (Forall2_length _ _ _ H).
  destruct a as [| x a].
  - inversion H; subst. lra.
  - apply Rmult_le_compat_r; [| now apply rsum_le].
    left. apply Rinv_0_lt_compat. apply lt_0_INR. simpl. lia.
Qed.

(** a larger probability shocks at least the same samples, a larger
    positive magnitude shifts them further *)
Lemma add_where_below_mono (samples us : list R) (p1 p2 m1 m2 : R) :
  p1 <= p2 -> m1 <= m2 -> 0 < m2 ->
  Forall2 Rle (add_where_below samples us p1 m1)
              (add_where_below samples us p2 m2).
Proof.
  intros Hp Hm Hpos. unfold add_where_below.
  revert us. induction samples as [| x samples IH]; intros [| u us]; simpl;
    try constructor.
  - destruct (Rlt_dec u p1), (Rlt_dec u p2); lra.
  - apply IH.
Qed.

Lemma add_where_below_ge (samples us : list R) (p m : R) :
  0 < m -> Forall2 Rle (zip_with (fun x _ => x) samples us)
                       (add_where_below samples us p m).
Proof.
  intros Hpos. unfold add_where_below.
  revert us. induction samples as [| x samples IH]; intros [| u us]; simpl;
    try constructor.
  - destruct (Rlt_dec u p); lra.
  - apply IH.
Qed.

Lemma zip_with_fst_same_length (samples us : list R) :
  List.length us = List.length samples ->
  zip_with (fun x _ => x) samples us = samples.
Proof.
  revert us. induction samples as [| x samples IH]; intros [| u us]; simpl;
    try discriminate; try reflexivity.
  intros [= H]. now rewrite IH.
Qed.

Lemma Forall2_Rle_refl (a : list R) : Forall2 Rle a a.
Proof. induction a; constructor; [lra | assumption]. Qed.

(** [apply_shocks] in closed form: the samples as they are when shocks are
    switched off, otherwise shifted where the next uniform draws fall below
    the probability *)
Lemma apply_shocks_value {G : Generator} (samples : list R) (p m : R)
    (g : state G) :
  fst (apply_shocks samples p m g)
  = Some (if Rle_dec p 0 then samples
          else if Rle_dec m 0 then samples
          else add_where_below samples
                 (fst (draws (random_sample G) (List.length samples) g)) p m).
Proof.
  unfold apply_shocks, bind, rand, ret.
  destruct (Rle_dec p 0); [reflexivity |].
  destruct (Rle_dec m 0); [reflexivity |].
  now destruct (draws (random_sample G) (List.length samples) g).
Qed.

(** C4 (as amended).  With the generator state, and so the random
    draws, fixed, the shocked samples that [apply_shocks] returns are
    pointwise non-decreasing in the shock probability and in the shock
    magnitude, and so is their mean.  (The risk premium built from them,
    [rho] times the sum of CVaR minus mean over the legs, is not monotone
    in either parameter.) *)
Theorem apply_shocks_monotone {G : Generator} (samples : list R)
    (p1 p2 m1 m2 : R) (g : state G) :
  p1 <= p2 -> m1 <= m2 ->
  exists s1 s2,
    fst (apply_shocks samples p1 m1 g) = Some s1
    /\ fst (apply_shocks samples p2 m2 g) = Some s2
    /\ Forall2 Rle s1 s2
    /\ mean s1 <= mean s2.
Proof.
  intros Hp Hm.
  assert (Hgoal : exists s1 s2,
             fst (apply_shocks samples p1 m1 g) = Some s1
             /\ fst (apply_shocks samples p2 m2 g) = Some s2
             /\ Forall2 Rle s1 s2).
  { rewrite !apply_shocks_value.
    pose proof (draws_length (random_sample G) (List.length samples) g) as Hlen.
    set (us := fst (draws (random_sample G) (List.length samples) g)) in *.
    do 2 eexists. split; [reflexivity |]. split; [reflexivity |].
    destruct (Rle_dec p2 0) as [Hp2 | Hp2].
    { destruct (Rle_dec p1 0); [| lra]. apply Forall2_Rle_refl. }
    destruct (Rle_dec m2 0) as [Hm2 | Hm2].
    { destruct (Rle_dec m1 0); [| lra].
      destruct (Rle_dec p1 0); apply Forall2_Rle_refl. }
    assert (Hbase : Forall2 Rle samples (add_where_below samples us p2 m2)).
    { rewrite <- (zip_with_fst_same_length samples us Hlen) at 1.
      apply add_where_below_ge. lra. }
    destruct (Rle_dec p1 0); [exact Hbase |].
    destruct (Rle_dec m1 0); [exact Hbase |].
    apply add_where_below_mono; lra. }
  destruct Hgoal as (s1 & s2 & H1 & H2 & Hle).
  exists s1, s2. repeat split; try assumption. now apply mean_le.
Qed.

Lemma apply_shocks_monotone_witness :
  0.5 <= 0.8 /\ 10 <= 20
  /\ exists s1 s2,
       fst (@apply_shocks Examples.replay [0; 0] 0.5 10 [0.2; 0.7]) = Some s1
       /\ fst (@apply_shocks Examples.replay [0; 0] 0.8 20 [0.2; 0.7]) = Some s2
       /\ Forall2 Rle s1 s2
       /\ mean s1 <= mean s2.
Proof.
  assert (Hp : 0.5 <= 0.8) by lra.
  assert (Hm : 10 <= 20) by lra.
  split; [exact Hp |]. split; [exact Hm |].
  exact (@apply_shocks_monotone Examples.replay [0; 0] 0.5 0.8 10 20
           [0.2; 0.7] Hp Hm).
Defined.

Lemma int_part_half : Int_part ((INR 2 - 1) * 0.5) = 0%Z.
Proof. symmetry. apply Int_part_spec. simpl. lra. Qed.

(** the median of two samples is their midpoint *)
Lemma quantile_pair (a b : R) : quantile [a; b] 0.5 = Some ((a + b) / 2).
Proof.
  unfold quantile.
  destruct (Rle_dec 0 0.5); [| lra]. destruct (Rle_dec 0.5 1); [| lra].
  unfold sort. cbn [fold_right insert_sorted].
  destruct (Rle_dec a b); cbv zeta; cbn [List.length];
    rewrite int_part_half; simpl; f_equal; lra.
Qed.

(** at tail level 0.5 the CVaR of two samples is the larger one *)
Lemma cvar_pair (a b : R) : cvar [a; b] 0.5 = Some (Rmax a b).
Proof.
  unfold cvar. rewrite quantile_pair. unfold select_ge. cbn [List.filter].
  unfold Rmax.
  destruct (Rle_dec ((a + b) / 2) a), (Rle_dec ((a + b) / 2) b),
    (Rle_dec a b); unfold mean; simpl; f_equal; try lra.
Qed.

Example cvar_of_one_and_three :
  quantile [1; 3] 0.5 = Some 2 /\ cvar [1; 3] 0.5 = Some 3.
Proof.
  rewrite quantile_pair, cvar_pair. unfold Rmax.
  destruct (Rle_dec 1 3); [| lra]. split; f_equal; lra.
Qed.

Lemma cvar_minus_mean_pair (a b : R) :
  cvar_minus_mean [a; b] 0.5 = Some (Rmax a b - (a + b) / 2).
Proof.
  unfold cvar_minus_mean. rewrite cvar_pair. unfold mean. simpl.
  f_equal. lra.
Qed.

(** the risk premium of two access samples and no process sample, under
    active incident shocks and the replayed draws [u1], [u2] *)
Lemma risk_two_samples (p m a b u1 u2 : R) :
  0 < p -> 0 < m ->
  let a' := if Rlt_dec u1 p then a + m else a in
  let b' := if Rlt_dec u2 p then b + m else b in
  fst (@risk_with_shocks Examples.replay (Examples.risk_cfg p m) [a; b] []
         [u1; u2])
  = Some (1 * (Rmax a' b' - (a' + b') / 2 + 0)).
Proof.
  intros Hp Hm a' b'. unfold risk_with_shocks.
  unfold bind at 1. unfold lift at 1. cbn [Examples.risk_cfg shocks].
  set (sh := <["incident_prob" := p]> (<["incident_minutes" := m]> ∅)).
  replace (shock sh "incident_prob") with p by reflexivity.
  replace (shock sh "incident_minutes") with m by reflexivity.
  replace (shock sh "rail_disruption_prob") with 0 by reflexivity.
  replace (shock sh "rail_disruption_minutes") with 0 by reflexivity.
  unfold apply_shocks, bind, rand, ret, lift.
  destruct (Rle_dec p 0); [lra |]. destruct (Rle_dec m 0); [lra |].
  destruct (Rle_dec 0 0); [| lra].
  cbn [draws Examples.replay random_sample List.length hd tl add_where_below
       zip_with Examples.risk_cfg alpha rho].
  fold a' b'. rewrite cvar_minus_mean_pair. reflexivity.
Qed.

(** Two access samples, incident shocks of 10 minutes, the draws 0.2 and
    0.7 replayed: at probability 0.5 the premium is 5, at probability 0.8
    it is 0.  With samples 0 and 100 and probability 0.5, a shock of 50
    minutes gives 25 and a shock of 100 minutes gives 0. *)
Lemma risk_with_shocks_not_monotone :
  (exists r1 r2,
     fst (@risk_with_shocks Examples.replay (Examples.risk_cfg 0.5 10)
            [0; 0] [] [0.2; 0.7]) = Some r1
     /\ fst (@risk_with_shocks Examples.replay (Examples.risk_cfg 0.8 10)
              [0; 0] [] [0.2; 0.7]) = Some r2
     /\ r1 = 5 /\ r2 = 0 /\ r2 < r1)
  /\ (exists r1 r2,
        fst (@risk_with_shocks Examples.replay (Examples.risk_cfg 0.5 50)
               [0; 100] [] [0.2; 0.7]) = Some r1
        /\ fst (@risk_with_shocks Examples.replay (Examples.risk_cfg 0.5 100)
                 [0; 100] [] [0.2; 0.7]) = Some r2
        /\ r1 = 25 /\ r2 = 0 /\ r2 < r1).
Proof.
  split; eexists; eexists;
    (split; [apply risk_two_samples; lra |]);
    (split; [apply risk_two_samples; lra |]);
    cbv zeta; unfold Rmax;
    repeat match goal with
           | |- context [Rlt_dec ?x ?y] => destruct (Rlt_dec x y); try lra
           | |- context [Rle_dec ?x ?y] => destruct (Rle_dec x y); try lra
           end.
Qed.

Lemma gaussian_samples_value {G : Generator} (mean sd : R) (size : nat)
    (lower : option R) (g : state G) :
  fst (gaussian_samples mean sd size lower g)
  = if Rlt_dec sd 0 then None
    else
      let x := List.map (fun z => mean + sd * z)
                 (fst (draws (standard_normal G) size g)) in
      Some (match lower with
            | Some lo => List.map (fun v => Rmax v lo) x
            | None => x
            end).
Proof.
  unfold gaussian_samples, bind, normal, ret.
  destruct (Rlt_dec sd 0); [reflexivity |].
  destruct (draws (standard_normal G) size g). now destruct lower.
Qed.

End RiskFacts.

(** ** model.py: mode blending and the curb window *)

Module ModelFacts.
Import Numeric NumericFacts Model.

Lemma fold_left_Rmin_le_init (l : list R) (a : R) : fold_left Rmin l a <= a.
Proof.
  revert a. induction l as [| x l IH]; intros a; simpl; [lra |].
  eapply Rle_trans; [apply IH | apply Rmin_l].
Qed.

Lemma fold_left_Rmin_le_elem (l : list R) (a x : R) :
  In x l -> fold_left Rmin l a <= x.
Proof.
  revert a. induction l as [| y l IH]; intros a; simpl; [tauto |].
  intros [-> | Hin].
  - eapply Rle_trans; [apply fold_left_Rmin_le_init | apply Rmin_r].
  - now apply IH.
Qed.

Lemma fold_left_Rmin_in (l : list R) (a : R) :
  fold_left Rmin l a = a \/ In (fold_left Rmin l a) l.
Proof.
  revert a. induction l as [| y l IH]; intros a; simpl; [now left |].
  destruct (IH (Rmin a y)) as [H | H]; [| now right; right].
  rewrite H. unfold Rmin. destruct (Rle_dec a y); [now left | right; now left].
Qed.

























End ModelFacts.

(** ** risk.py, further: what the samples, the quantile and the tail mean
    guarantee *)

Module RiskExtra.
Import Numeric NumericFacts Rng Risk RiskFacts.

(** [gaussian_samples] with a lower bound: a negative spread raises before
    anything is drawn; otherwise the call returns exactly [size] samples,
    none of them below the bound. *)
Theorem gaussian_samples_truncated {G : Generator} (mean sd : R) (size : nat)
    (lo : R) (g : state G) :
  (sd < 0 ->
     gaussian_samples mean sd size (Some lo) g = (None, g))
  /\ (0 <= sd ->
        exists x, fst (gaussian_samples mean sd size (Some lo) g) = Some x
                  /\ List.length x = size
                  /\ Forall (fun v => lo <= v) x).
Proof.
  split.
  - intros Hsd. unfold gaussian_samples, bind, normal, raise.
    destruct (Rlt_dec sd 0); [reflexivity | lra].
  - intros Hsd. rewrite gaussian_samples_value.
    destruct (Rlt_dec sd 0); [lra |].
    eexists. split; [reflexivity |]. split.
    + rewrite !length_map. apply draws_length.
    + apply Forall_forall. intros v Hv. apply list_elem_of_In in Hv.
      apply in_map_iff in Hv. destruct Hv as (w & <- & _). apply Rmax_r.
Qed.

Lemma gaussian_samples_truncated_witness :
  exists x, fst (@gaussian_samples Examples.replay 30 5 2 (Some 0) [1; -9; 4])
            = Some x
            /\ List.length x = 2%nat
            /\ Forall (fun v => 0 <= v) x.
Proof.
  destruct (@gaussian_samples_truncated Examples.replay 30 5 2 0 [1; -9; 4])
    as [_ H].
  apply H. lra.
Defined.

Lemma In_insert_sorted (x y : R) (a : list R) :
  In x (insert_sorted y a) <-> x = y \/ In x a.
Proof.
  induction a as [| z a IH]; simpl.
  - intuition.
  - destruct (Rle_dec y z); simpl; [intuition |]. rewrite IH. intuition.
Qed.

Lemma In_sort (x : R) (a : list R) : In x (sort a) <-> In x a.
Proof.
  induction a as [| y a IH]; simpl; [reflexivity |].
  rewrite In_insert_sorted, IH. intuition.
Qed.

(** the floor of a virtual index [(n-1)*q] with [q] in [[0,1]] is a valid
    position, and its fractional part is in [[0,1)] *)
Lemma virtual_index_bounds (n : nat) (q : R) :
  (0 < n)%nat -> 0 <= q <= 1 ->
  let h := (INR n - 1) * q in
  (Z.to_nat (Int_part h) < n)%nat /\ 0 <= h - IZR (Int_part h) < 1.
Proof.
  intros Hn [Hq0 Hq1] h.
  assert (Hn1 : 1 <= INR n).
  { replace 1 with (INR 1) by reflexivity. apply le_INR. lia. }
  assert (Hh0 : 0 <= h) by (unfold h; nra).
  assert (Hh1 : h <= INR n - 1) by (unfold h; nra).
  destruct (base_Int_part h) as [Hfl Hfr].
  assert (Hz0 : (0 <= Int_part h)%Z).
  { assert (-1 < Int_part h)%Z by (apply lt_IZR; lra). lia. }
  assert (Hz1 : (Int_part h <= Z.of_nat n - 1)%Z).
  { apply le_IZR. rewrite minus_IZR, <- INR_IZR_INZ. simpl. lra. }
  split; [lia | lra].
Qed.

(** [np.quantile] interpolates between two elements of the array *)
Lemma quantile_between (a : list R) (q : R) :
  a <> [] -> 0 <= q <= 1 ->
  exists x y g,
    In x a /\ In y a /\ 0 <= g < 1
    /\ quantile a q = Some (x + (y - x) * g).
Proof.
  intros Ha Hq. unfold quantile.
  destruct (Rle_dec 0 q); [| lra]. destruct (Rle_dec q 1); [| lra].
  pose proof (AggregatorsFacts.length_sort a) as Hlen.
  assert (Hpos : (0 < List.length (sort a))%nat).
  { rewrite Hlen. destruct a; [contradiction | simpl; lia]. }
  destruct (virtual_index_bounds (List.length (sort a)) q Hpos Hq) as [Hlo Hg].
  destruct (sort a) as [| s0 s] eqn:Hs; [simpl in Hpos; lia |].
  rewrite <- Hs in *. cbv zeta.
  set (lo := Z.to_nat (Int_part ((INR (List.length (sort a)) - 1) * q))) in *.
  set (hi := Nat.min (lo + 1) (List.length (sort a) - 1)).
  exists (nth lo (sort a) 0), (nth hi (sort a) 0). eexists.
  split; [apply In_sort, nth_In; exact Hlo |].
  split; [apply In_sort, nth_In; unfold hi; lia |].
  split; [exact Hg | reflexivity].
Qed.

Lemma quantile_undefined (a : list R) (q : R) :
  ~ (0 <= q <= 1) -> quantile a q = None.
Proof.
  intros Hq. unfold quantile.
  destruct (Rle_dec 0 q); [| reflexivity].
  destruct (Rle_dec q 1); [lra | reflexivity].
Qed.

Lemma mean_ge_bound (l : list R) (v : R) :
  l <> [] -> (forall x, In x l -> v <= x) -> v <= mean l.
Proof.
  intros Hne Hall. unfold mean.
  assert (Hsum : INR (List.length l) * v <= rsum l).
  { clear Hne. induction l as [| x l IH]; [simpl; lra |].
    cbn [List.length rsum fold_right]. rewrite S_INR.
    pose proof (Hall x (or_introl eq_refl)).
    assert (INR (List.length l) * v <= rsum l)
      by (apply IH; intros y Hy; apply Hall; now right).
    unfold rsum in *. lra. }
  assert (Hn : 0 < INR (List.length l)).
  { apply lt_0_INR. destruct l; [contradiction | simpl; lia]. }
  apply (Rmult_le_reg_l (INR (List.length l))); [exact Hn |].
  replace (INR (List.length l) * (rsum l / INR (List.length l)))
    with (rsum l) by (field; lra).
  exact Hsum.
Qed.

Lemma In_select_ge (a : list R) (q x : R) :
  In x (select_ge a q) <-> In x a /\ q <= x.
Proof.
  unfold select_ge. rewrite filter_In.
  destruct (Rle_dec q x); intuition; discriminate.
Qed.

Lemma rsum_ge_bound (l : list R) (v : R) :
  (forall x, In x l -> v <= x) -> INR (List.length l) * v <= rsum l.
Proof.
  induction l as [| x l IH]; intros Hall; [simpl; lra |].
  cbn [List.length rsum fold_right]. rewrite S_INR.
  pose proof (Hall x (or_introl eq_refl)).
  assert (INR (List.length l) * v <= rsum l)
    by (apply IH; intros y Hy; apply Hall; now right).
  unfold rsum in *. lra.
Qed.

(** the samples below [q] contribute less than [q] each *)
Lemma rsum_split_tail (a : list R) (q : R) :
  (List.length (select_ge a q) <= List.length a)%nat
  /\ rsum a <= rsum (select_ge a q)
               + (INR (List.length a) - INR (List.length (select_ge a q))) * q.
Proof.
  induction a as [| x a [IHlen IHsum]]; [simpl; split; [lia | lra] |].
  unfold select_ge in *. cbn [List.filter].
  destruct (Rle_dec q x) as [Hx | Hx];
    cbn [List.length rsum fold_right]; rewrite ?S_INR;
    (split; [lia |]); unfold rsum in *; nra.
Qed.

(** the mean of the upper tail is at least the mean of all samples *)
Lemma mean_le_tail_mean (a : list R) (q : R) :
  select_ge a q <> [] -> mean a <= mean (select_ge a q).
Proof.
  intros Hne.
  destruct (rsum_split_tail a q) as [Hlen Hsum].
  pose proof (rsum_ge_bound (select_ge a q) q) as Hlow.
  assert (Htail : INR (List.length (select_ge a q)) * q <= rsum (select_ge a q)).
  { apply Hlow. intros x Hx. now apply In_select_ge in Hx. }
  clear Hlow. unfold mean.
  set (T := select_ge a q) in *.
  assert (Hk : 0 < INR (List.length T)).
  { apply lt_0_INR. destruct T; [contradiction | simpl; lia]. }
  assert (Hn : INR (List.length T) <= INR (List.length a)) by now apply le_INR.
  set (k := INR (List.length T)) in *. set (n := INR (List.length a)) in *.
  set (sT := rsum T) in *. set (sA := rsum a) in *.
  replace (sA / n) with (sA * k / (n * k)) by (field; lra).
  replace (sT / k) with (sT * n / (n * k)) by (field; lra).
  apply Rmult_le_compat_r.
  - left. apply Rinv_0_lt_compat. nra.
  - nra.
Qed.

(** the cases of [cvar] on a non-empty array: the tail is never empty *)
Lemma cvar_value (samples : list R) (alpha : R) :
  samples <> [] -> 0 <= alpha <= 1 ->
  exists q,
    quantile samples alpha = Some q
    /\ select_ge samples q <> []
    /\ cvar samples alpha = Some (mean (select_ge samples q)).
Proof.
  intros Hne Halpha.
  destruct (quantile_between samples alpha Hne Halpha)
    as (x & y & g & Hx & Hy & Hg & Hq).
  exists (x + (y - x) * g). split; [exact Hq |].
  assert (Htail : select_ge samples (x + (y - x) * g) <> []).
  { destruct (Rle_dec x y) as [Hxy | Hxy].
    - assert (Hin : In y (select_ge samples (x + (y - x) * g)))
        by (apply In_select_ge; split; [exact Hy | nra]).
      intros E. now rewrite E in Hin.
    - assert (Hin : In x (select_ge samples (x + (y - x) * g)))
        by (apply In_select_ge; split; [exact Hx | nra]).
      intros E. now rewrite E in Hin. }
  split; [exact Htail |].
  unfold cvar. destruct samples as [| s0 samples]; [contradiction |].
  rewrite Hq. now destruct (select_ge (s0 :: samples) (x + (y - x) * g)).
Qed.

(** For a non-empty sample array and a tail level in [[0,1]], [cvar]
    returns the mean of the samples at or above the quantile, a set that
    is never empty, and this mean is at least the quantile. *)
Theorem cvar_at_least_quantile (samples : list R) (alpha : R) :
  samples <> [] -> 0 <= alpha <= 1 ->
  exists q c,
    quantile samples alpha = Some q
    /\ cvar samples alpha = Some c
    /\ select_ge samples q <> []
    /\ c = mean (select_ge samples q)
    /\ q <= c.
Proof.
  intros Hne Halpha.
  destruct (cvar_value samples alpha Hne Halpha) as (q & Hq & Htail & Hc).
  exists q, (mean (select_ge samples q)).
  repeat split; try assumption.
  apply mean_ge_bound; [exact Htail |].
  intros x Hx. now apply In_select_ge in Hx.
Qed.

Lemma cvar_at_least_quantile_witness :
  exists q c,
    quantile [4; 1; 9] 0.9 = Some q
    /\ cvar [4; 1; 9] 0.9 = Some c
    /\ select_ge [4; 1; 9] q <> []
    /\ c = mean (select_ge [4; 1; 9] q)
    /\ q <= c.
Proof.
  apply (cvar_at_least_quantile [4; 1; 9] 0.9); [discriminate | lra].
Defined.

Lemma premium_nonneg (samples : list R) (alpha : R) :
  0 <= alpha <= 1 ->
  exists d, cvar_minus_mean samples alpha = Some d /\ 0 <= d.
Proof.
  intros Halpha. destruct samples as [| s0 samples].
  - exists 0. split; [reflexivity | lra].
  - destruct (cvar_value (s0 :: samples) alpha) as (q & Hq & Htail & Hc);
      [discriminate | exact Halpha |].
    unfold cvar_minus_mean. rewrite Hc.
    eexists. split; [reflexivity |].
    pose proof (mean_le_tail_mean (s0 :: samples) q Htail). lra.
Qed.

(** The tail premium [cvar_minus_mean] is never negative: for every
    sample array and every tail level in [[0,1]] it returns a number
    [>= 0]. *)
Theorem cvar_minus_mean_nonneg (samples : list R) (alpha : R) :
  0 <= alpha <= 1 ->
  exists d, cvar_minus_mean samples alpha = Some d /\ 0 <= d.
Proof.
  intros Halpha. destruct samples as [| s0 samples].
  - exists 0. split; [reflexivity | lra].
  - destruct (cvar_value (s0 :: samples) alpha) as (q & Hq & Htail & Hc);
      [discriminate | exact Halpha |].
    exists (mean (select_ge (s0 :: samples) q) - mean (s0 :: samples)).
    split.
    + unfold cvar_minus_mean. now rewrite Hc.
    + pose proof (mean_le_tail_mean (s0 :: samples) q Htail). lra.
Qed.

Lemma cvar_minus_mean_nonneg_witness :
  exists d, cvar_minus_mean [4; 1; 9] 0.9 = Some d /\ 0 <= d.
Proof. apply (cvar_minus_mean_nonneg [4; 1; 9] 0.9). lra. Defined.

Lemma cvar_minus_mean_undefined (samples : list R) (alpha : R) :
  samples <> [] -> ~ (0 <= alpha <= 1) ->
  cvar samples alpha = None /\ cvar_minus_mean samples alpha = None.
Proof.
  intros Hne Halpha. destruct samples as [| s0 samples]; [contradiction |].
  assert (Hc : cvar (s0 :: samples) alpha = None)
    by (unfold cvar; now rewrite quantile_undefined).
  split; [exact Hc |]. unfold cvar_minus_mean. now rewrite Hc.
Qed.

(** [cvar] and [cvar_minus_mean] raise exactly when the array is not
    empty and the tail level is outside [[0,1]] (the [ValueError] of
    [np.quantile]). *)
Theorem cvar_raises_iff (samples : list R) (alpha : R) :
  (cvar samples alpha = None <-> samples <> [] /\ ~ (0 <= alpha <= 1))
  /\ (cvar_minus_mean samples alpha = None
      <-> samples <> [] /\ ~ (0 <= alpha <= 1)).
Proof.
  assert (Hc : cvar samples alpha = None
               <-> samples <> [] /\ ~ (0 <= alpha <= 1)).
  { split.
    - intros Hnone. destruct samples as [| s0 samples]; [discriminate |].
      split; [discriminate |]. intros Halpha.
      destruct (cvar_value (s0 :: samples) alpha) as (q & _ & _ & Hc);
        [discriminate | exact Halpha | congruence].
    - intros [Hne Halpha]. destruct samples as [| s0 samples]; [contradiction |].
      unfold cvar. now rewrite quantile_undefined. }
  split; [exact Hc |].
  unfold cvar_minus_mean. destruct samples as [| s0 samples].
  - split; [discriminate | intros [H _]; contradiction].
  - destruct (cvar (s0 :: samples) alpha) eqn:E.
    + split; [discriminate |]. intros H. apply Hc in H. discriminate.
    + split; [intros _; now apply Hc | reflexivity].
Qed.

(** *** Shifting every sample by the same amount *)

Lemma insert_sorted_shift (c x : R) (a : list R) :
  insert_sorted (x + c) (List.map (fun v => v + c) a)
  = List.map (fun v => v + c) (insert_sorted x a).
Proof.
  induction a as [| y a IH]; [reflexivity |]. cbn [List.map insert_sorted].
  destruct (Rle_dec (x + c) (y + c)), (Rle_dec x y); try lra;
    cbn [List.map]; [reflexivity | now rewrite IH].
Qed.

Lemma sort_shift (c : R) (a : list R) :
  sort (List.map (fun v => v + c) a) = List.map (fun v => v + c) (sort a).
Proof.
  induction a as [| x a IH]; [reflexivity |].
  cbn [List.map sort fold_right]. fold (sort (List.map (fun v => v + c) a)).
  fold (sort a). now rewrite IH, insert_sorted_shift.
Qed.

Lemma nth_shift (c : R) (s : list R) (i : nat) :
  (i < List.length s)%nat ->
  nth i (List.map (fun v => v + c) s) 0 = nth i s 0 + c.
Proof.
  intros Hi.
  rewrite (nth_indep _ 0 (0 + c)) by (now rewrite length_map).
  apply (map_nth (fun v => v + c)).
Qed.

Lemma quantile_shift (c : R) (a : list R) (q : R) :
  quantile (List.map (fun v => v + c) a) q
  = option_map (fun v => v + c) (quantile a q).
Proof.
  unfold quantile.
  destruct (Rle_dec 0 q) as [H0 |]; [| reflexivity].
  destruct (Rle_dec q 1) as [H1 |]; [| reflexivity].
  rewrite sort_shift.
  destruct (sort a) as [| s0 s] eqn:Hs; [reflexivity |].
  rewrite <- Hs. cbv zeta.
  assert (Hpos : (0 < List.length (sort a))%nat) by (rewrite Hs; simpl; lia).
  destruct (virtual_index_bounds (List.length (sort a)) q Hpos (conj H0 H1))
    as [Hlo _].
  destruct (List.map (fun v => v + c) (sort a)) as [| t0 t] eqn:Ht;
    [rewrite Hs in Ht; discriminate |].
  rewrite <- Ht. rewrite length_map.
  rewrite !nth_shift by lia.
  cbn [option_map]. f_equal. ring.
Qed.

Lemma select_ge_shift (c : R) (a : list R) (q : R) :
  select_ge (List.map (fun v => v + c) a) (q + c)
  = List.map (fun v => v + c) (select_ge a q).
Proof.
  unfold select_ge. induction a as [| x a IH]; [reflexivity |].
  cbn [List.map List.filter].
  destruct (Rle_dec (q + c) (x + c)), (Rle_dec q x); try lra;
    cbn [List.map]; now rewrite IH.
Qed.

Lemma mean_shift (c : R) (l : list R) :
  l <> [] -> mean (List.map (fun v => v + c) l) = mean l + c.
Proof.
  intros Hne. unfold mean. rewrite length_map.
  assert (Hsum : rsum (List.map (fun v => v + c) l)
                 = rsum l + INR (List.length l) * c).
  { clear Hne. induction l as [| x l IH]; [simpl; lra |].
    cbn [List.map rsum fold_right List.length]. rewrite S_INR.
    unfold rsum in IH. rewrite IH. unfold rsum. lra. }
  rewrite Hsum.
  assert (0 < INR (List.length l)).
  { apply lt_0_INR. destruct l; [contradiction | simpl; lia]. }
  field. lra.
Qed.

Lemma cvar_minus_mean_shift (samples : list R) (alpha c : R) :
  cvar_minus_mean (List.map (fun v => v + c) samples) alpha
  = cvar_minus_mean samples alpha.
Proof.
  destruct samples as [| s0 samples]; [reflexivity |].
  set (a := s0 :: samples).
  assert (Ha : a <> []) by discriminate.
  assert (Hmap : List.map (fun v => v + c) a <> [])
    by (unfold a; discriminate).
  destruct (Rle_dec 0 alpha) as [H0 |];
    [destruct (Rle_dec alpha 1) as [H1 |] |].
  - destruct (cvar_value a alpha Ha (conj H0 H1)) as (q & Hq & Htail & Hc).
    destruct (cvar_value _ alpha Hmap (conj H0 H1)) as (q' & Hq' & _ & Hc').
    rewrite quantile_shift, Hq in Hq'. injection Hq' as <-.
    rewrite select_ge_shift, mean_shift in Hc' by exact Htail.
    assert (Hm : mean (List.map (fun v => v + c) a) = mean a + c)
      by (apply mean_shift; exact Ha).
    unfold cvar_minus_mean. subst a. cbn [List.map] in *.
    rewrite Hc, Hc', Hm. f_equal. ring.
  - assert (Hout : ~ (0 <= alpha <= 1)) by lra.
    destruct (cvar_minus_mean_undefined a alpha Ha Hout) as [_ ->].
    now destruct (cvar_minus_mean_undefined _ alpha Hmap Hout) as [_ ->].
  - assert (Hout : ~ (0 <= alpha <= 1)) by lra.
    destruct (cvar_minus_mean_undefined a alpha Ha Hout) as [_ ->].
    now destruct (cvar_minus_mean_undefined _ alpha Hmap Hout) as [_ ->].
Qed.

(** The tail premium does not see a common delay: adding the same number
    of minutes to every sample leaves [cvar_minus_mean] unchanged, at every
    tail level (also where it raises), although [cvar] and the mean both
    move by that number. *)
Theorem cvar_minus_mean_shift_invariant (samples : list R) (alpha c : R) :
  cvar_minus_mean (List.map (fun v => v + c) samples) alpha
  = cvar_minus_mean samples alpha
  /\ (samples <> [] ->
        mean (List.map (fun v => v + c) samples) = mean samples + c
        /\ cvar (List.map (fun v => v + c) samples) alpha
           = option_map (fun v => v + c) (cvar samples alpha)).
Proof.
  split; [apply cvar_minus_mean_shift |].
  intros Hne. split; [now apply mean_shift |].
  assert (Hmap : List.map (fun v => v + c) samples <> [])
    by (destruct samples; [contradiction | discriminate]).
  destruct (Rle_dec 0 alpha) as [H0 |];
    [destruct (Rle_dec alpha 1) as [H1 |] |].
  - destruct (cvar_value samples alpha Hne (conj H0 H1))
      as (q & Hq & Htail & Hc).
    destruct (cvar_value _ alpha Hmap (conj H0 H1)) as (q' & Hq' & _ & Hc').
    rewrite quantile_shift, Hq in Hq'. injection Hq' as <-.
    rewrite select_ge_shift, mean_shift in Hc' by exact Htail.
    now rewrite Hc, Hc'.
  - assert (Hout : ~ (0 <= alpha <= 1)) by lra.
    destruct (cvar_minus_mean_undefined samples alpha Hne Hout) as [-> _].
    now destruct (cvar_minus_mean_undefined _ alpha Hmap Hout) as [-> _].
  - assert (Hout : ~ (0 <= alpha <= 1)) by lra.
    destruct (cvar_minus_mean_undefined samples alpha Hne Hout) as [-> _].
    now destruct (cvar_minus_mean_undefined _ alpha Hmap Hout) as [-> _].
Qed.

Lemma cvar_minus_mean_shift_invariant_witness :
  mean (List.map (fun v => v + 10) [4; 1; 9]) = mean [4; 1; 9] + 10
  /\ cvar (List.map (fun v => v + 10) [4; 1; 9]) 0.9
     = option_map (fun v => v + 10) (cvar [4; 1; 9] 0.9).
Proof.
  destruct (cvar_minus_mean_shift_invariant [4; 1; 9] 0.9 10) as [_ H].
  apply H. discriminate.
Defined.

(** *** Shocks *)

Lemma add_where_below_cases (samples us : list R) (p m : R) :
  List.length us = List.length samples ->
  Forall2 (fun x y => y = x \/ y = x + m) samples
          (add_where_below samples us p m).
Proof.
  unfold add_where_below. revert us.
  induction samples as [| x samples IH]; intros [| u us]; simpl;
    try discriminate; [constructor |].
  intros [= Hlen]. constructor; [| now apply IH].
  destruct (Rlt_dec u p); [now right | now left].
Qed.

Lemma Forall2_eq_or_shift_refl (m : R) (samples : list R) :
  Forall2 (fun x y => y = x \/ y = x + m) samples samples.
Proof. induction samples; constructor; [now left | assumption]. Qed.

(** [apply_shocks] never raises and never changes the number of samples:
    each returned sample is the given one or the given one plus
    [shock_minutes].  With a probability or a magnitude that is not
    positive it returns the samples as they are and draws nothing. *)
Theorem apply_shocks_shape {G : Generator} (samples : list R) (p m : R)
    (g : state G) :
  (p <= 0 \/ m <= 0 -> apply_shocks samples p m g = (Some samples, g))
  /\ (exists out,
        fst (apply_shocks samples p m g) = Some out
        /\ Forall2 (fun x y => y = x \/ y = x + m) samples out).
Proof.
  split.
  - intros Hoff. unfold apply_shocks, ret.
    destruct (Rle_dec p 0); [reflexivity |].
    destruct (Rle_dec m 0); [reflexivity | lra].
  - rewrite apply_shocks_value. eexists. split; [reflexivity |].
    destruct (Rle_dec p 0); [apply Forall2_eq_or_shift_refl |].
    destruct (Rle_dec m 0); [apply Forall2_eq_or_shift_refl |].
    apply add_where_below_cases, draws_length.
Qed.

Lemma apply_shocks_shape_witness :
  @apply_shocks Examples.replay [30; 40] 0 10 [0.2; 0.7]
  = (Some [30; 40], [0.2; 0.7]).
Proof.
  destruct (@apply_shocks_shape Examples.replay [30; 40] 0 10 [0.2; 0.7])
    as [H _].
  apply H. left. lra.
Defined.

Lemma add_where_below_all (samples us : list R) (p m : R) :
  List.length us = List.length samples ->
  Forall (fun u => u < p) us ->
  add_where_below samples us p m = List.map (fun v => v + m) samples.
Proof.
  unfold add_where_below. revert us.
  induction samples as [| x samples IH]; intros [| u us]; simpl;
    try discriminate; [reflexivity |].
  intros [= Hlen] Hall. inversion Hall as [| ? ? Hu Hus]; subst.
  destruct (Rlt_dec u p); [| contradiction]. f_equal. now apply IH.
Qed.

(** A shock that hits every sample (all the uniform draws fall below the
    shock probability) delays every sample by [shock_minutes] and leaves
    the tail premium of the leg as it was without the shock. *)
Theorem shock_on_every_sample_keeps_premium {G : Generator}
    (samples : list R) (p m alpha : R) (g : state G) :
  0 < p -> 0 < m ->
  Forall (fun u => u < p)
         (fst (draws (random_sample G) (List.length samples) g)) ->
  fst (apply_shocks samples p m g)
  = Some (List.map (fun v => v + m) samples)
  /\ cvar_minus_mean (List.map (fun v => v + m) samples) alpha
     = cvar_minus_mean samples alpha.
Proof.
  intros Hp Hm Hall. split.
  - rewrite apply_shocks_value.
    destruct (Rle_dec p 0); [lra |]. destruct (Rle_dec m 0); [lra |].
    f_equal. apply add_where_below_all; [apply draws_length | exact Hall].
  - apply cvar_minus_mean_shift.
Qed.

Lemma shock_on_every_sample_keeps_premium_witness :
  fst (@apply_shocks Examples.replay [30; 40] 0.5 10 [0.2; 0.3])
  = Some (List.map (fun v => v + 10) [30; 40])
  /\ cvar_minus_mean (List.map (fun v => v + 10) [30; 40]) 0.9
     = cvar_minus_mean [30; 40] 0.9.
Proof.
  apply (@shock_on_every_sample_keeps_premium Examples.replay [30; 40]
           0.5 10 0.9 [0.2; 0.3]); [lra | lra |].
  simpl. repeat constructor; lra.
Defined.

Lemma apply_shocks_total {G : Generator} (samples : list R) (p m : R)
    (g : state G) :
  exists out g', apply_shocks samples p m g = (Some out, g').
Proof.
  unfold apply_shocks, bind, rand, ret.
  destruct (Rle_dec p 0); [eauto |]. destruct (Rle_dec m 0); [eauto |].
  destruct (draws (random_sample G) (List.length samples) g). eauto.
Qed.

Lemma apply_shocks_length {G : Generator} (samples : list R) (p m : R)
    (g : state G) :
  exists out g',
    apply_shocks samples p m g = (Some out, g')
    /\ List.length out = List.length samples.
Proof.
  unfold apply_shocks, bind, rand, ret.
  destruct (Rle_dec p 0); [eauto |]. destruct (Rle_dec m 0); [eauto |].
  pose proof (draws_length (random_sample G) (List.length samples) g) as Hlen.
  destruct (draws (random_sample G) (List.length samples) g) as [us g'].
  do 2 eexists. split; [reflexivity |].
  unfold add_where_below. rewrite length_zip_with. simpl in Hlen. lia.
Qed.

(** [risk_with_shocks] raises on a configuration without the [shocks]
    attribute, before anything is drawn.  With the attribute set, a risk
    aversion [rho >= 0] and a tail level in [[0,1]], it returns a premium
    that is not negative, whatever the samples, the shock settings and
    the draws are. *)
Theorem risk_with_shocks_nonneg {G : Generator} (cfg : RiskConfig)
    (A_samples P_samples : list R) (g : state G) :
  (shocks cfg = None ->
     risk_with_shocks cfg A_samples P_samples g = (None, g))
  /\ (forall sh, shocks cfg = Some sh ->
        0 <= rho cfg -> 0 <= alpha cfg <= 1 ->
        exists r, fst (risk_with_shocks cfg A_samples P_samples g) = Some r
                  /\ 0 <= r).
Proof.
  split.
  - intros Hsh. unfold risk_with_shocks, bind, lift. now rewrite Hsh.
  - intros sh Hsh Hrho Halpha. unfold risk_with_shocks, bind, lift, ret.
    rewrite Hsh.
    destruct (apply_shocks_total A_samples (shock sh "incident_prob")
                (shock sh "incident_minutes") g) as (A' & g1 & ->).
    destruct (apply_shocks_total P_samples (shock sh "rail_disruption_prob")
                (shock sh "rail_disruption_minutes") g1) as (P' & g2 & ->).
    destruct (premium_nonneg A' (alpha cfg) Halpha) as (dA & -> & HdA).
    destruct (premium_nonneg P' (alpha cfg) Halpha) as (dP & -> & HdP).
    simpl. eexists. split; [reflexivity | nra].
Qed.

Lemma risk_with_shocks_nonneg_witness :
  @risk_with_shocks Examples.replay Examples2.loaded_risk [30; 40] [20]
    [0.2; 0.7] = (None, [0.2; 0.7])
  /\ exists r,
       fst (@risk_with_shocks Examples.replay (Examples.risk_cfg 0.5 10)
              [30; 40] [20] [0.2; 0.7]) = Some r
       /\ 0 <= r.
Proof.
  split.
  - apply (@risk_with_shocks_nonneg Examples.replay Examples2.loaded_risk
             [30; 40] [20] [0.2; 0.7]).
    reflexivity.
  - apply (proj2 (@risk_with_shocks_nonneg Examples.replay
                    (Examples.risk_cfg 0.5 10) [30; 40] [20] [0.2; 0.7])
             _ eq_refl); simpl; lra.
Defined.

End RiskExtra.

(** ** components.py: the cost terms *)

Module ComponentsFacts.
Import Numeric NumericFacts Rng Risk RiskFacts Config Components.

Lemma ceil_spec (x : R) (z : Z) : x <= IZR z < x + 1 -> ceil x = IZR z.
Proof.
  intros [Hlo Hhi]. unfold ceil.
  rewrite <- (Int_part_spec (- x) (- z)).
  - rewrite opp_IZR. lra.
  - rewrite opp_IZR. lra.
Qed.

(** [cash_drive] raises exactly when the airport is missing from the daily
    or from the weekly parking table; the distance and the duration play
    no part in that. *)
Theorem cash_drive_raises_iff (cfg : AppConfig) (airport : string)
    (distance_miles duration_days : R) :
  cash_drive cfg airport distance_miles duration_days = None
  <-> parking_daily (drive (modes cfg)) !! airport = None
      \/ parking_weekly (drive (modes cfg)) !! airport = None.
Proof.
  unfold cash_drive.
  destruct (parking_daily (drive (modes cfg)) !! airport) as [daily |];
    destruct (parking_weekly (drive (modes cfg)) !! airport) as [weekly |];
    simpl; intuition; discriminate.
Qed.

(** Parking is billed by started days, at least one, and for a stay of at
    most seven days never above one weekly rate: the cash cost of driving
    is [min(ceil(D) * daily, weekly)] plus the mileage and the fixed fees,
    with [D = max(1, duration_days)]; a stay of less than a day costs what
    a one-day stay costs. *)
Theorem cash_drive_short_stay (cfg : AppConfig) (airport : string)
    (distance_miles duration_days daily weekly : R) :
  parking_daily (drive (modes cfg)) !! airport = Some daily ->
  parking_weekly (drive (modes cfg)) !! airport = Some weekly ->
  duration_days <= 7 ->
  cash_drive cfg airport distance_miles duration_days
  = Some (Rmin (ceil (Rmax 1 duration_days) * daily) weekly + 0
          + cmile (cost (drive (modes cfg))) * 2 * distance_miles
          + rem_lot_fee (cost (drive (modes cfg)))
          + shuttle_fee (cost (drive (modes cfg)))
          + drive_fare_risk (cost (drive (modes cfg))))
  /\ (duration_days <= 1 ->
        cash_drive cfg airport distance_miles duration_days
        = cash_drive cfg airport distance_miles 1).
Proof.
  intros Hd Hw Hdur. unfold cash_drive. rewrite Hd, Hw. simpl. split.
  - assert (Hweek : ceil (Rmax 1 duration_days / 7) = 1).
    { apply (ceil_spec _ 1). unfold Rmax.
      destruct (Rle_dec 1 duration_days); lra. }
    rewrite Hweek. now rewrite Rmult_1_l.
  - intros Hshort. rewrite (Rmax_left 1 duration_days) by lra.
    now rewrite (Rmax_left 1 1) by lra.
Qed.

Lemma cash_drive_short_stay_witness :
  cash_drive Examples2.plain_cfg "HVN" 10 3
  = Some (Rmin (ceil (Rmax 1 3) * 12) 60 + 0
          + cmile (cost (drive (modes Examples2.plain_cfg))) * 2 * 10
          + rem_lot_fee (cost (drive (modes Examples2.plain_cfg)))
          + shuttle_fee (cost (drive (modes Examples2.plain_cfg)))
          + drive_fare_risk (cost (drive (modes Examples2.plain_cfg)))).
Proof.
  apply (cash_drive_short_stay Examples2.plain_cfg "HVN" 10 3 12 60);
    [reflexivity | reflexivity | lra].
Defined.

Lemma band_values_absent (cfg : AppConfig) (key : string) :
  Forall (fun b => band_name b <> key) (tod_bands (vot cfg)) ->
  band_values cfg !! key = None.
Proof.
  intros Hall. unfold band_values.
  apply not_elem_of_list_to_map_1. intros Hin.
  apply list_elem_of_fmap in Hin. destruct Hin as ([k v] & Hk & Hin).
  simpl in Hk. subst k.
  apply list_elem_of_In, in_rev in Hin.
  apply in_map_iff in Hin. destruct Hin as (b & [= Hname Hval] & Hb).
  rewrite Forall_forall in Hall. apply (Hall b); [| exact Hname].
  now apply list_elem_of_In.
Qed.

(** The time value reads the bands named "peak", "offpeak" and "night"
    only, weighted 0.4, 0.5 and 0.1; a band that is missing counts at
    the party's value of time.  With none of the three configured (bands
    of other names are ignored) the time value is the party's value of time
    per minute, times the legs, times the access and process minutes. *)
Theorem timeval_without_bands (cfg : AppConfig) (r : Z)
    (access_mean_min proc_mean_min : R) :
  Forall (fun b => band_name b <> "peak" /\ band_name b <> "offpeak"
                   /\ band_name b <> "night") (tod_bands (vot cfg)) ->
  timeval cfg r access_mean_min proc_mean_min
  = party_vot_per_minute cfg * IZR r * (access_mean_min + proc_mean_min).
Proof.
  intros Hall. unfold timeval, _tod_multiplier.
  rewrite !band_values_absent;
    [simpl; lra | | |];
    (eapply Forall_impl; [exact Hall |]; simpl; tauto).
Qed.

Lemma timeval_without_bands_witness :
  timeval (Examples2.app_cfg (Examples.risk_cfg 0.5 10)
             [{| band_name := "rush"; minutes_value := 3 |}]
             Examples.qsi_leisure) 2 40 25
  = party_vot_per_minute
      (Examples2.app_cfg (Examples.risk_cfg 0.5 10)
         [{| band_name := "rush"; minutes_value := 3 |}]
         Examples.qsi_leisure) * IZR 2 * (40 + 25).
Proof.
  apply timeval_without_bands. simpl.
  repeat constructor; discriminate.
Defined.

Lemma window_penalty_default (thetaE thetaL a : R) :
  0 <= a -> window_penalty 0 60 120 thetaE thetaL a = thetaE * (a + 60).
Proof.
  intros Ha. unfold window_penalty.
  rewrite (Rmax_left (60 - (0 - a)) 0) by lra.
  rewrite (Rmax_right (0 - a - 120) 0) by lra. lra.
Qed.

Lemma mean_scale (c : R) (l : list R) :
  mean (List.map (fun v => c * v) l) = c * mean l.
Proof.
  unfold mean. rewrite length_map.
  assert (H : rsum (List.map (fun v => c * v) l) = c * rsum l).
  { induction l as [| x l IH]; cbn [List.map rsum fold_right]; [lra |].
    unfold rsum in IH. rewrite IH. lra. }
  rewrite H. unfold Rdiv. ring.
Qed.

(** the truncated samples that a positional estimate yields *)
Lemma truncated_samples {G : Generator} (mean sd : R) (g : state G) :
  0 <= sd ->
  exists A g',
    gaussian_samples mean sd default_size (Some 0) g = (Some A, g')
    /\ List.length A = default_size
    /\ Forall (fun v => 0 <= v) A.
Proof.
  intros Hsd. unfold gaussian_samples, bind, normal, ret.
  destruct (Rlt_dec sd 0); [lra |].
  pose proof (draws_length (standard_normal G) default_size g) as Hlen.
  destruct (draws (standard_normal G) default_size g) as [zs g'].
  cbn [fst] in Hlen.
  do 2 eexists. split; [reflexivity |]. split.
  - now rewrite !length_map.
  - apply Forall_forall. intros v Hv. apply list_elem_of_In in Hv.
    apply in_map_iff in Hv. destruct Hv as (w & <- & _). apply Rmax_r.
Qed.

(** With the window that stands in for an unparsable schedule (departure
    at 0, curb window from 60 to 120) every access sample counts as early
    by 60 minutes plus the access time itself, and never as late: the
    schedule term is the party's value of time per minute times the early
    weight times [60 + mean(A)], [A] being the truncated access samples,
    and the late weight plays no part. *)
Theorem schedule_alignment_default_window {G : Generator} (cfg : AppConfig)
    (airport : string) (access_rv : Travel.TravelRV) (thetaE thetaL : R)
    (g : state G) :
  0 <= Travel.sd access_rv ->
  exists A,
    fst (gaussian_samples (Travel.mean access_rv) (Travel.sd access_rv)
           default_size (Some 0) g) = Some A
    /\ 0 <= mean A
    /\ fst (schedule_alignment cfg airport 0 access_rv 60 120 thetaE thetaL g)
       = Some (party_vot_per_minute cfg * (thetaE * (mean A + 60))).
Proof.
  intros Hsd.
  destruct (truncated_samples (Travel.mean access_rv) (Travel.sd access_rv)
              g Hsd) as (A & g' & HA & Hlen & Hpos).
  assert (Hne : A <> []) by (intros ->; discriminate).
  exists A. split; [now rewrite HA |]. split.
  - apply RiskExtra.mean_ge_bound; [exact Hne |].
    intros x Hx. rewrite Forall_forall in Hpos. apply Hpos.
    now apply list_elem_of_In.
  - unfold schedule_alignment, bind, ret. rewrite HA. cbn [fst].
    do 2 f_equal.
    rewrite <- (RiskExtra.mean_shift 60 A Hne).
    rewrite <- mean_scale, List.map_map. f_equal.
    apply map_ext_in. intros a Ha. apply window_penalty_default.
    rewrite Forall_forall in Hpos. apply Hpos. now apply list_elem_of_In.
Qed.

Lemma schedule_alignment_default_window_witness :
  exists A,
    fst (@gaussian_samples Examples.replay 30 5 default_size (Some 0) [])
    = Some A
    /\ 0 <= mean A
    /\ fst (@schedule_alignment Examples.replay Examples2.plain_cfg "HVN" 0
              {| Travel.mean := 30; Travel.sd := 5 |} 60 120 3 2 [])
       = Some (party_vot_per_minute Examples2.plain_cfg * (3 * (mean A + 60))).
Proof.
  apply (@schedule_alignment_default_window Examples.replay
           Examples2.plain_cfg "HVN" {| Travel.mean := 30; Travel.sd := 5 |}
           3 2 []).
  simpl. lra.
Defined.

(** The analytic risk term is defined and not negative whenever the
    access spread, the risk aversion, the three context multipliers, the
    party's value of time and the number of legs are not negative and the
    tail level is in [[0,1]]; a negative access spread or a tail level
    outside [[0,1]] makes it raise. *)
Theorem risk_component_nonneg {G : Generator} (cfg : AppConfig) (r : Z)
    (access_rv : Travel.TravelRV) (proc_mean_min : R) (g : state G) :
  (0 <= Travel.sd access_rv -> 0 <= alpha (risk cfg) <= 1 ->
   0 <= rho (risk cfg) ->
   0 <= weather (multipliers (risk cfg)) ->
   0 <= event (multipliers (risk cfg)) ->
   0 <= construction (multipliers (risk cfg)) ->
   0 <= party_vot_per_minute cfg -> (0 <= r)%Z ->
   exists v, fst (risk_component cfg r access_rv proc_mean_min g) = Some v
             /\ 0 <= v)
  /\ (Travel.sd access_rv < 0 \/ ~ (0 <= alpha (risk cfg) <= 1) ->
      fst (risk_component cfg r access_rv proc_mean_min g) = None).
Proof.
  assert (Hproc : 0 <= Rmax 2 (0.2 * proc_mean_min))
    by (pose proof (Rmax_l 2 (0.2 * proc_mean_min)); lra).
  split.
  - intros Hsd Halpha Hrho Hw He Hc Hvot Hr.
    unfold risk_component, bind, lift, ret.
    destruct (truncated_samples (Travel.mean access_rv) (Travel.sd access_rv)
                g Hsd) as (A & g1 & -> & _ & _).
    destruct (truncated_samples proc_mean_min (Rmax 2 (0.2 * proc_mean_min))
                g1 Hproc) as (P & g2 & -> & _ & _).
    destruct (RiskExtra.premium_nonneg A (alpha (risk cfg)) Halpha)
      as (dA & -> & HdA).
    destruct (RiskExtra.premium_nonneg P (alpha (risk cfg)) Halpha)
      as (dP & -> & HdP).
    cbn [fst]. eexists. split; [reflexivity |].
    unfold apply_context_multiplier.
    assert (0 <= IZR r) by (apply IZR_le in Hr; exact Hr).
    do 7 (apply Rmult_le_pos; [| lra]). lra.
  - intros [Hsd | Halpha]; unfold risk_component, bind, lift, ret.
    + unfold gaussian_samples at 1. unfold bind, normal, raise.
      destruct (Rlt_dec (Travel.sd access_rv) 0); [reflexivity | lra].
    + destruct (Rlt_dec (Travel.sd access_rv) 0) as [Hneg | Hsd].
      * unfold gaussian_samples at 1. unfold bind, normal, raise.
        destruct (Rlt_dec (Travel.sd access_rv) 0); [reflexivity | lra].
      * assert (Hsd' : 0 <= Travel.sd access_rv) by lra.
        destruct (truncated_samples (Travel.mean access_rv)
                    (Travel.sd access_rv) g Hsd') as (A & g1 & -> & HlenA & _).
        destruct (truncated_samples proc_mean_min
                    (Rmax 2 (0.2 * proc_mean_min)) g1 Hproc)
          as (P & g2 & -> & _ & _).
        assert (HA : A <> []) by (intros ->; discriminate).
        now destruct (RiskExtra.cvar_minus_mean_undefined A (alpha (risk cfg))
                        HA Halpha) as [_ ->].
Qed.

Lemma risk_component_nonneg_witness :
  exists v,
    fst (@risk_component Examples.replay Examples2.plain_cfg 1
           {| Travel.mean := 30; Travel.sd := 5 |} 25 []) = Some v
    /\ 0 <= v.
Proof.
  destruct (@risk_component_nonneg Examples.replay Examples2.plain_cfg 1
              {| Travel.mean := 30; Travel.sd := 5 |} 25 []) as [H _].
  apply H; simpl; try lra; try lia.
  unfold party_vot_per_minute. simpl. lra.
Defined.

End ComponentsFacts.

(** ** model.py: the generalized-cost table *)

Module GcModelFacts.
Import Numeric NumericFacts Rng Risk RiskFacts Config Components GcModel GcAux.

Lemma bind_run {G : Generator} {A B} (m : M G A) (f : A -> M G B)
    (g : state G) :
  bind m f g
  = match m g with
    | (Some x, g') => f x g'
    | (None, g') => (None, g')
    end.
Proof. reflexivity. Qed.

Lemma nanmin_fin (v : R) (vs : list R) :
  nanmin (Fin v) (List.map Fin vs) = Fin (fold_left Rmin vs v).
Proof.
  unfold nanmin. revert v. induction vs as [| w vs IH]; intros v; simpl;
    [reflexivity | apply IH].
Qed.

Lemma others_of_finite (gcs : dict R) :
  dict_values
    (List.filter (fun kv => negb (String.eqb (fst kv) "HVN"))
       (List.map (fun kv => (fst kv, Fin (snd kv))) gcs))
  = List.map Fin
      (dict_values
         (List.filter (fun kv => negb (String.eqb (fst kv) "HVN")) gcs)).
Proof.
  unfold dict_values. induction gcs as [| [k v] gcs IH]; [reflexivity |].
  cbn [List.map List.filter fst snd].
  destruct (negb (String.eqb k "HVN")); cbn [List.map snd]; now rewrite IH.
Qed.

Lemma dict_get_finite (gcs : dict R) (k : string) :
  dict_get (List.map (fun kv => (fst kv, Fin (snd kv))) gcs) k
  = option_map Fin (dict_get gcs k).
Proof.
  induction gcs as [| [k' v] gcs IH]; [reflexivity |].
  cbn [List.map dict_get fst snd]. now destruct (String.eqb k' k).
Qed.

Lemma dict_get_absent {A} (d : dict A) (k : string) :
  dict_get d k = None <-> forall v, ~ In (k, v) d.
Proof.
  induction d as [| [k' v'] d IH]; simpl.
  - split; [intros _ v [] | reflexivity].
  - destruct (String.eqb k' k) eqn:Hk.
    + apply String.eqb_eq in Hk. subst k'.
      split; [discriminate | intros H; exfalso; apply (H v'); now left].
    + apply String.eqb_neq in Hk. rewrite IH. split.
      * intros H v [[= Hkk _] | Hin]; [congruence | now apply (H v)].
      * intros H v Hin. apply (H v). now right.
Qed.

(** [delta_gc] is NaN when "HVN" is not among the airports of the row or
    is the only one.  With finite costs, "HVN" present and at least one
    other airport, it is the cost of HVN minus the cost of some other
    airport, and no other airport gives a larger difference: it is
    negative or zero exactly when HVN is at most as costly as every
    other airport. *)
Theorem delta_of_home_and_best_other (gcs : dict R) :
  let per_airport_gc := List.map (fun kv => (fst kv, Fin (snd kv))) gcs in
  let others :=
    List.filter (fun kv => negb (String.eqb (fst kv) "HVN")) gcs in
  (dict_get gcs "HVN" = None -> delta_of per_airport_gc = None)
  /\ (others = [] -> delta_of per_airport_gc = None)
  /\ (forall h, dict_get gcs "HVN" = Some h -> others <> [] ->
        exists d,
          delta_of per_airport_gc = Some d
          /\ (exists kv, In kv others /\ d = h - snd kv)
          /\ (forall kv, In kv others -> h - snd kv <= d)).
Proof.
  intros per_airport_gc others. unfold delta_of.
  fold per_airport_gc. unfold per_airport_gc.
  rewrite others_of_finite, dict_get_finite. fold others.
  split; [| split].
  - now intros ->.
  - intros ->. simpl. now destruct (option_map Fin (dict_get gcs "HVN")) as [[] |].
  - intros h -> Hne. cbn [option_map].
    destruct others as [| [k v] rest] eqn:Ho; [contradiction |].
    cbn [dict_values List.map snd]. fold (dict_values rest).
    rewrite nanmin_fin. eexists. split; [reflexivity |]. split.
    + destruct (ModelFacts.fold_left_Rmin_in (dict_values rest) v) as [Heq | Hin].
      * exists (k, v). split; [now left | now rewrite Heq].
      * unfold dict_values in Hin. apply in_map_iff in Hin.
        destruct Hin as (kv & Hkv & Hin).
        exists kv. split; [now right | now rewrite Hkv].
    + intros kv [<- | Hin]; cbn [snd].
      * pose proof (ModelFacts.fold_left_Rmin_le_init (dict_values rest) v). lra.
      * pose proof (ModelFacts.fold_left_Rmin_le_elem (dict_values rest) v
                      (snd kv)) as Hle.
        assert (In (snd kv) (dict_values rest))
          by (unfold dict_values; now apply in_map).
        specialize (Hle H). lra.
Qed.

Lemma delta_of_home_and_best_other_witness :
  exists d,
    delta_of [("HVN", Fin 80); ("JFK", Fin 120); ("LGA", Fin 110)] = Some d
    /\ (exists kv, In kv [("JFK", 120); ("LGA", 110)] /\ d = 80 - snd kv)
    /\ (forall kv, In kv [("JFK", 120); ("LGA", 110)] -> 80 - snd kv <= d).
Proof.
  destruct (delta_of_home_and_best_other
              [("HVN", 80); ("JFK", 120); ("LGA", 110)]) as (_ & _ & H).
  apply (H 80); [reflexivity | discriminate].
Defined.

(** *** Exceptions that abort the whole table *)

Lemma AIRPORTS_unknown (c : string) :
  c <> "HVN" -> c <> "JFK" -> c <> "LGA" -> c <> "EWR" ->
  Data.AIRPORTS !! c = None.
Proof.
  intros H1 H2 H3 H4. unfold Data.AIRPORTS.
  rewrite !lookup_insert_ne by congruence. apply lookup_empty.
Qed.

Lemma airports_gdf_unknown (airports : list string) (c : string) :
  In c airports -> Data.AIRPORTS !! c = None ->
  Data.airports_gdf airports = None.
Proof.
  intros Hin Hc.
  assert (Hrows : Data.airport_rows airports = None).
  { induction airports as [| a airports IH]; [destruct Hin |].
    cbn [Data.airport_rows]. destruct Hin as [-> | Hin].
    - now rewrite Hc.
    - rewrite (IH Hin). now destruct (Data.AIRPORTS !! a). }
  unfold Data.airports_gdf. now rewrite Hrows.
Qed.

Section Doomed.
Context {G : Generator}.
Context (W : Aggregators.Services) (E : Travel.Geo) (C : Model.Clock)
        (X : ContextProviders.ContextServices).
Context (cfg : AppConfig) (luggage : string) (r_legs : Z) (duration_days : R).

(** the estimate dictionary that [airport_gc] builds *)
Lemma mode_rv_items (drive_rv ride_rv rail_rv : Travel.TravelRV) :
  dict_set (dict_set (dict_set [] "drive" drive_rv) "ride" ride_rv)
    "rail" rail_rv
  = [("drive", drive_rv); ("ride", ride_rv); ("rail", rail_rv)].
Proof. reflexivity. Qed.

Lemma unknown_mode_doomed (m a : string) :
  m <> "drive" -> m <> "ride" -> m <> "rail" -> doomed G cfg luggage r_legs duration_days m a.
Proof.
  intros Hd Hr Hl dist drv rrv lrv t tmin tmax k g.
  unfold mode_total, bind, lift. cbn [dict_get].
  assert (H1 : String.eqb "drive" m = false)
    by (apply String.eqb_neq; congruence).
  assert (H2 : String.eqb "ride" m = false)
    by (apply String.eqb_neq; congruence).
  assert (H3 : String.eqb "rail" m = false)
    by (apply String.eqb_neq; congruence).
  now rewrite H1, H2, H3.
Qed.

Lemma missing_rate_doomed (a : string) :
  cash_drive cfg a 0 duration_days = None -> doomed G cfg luggage r_legs duration_days "drive" a.
Proof.
  intros Hcash dist drv rrv lrv t tmin tmax k g.
  assert (Hnone : cash_drive cfg a dist duration_days = None).
  { unfold cash_drive in *.
    destruct (parking_daily (drive (modes cfg)) !! a); [| reflexivity].
    destruct (parking_weekly (drive (modes cfg)) !! a);
      [discriminate | reflexivity]. }
  unfold mode_total, bind, lift. cbn [dict_get String.eqb Ascii.eqb Bool.eqb].
  unfold compute_components_for_mode, bind, lift.
  cbn [String.eqb Ascii.eqb Bool.eqb]. now rewrite Hnone.
Qed.

Lemma modes_loop_doomed (m a : string) (modes : list string) (dist_miles : R)
    (drive_rv ride_rv rail_rv : Travel.TravelRV)
    (t_depart_min tmin_min tmax_min k_ctx : R) :
  doomed G cfg luggage r_legs duration_days m a -> In m modes ->
  forall (acc : dict R) (g : state G),
    fst (modes_loop cfg modes a dist_miles
           [("drive", drive_rv); ("ride", ride_rv); ("rail", rail_rv)]
           r_legs duration_days t_depart_min tmin_min tmax_min luggage k_ctx
           acc g) = None.
Proof.
  intros Hdoom. induction modes as [| m0 modes IH]; [intros [] |].
  intros Hin acc g. cbn [modes_loop]. unfold bind.
  destruct (mode_total cfg m0 a dist_miles _ r_legs duration_days t_depart_min
              tmin_min tmax_min luggage k_ctx g) as [[total |] g1] eqn:Hm0;
    [| reflexivity].
  destruct Hin as [-> | Hin].
  - pose proof (Hdoom dist_miles drive_rv ride_rv rail_rv t_depart_min
                  tmin_min tmax_min k_ctx g) as Hnone.
    rewrite Hm0 in Hnone. discriminate.
  - now apply IH.
Qed.

Lemma airport_gc_doomed (m a : string) (apts : dict (R * R))
    (providers : Aggregators.ProviderConfig) (lon lat : R)
    (modes : list string) (g : state G) :
  doomed G cfg luggage r_legs duration_days m a -> In m modes ->
  fst (airport_gc W E C X cfg apts providers lon lat a modes luggage r_legs
         duration_days g) = None.
Proof.
  intros Hdoom Hin. unfold airport_gc, bind, lift.
  destruct (dict_get apts a) as [[alon alat] |]; [| reflexivity].
  cbn [fst snd].
  destruct (Travel.estimate_drive_time_minutes _ _ _ _ _ _ _); [| reflexivity].
  destruct (Travel.estimate_ride_time_minutes _ _ _ _ _ _ _); [| reflexivity].
  destruct (Travel.estimate_rail_time_minutes _ _ _ _ _); [| reflexivity].
  rewrite mode_rv_items.
  destruct (Model.schedule_window C (schedule cfg) a) as [[tdep tlo] thi].
  match goal with
  | |- context [modes_loop ?c ?ms ?a ?d ?rv ?r ?dd ?w1 ?w2 ?w3 ?l ?k ?acc ?g] =>
      pose proof (modes_loop_doomed m a ms d t t0 t1 w1 w2 w3 k Hdoom Hin acc g)
        as Hloop;
      destruct (modes_loop c ms a d rv r dd w1 w2 w3 l k acc g) as [[d' |] g']
  end; [discriminate | reflexivity].
Qed.

Lemma airports_loop_doomed (m a : string) (apts : dict (R * R))
    (providers : Aggregators.ProviderConfig) (lon lat : R)
    (airports modes : list string) :
  doomed G cfg luggage r_legs duration_days m a -> In m modes -> In a airports ->
  forall (acc : dict xfloat) (g : state G),
    fst (airports_loop W E C X cfg apts providers lon lat airports modes
           luggage r_legs duration_days acc g) = None.
Proof.
  intros Hdoom Hm. induction airports as [| a0 airports IH]; [intros [] |].
  intros Hin acc g. cbn [airports_loop]. unfold bind.
  destruct (airport_gc W E C X cfg apts providers lon lat a0 modes luggage
              r_legs duration_days g) as [[v |] g1] eqn:Ha0; [| reflexivity].
  destruct Hin as [-> | Hin].
  - pose proof (airport_gc_doomed m a apts providers lon lat modes g Hdoom Hm)
      as Hnone.
    rewrite Ha0 in Hnone. discriminate.
  - now apply IH.
Qed.

Lemma table_doomed (m a : string) (origins : list Origin)
    (airports modes : list string) (g : state G) :
  doomed G cfg luggage r_legs duration_days m a -> In m modes -> In a airports -> origins <> [] ->
  fst (generalized_cost_delta W E C X cfg origins airports modes luggage
         r_legs duration_days g) = None.
Proof.
  intros Hdoom Hm Ha Ho. unfold generalized_cost_delta, bind, lift.
  destruct (Data.airports_gdf airports) as [ap |]; [| reflexivity].
  destruct origins as [| row origins]; [contradiction |].
  cbn [origins_loop]. unfold bind, origin_row, bind.
  match goal with
  | |- context [airports_loop ?w ?e ?c ?x ?cf ?ap ?p ?lo ?la ?as_ ?ms ?l ?r ?d
                  ?acc ?g] =>
      pose proof (airports_loop_doomed m a ap p lo la as_ ms Hdoom Hm Ha acc g)
        as Hloop;
      destruct (airports_loop w e c x cf ap p lo la as_ ms l r d acc g)
        as [[d' |] g']
  end; [discriminate | reflexivity].
Qed.

End Doomed.




(** A code outside the airport table ("HVN", "JFK", "LGA", "EWR") among
    the requested airports makes [generalized_cost_delta] raise at once:
    no origin is processed and nothing is drawn. *)
Theorem unknown_airport_aborts {G : Generator} (W : Aggregators.Services)
    (E : Travel.Geo) (C : Model.Clock) (X : ContextProviders.ContextServices)
    (cfg : AppConfig) (origins : list Origin) (airports modes : list string)
    (luggage : string) (r_legs : Z) (duration_days : R) (c : string)
    (g : state G) :
  In c airports ->
  c <> "HVN" -> c <> "JFK" -> c <> "LGA" -> c <> "EWR" ->
  generalized_cost_delta W E C X cfg origins airports modes luggage r_legs
    duration_days g = (None, g).
Proof.
  intros Hin H1 H2 H3 H4. unfold generalized_cost_delta, bind, lift.
  now rewrite (airports_gdf_unknown airports c Hin
                 (AIRPORTS_unknown c H1 H2 H3 H4)).
Qed.

Lemma unknown_airport_aborts_witness :
  @generalized_cost_delta Examples.replay Examples.services_ten
    Examples.seven_miles (Examples.table_clock ∅) Examples2.silent
    Examples2.plain_cfg [Examples2.new_haven] ["HVN"; "BDL"] ["drive"]
    "none" 1 3 [0.2; 0.7]
  = (None, [0.2; 0.7]).
Proof.
  apply (@unknown_airport_aborts Examples.replay) with (c := "BDL"%string);
    [right; now left | discriminate ..].
Defined.

(** Any mode other than "drive", "ride" and "rail" among the requested
    modes makes [generalized_cost_delta] raise as soon as there is an
    origin and an airport to process: there is no travel-time estimate
    for it. *)
Theorem unknown_mode_aborts {G : Generator} (W : Aggregators.Services)
    (E : Travel.Geo) (C : Model.Clock) (X : ContextProviders.ContextServices)
    (cfg : AppConfig) (origins : list Origin) (airports modes : list string)
    (luggage : string) (r_legs : Z) (duration_days : R) (m : string)
    (g : state G) :
  origins <> [] -> airports <> [] -> In m modes ->
  m <> "drive" -> m <> "ride" -> m <> "rail" ->
  fst (generalized_cost_delta W E C X cfg origins airports modes luggage
         r_legs duration_days g) = None.
Proof.
  intros Ho Ha Hm Hd Hr Hl.
  destruct airports as [| a airports]; [contradiction |].
  apply (table_doomed W E C X cfg luggage r_legs duration_days m a);
    [now apply unknown_mode_doomed | exact Hm | now left | exact Ho].
Qed.

Lemma unknown_mode_aborts_witness :
  fst (@generalized_cost_delta Examples.replay Examples.services_ten
         Examples.seven_miles (Examples.table_clock ∅) Examples2.silent
         Examples2.plain_cfg [Examples2.new_haven] ["HVN"] ["rail"; "bus"]
         "none" 1 3 [0.2; 0.7])
  = None.
Proof.
  apply (@unknown_mode_aborts Examples.replay) with (m := "bus"%string);
    [discriminate | discriminate | right; now left | discriminate ..].
Defined.

(** When "drive" is among the modes and one requested airport has no
    daily or no weekly parking rate, [generalized_cost_delta] raises for
    any non-empty list of origins: the missing rate of one airport costs
    the whole table. *)
Theorem missing_parking_rate_aborts {G : Generator} (W : Aggregators.Services)
    (E : Travel.Geo) (C : Model.Clock) (X : ContextProviders.ContextServices)
    (cfg : AppConfig) (origins : list Origin) (airports modes : list string)
    (luggage : string) (r_legs : Z) (duration_days : R) (a : string)
    (g : state G) :
  origins <> [] -> In a airports -> In "drive"%string modes ->
  parking_daily (drive (Config.modes cfg)) !! a = None
  \/ parking_weekly (drive (Config.modes cfg)) !! a = None ->
  fst (generalized_cost_delta W E C X cfg origins airports modes luggage
         r_legs duration_days g) = None.
Proof.
  intros Ho Ha Hm Hrate.
  apply (table_doomed W E C X cfg luggage r_legs duration_days "drive" a);
    [| exact Hm | exact Ha | exact Ho].
  apply missing_rate_doomed. unfold cash_drive.
  destruct Hrate as [-> | ->]; [reflexivity |].
  now destruct (parking_daily (drive (Config.modes cfg)) !! a).
Qed.

Lemma missing_parking_rate_aborts_witness :
  fst (@generalized_cost_delta Examples.replay Examples.services_ten
         Examples.seven_miles (Examples.table_clock ∅) Examples2.silent
         Examples2.plain_cfg [Examples2.new_haven] ["HVN"; "LGA"]
         ["rail"; "drive"] "none" 1 3 [0.2; 0.7])
  = None.
Proof.
  apply (@missing_parking_rate_aborts Examples.replay) with (a := "LGA"%string);
    [discriminate | right; now left | right; now left | left; reflexivity].
Defined.

(** *** The rows of the table *)

Lemma dict_get_set {A} (d : dict A) (k k' : string) (v : A) :
  dict_get (dict_set d k v) k'
  = if String.eqb k k' then Some v else dict_get d k'.
Proof.
  induction d as [| [k0 v0] d IH]; cbn [dict_set dict_get]; [reflexivity |].
  destruct (String.eqb k0 k) eqn:H0k; cbn [dict_get].
  - apply String.eqb_eq in H0k. subst k0. now destruct (String.eqb k k').
  - destruct (String.eqb k0 k') eqn:H0k'; [| exact IH].
    apply String.eqb_eq in H0k'. subst k0. now rewrite String.eqb_sym, H0k.
Qed.

Section Rows.
Context {G : Generator}.
Context (W : Aggregators.Services) (E : Travel.Geo) (C : Model.Clock)
        (X : ContextProviders.ContextServices).
Context (cfg : AppConfig) (apts : dict (R * R))
        (providers : Aggregators.ProviderConfig)
        (modes : list string) (luggage : string) (r_legs : Z)
        (duration_days : R).

Lemma airports_loop_keys (lon lat : R) (airports : list string) :
  forall (acc d : dict xfloat) (g g' : state G),
    airports_loop W E C X cfg apts providers lon lat airports modes luggage
      r_legs duration_days acc g = (Some d, g') ->
    forall a, dict_get d a <> None <-> In a airports \/ dict_get acc a <> None.
Proof.
  induction airports as [| a0 airports IH]; intros acc d g g' Hrun a.
  - cbn [airports_loop] in Hrun. unfold ret in Hrun.
    injection Hrun as <- _. simpl. tauto.
  - cbn [airports_loop] in Hrun. unfold bind in Hrun.
    destruct (airport_gc W E C X cfg apts providers lon lat a0 modes luggage
                r_legs duration_days g) as [[v |] g1]; [| discriminate].
    rewrite (IH _ _ _ _ Hrun a), dict_get_set. simpl.
    destruct (String.eqb a0 a) eqn:Ha.
    + apply String.eqb_eq in Ha. subst a0. split; [intros _; now left; left |].
      intros _. right. discriminate.
    + apply String.eqb_neq in Ha. tauto.
Qed.

Lemma origin_row_shape (airports : list string) (o : Origin) (r : Row)
    (g g' : state G) :
  origin_row W E C X cfg apts providers o airports modes luggage r_legs
    duration_days g = (Some r, g') ->
  GcAux.row_of airports o r.
Proof.
  unfold origin_row, bind, ret.
  destruct (airports_loop W E C X cfg apts providers (origin_lon o)
              (origin_lat o) airports modes luggage r_legs duration_days [] g)
    as [[d |] g1] eqn:Hloop; [| discriminate].
  intros [= <- _]. unfold GcAux.row_of. cbn [row_zip row_lon row_lat delta_gc gc].
  repeat split; try reflexivity.
  - intros Hin. apply (airports_loop_keys _ _ _ _ _ _ _ Hloop a). now left.
  - intros Hget. apply (airports_loop_keys _ _ _ _ _ _ _ Hloop a) in Hget.
    destruct Hget as [Hin | Hacc]; [exact Hin | now simpl in Hacc].
Qed.

Lemma origins_loop_rows (airports : list string) (origins : list Origin) :
  forall (acc rows : list Row) (g g' : state G),
    origins_loop W E C X cfg apts providers origins airports modes luggage
      r_legs duration_days acc g = (Some rows, g') ->
    exists new, rows = acc ++ new
                /\ Forall2 (GcAux.row_of airports) origins new.
Proof.
  induction origins as [| o origins IH]; intros acc rows g g' Hrun.
  - cbn [origins_loop] in Hrun. unfold ret in Hrun. injection Hrun as <- _.
    exists []. split; [now rewrite app_nil_r | constructor].
  - cbn [origins_loop] in Hrun. unfold bind in Hrun.
    destruct (origin_row W E C X cfg apts providers o airports modes luggage
                r_legs duration_days g) as [[r |] g1] eqn:Hrow;
      [| discriminate].
    destruct (IH _ _ _ _ Hrun) as (new & -> & Hnew).
    exists (r :: new). split; [now rewrite <- app_assoc |].
    constructor; [| exact Hnew]. exact (origin_row_shape _ _ _ _ _ Hrow).
Qed.

End Rows.

(** *** When the table returns *)

Section ModeReturns.
Context {G : Generator}.
Context (W : Aggregators.Services) (E : Travel.Geo).
Context (cfg : AppConfig) (luggage : string) (r_legs : Z) (duration_days : R).
Hypothesis geodesic_total : forall p q, Travel.geodesic_miles E p q <> None.

Lemma drive_estimate_returns (olon olat dlon dlat : R)
    (providers : option Aggregators.ProviderConfig) :
  exists rv,
    Travel.estimate_drive_time_minutes W E olon olat dlon dlat providers
    = Some rv
    /\ 0 <= Travel.sd rv.
Proof.
  destruct (Travel.estimate_drive_time_minutes W E olon olat dlon dlat
              providers) as [rv |] eqn:Hrv.
  - exists rv. split; [reflexivity |].
    apply TravelFacts.drive_sd_floor in Hrv. lra.
  - exfalso. unfold Travel.estimate_drive_time_minutes in Hrv.
    destruct (Travel.provider_tier _ _ _ _); [discriminate |].
    destruct (Travel.network_tier _ _ _ _ _); [discriminate |].
    destruct (Travel.geodesic_miles E (olat, olon) (dlat, dlon)) eqn:Hg;
      [discriminate |].
    now apply geodesic_total in Hg.
Qed.

Lemma ride_estimate_returns (olon olat dlon dlat : R)
    (providers : option Aggregators.ProviderConfig) :
  exists rv,
    Travel.estimate_ride_time_minutes W E olon olat dlon dlat providers
    = Some rv
    /\ 0 <= Travel.sd rv.
Proof.
  unfold Travel.estimate_ride_time_minutes.
  destruct (drive_estimate_returns olon olat dlon dlat providers)
    as (rv & -> & Hsd).
  eexists. split; [reflexivity |]. cbn [Travel.sd]. lra.
Qed.

Lemma rail_estimate_returns (olon olat dlon dlat : R) :
  exists rv,
    Travel.estimate_rail_time_minutes E olon olat dlon dlat = Some rv
    /\ 0 <= Travel.sd rv.
Proof.
  unfold Travel.estimate_rail_time_minutes.
  destruct (Travel.geodesic_miles E (olat, olon) (dlat, dlon)) as [miles |]
    eqn:Hg; [| now apply geodesic_total in Hg].
  eexists. split; [reflexivity |]. cbn [Travel.sd].
  pose proof (Rmax_l 5 (0.20 * (miles / 30 * 60))). lra.
Qed.

Hypothesis alpha_ok : 0 <= alpha (risk cfg) <= 1.

Lemma risk_component_returns (rv : Travel.TravelRV) (proc_mean_min : R)
    (g : state G) :
  0 <= Travel.sd rv ->
  exists v g', risk_component cfg r_legs rv proc_mean_min g = (Some v, g').
Proof.
  intros Hsd.
  assert (Hproc : 0 <= Rmax 2 (0.2 * proc_mean_min))
    by (pose proof (Rmax_l 2 (0.2 * proc_mean_min)); lra).
  unfold risk_component, bind, lift, ret.
  destruct (ComponentsFacts.truncated_samples (Travel.mean rv) (Travel.sd rv)
              g Hsd) as (A & g1 & -> & _ & _).
  destruct (ComponentsFacts.truncated_samples proc_mean_min
              (Rmax 2 (0.2 * proc_mean_min)) g1 Hproc)
    as (P & g2 & -> & _ & _).
  destruct (RiskExtra.premium_nonneg A (alpha (risk cfg)) alpha_ok)
    as (dA & -> & _).
  destruct (RiskExtra.premium_nonneg P (alpha (risk cfg)) alpha_ok)
    as (dP & -> & _).
  eauto.
Qed.

Lemma schedule_alignment_returns (a : string) (t tmin tmax thetaE thetaL : R)
    (rv : Travel.TravelRV) (g : state G) :
  0 <= Travel.sd rv ->
  exists v g',
    schedule_alignment cfg a t rv tmin tmax thetaE thetaL g = (Some v, g').
Proof.
  intros Hsd. unfold schedule_alignment, bind, ret.
  destruct (ComponentsFacts.truncated_samples (Travel.mean rv) (Travel.sd rv)
              g Hsd) as (A & g1 & -> & _ & _).
  eauto.
Qed.

Hypothesis shocks_set : shocks (risk cfg) <> None.
Hypothesis miss_slope_set : miss_slope (rail (modes cfg)) <> None.

Lemma risk_with_shocks_returns (A_samples P_samples : list R) (g : state G) :
  exists v g', risk_with_shocks (risk cfg) A_samples P_samples g = (Some v, g').
Proof.
  unfold risk_with_shocks, bind, lift, ret.
  destruct (shocks (risk cfg)) as [sh |]; [| contradiction].
  destruct (RiskExtra.apply_shocks_total A_samples (shock sh "incident_prob")
              (shock sh "incident_minutes") g) as (A' & g1 & ->).
  destruct (RiskExtra.apply_shocks_total P_samples
              (shock sh "rail_disruption_prob")
              (shock sh "rail_disruption_minutes") g1) as (P' & g2 & ->).
  destruct (RiskExtra.premium_nonneg A' (alpha (risk cfg)) alpha_ok)
    as (dA & -> & _).
  destruct (RiskExtra.premium_nonneg P' (alpha (risk cfg)) alpha_ok)
    as (dP & -> & _).
  eauto.
Qed.

Lemma components_return (m a : string) (dist_miles : R)
    (rv : Travel.TravelRV) (t tmin tmax : R) (g : state G) :
  0 <= Travel.sd rv ->
  (m = "drive"%string ->
   parking_daily (drive (modes cfg)) !! a <> None
   /\ parking_weekly (drive (modes cfg)) !! a <> None) ->
  exists c g',
    compute_components_for_mode cfg m a dist_miles rv r_legs duration_days
      t tmin tmax luggage g = (Some c, g').
Proof.
  intros Hsd Hrates. unfold compute_components_for_mode.
  rewrite bind_run.
  assert (Hcash : exists cash,
            (if String.eqb m "drive"
             then lift (cash_drive cfg a dist_miles duration_days)
             else if String.eqb m "ride"
                  then ret (cash_ride cfg a dist_miles (Travel.mean rv))
                  else ret (cash_rail cfg a)) g = (Some cash, g)).
  { destruct (String.eqb m "drive") eqn:Hm.
    - apply String.eqb_eq in Hm. destruct (Hrates Hm) as [Hd Hw].
      unfold lift, cash_drive.
      destruct (parking_daily (drive (modes cfg)) !! a); [| contradiction].
      destruct (parking_weekly (drive (modes cfg)) !! a); [| contradiction].
      simpl. eauto.
    - destruct (String.eqb m "ride"); unfold ret; eauto. }
  destruct Hcash as (cash & ->).
  rewrite bind_run.
  destruct (risk_component_returns rv
              (compute_proc_mean_minutes cfg a luggage) g Hsd)
    as (rk & g1 & ->).
  rewrite bind_run.
  destruct (schedule_alignment_returns a t tmin tmax 1 2 rv g1 Hsd)
    as (sch & g2 & ->).
  rewrite bind_run. unfold lift, transfer_handling.
  destruct (miss_slope (rail (modes cfg))); [| contradiction].
  simpl. unfold ret. eauto.
Qed.

Lemma mode_total_returns (m a : string) (dist_miles : R)
    (drive_rv ride_rv rail_rv : Travel.TravelRV) (t tmin tmax k_ctx : R)
    (g : state G) :
  m = "drive"%string \/ m = "ride"%string \/ m = "rail"%string ->
  0 <= Travel.sd drive_rv -> 0 <= Travel.sd ride_rv ->
  0 <= Travel.sd rail_rv ->
  (m = "drive"%string ->
   parking_daily (drive (modes cfg)) !! a <> None
   /\ parking_weekly (drive (modes cfg)) !! a <> None) ->
  exists total g',
    mode_total cfg m a dist_miles
      [("drive"%string, drive_rv); ("ride"%string, ride_rv);
       ("rail"%string, rail_rv)]
      r_legs duration_days t tmin tmax luggage k_ctx g = (Some total, g').
Proof.
  intros Hm Hd Hr Hl Hrates. unfold mode_total. rewrite bind_run.
  assert (Hrv : exists rv,
            dict_get [("drive"%string, drive_rv); ("ride"%string, ride_rv);
                      ("rail"%string, rail_rv)] m = Some rv
            /\ 0 <= Travel.sd rv).
  { destruct Hm as [-> | [-> | ->]]; eexists; (split; [reflexivity |]);
      assumption. }
  destruct Hrv as (rv & Hget & Hsd). unfold lift at 1. rewrite Hget.
  rewrite bind_run.
  destruct (components_return m a dist_miles rv t tmin tmax g Hsd Hrates)
    as (c & g1 & ->).
  rewrite bind_run.
  destruct (ComponentsFacts.truncated_samples (Travel.mean rv) (Travel.sd rv)
              g1 Hsd) as (A & g2 & -> & _ & _).
  rewrite bind_run.
  assert (Hproc : 0 <= Rmax 2 (0.2 * compute_proc_mean_minutes cfg a luggage)).
  { pose proof (Rmax_l 2 (0.2 * compute_proc_mean_minutes cfg a luggage)).
    lra. }
  destruct (ComponentsFacts.truncated_samples
              (compute_proc_mean_minutes cfg a luggage)
              (Rmax 2 (0.2 * compute_proc_mean_minutes cfg a luggage))
              g2 Hproc) as (P & g3 & -> & _ & _).
  rewrite bind_run.
  destruct (risk_with_shocks_returns A P g3) as (v & g4 & ->).
  unfold ret. eauto.
Qed.

End ModeReturns.

Section TableReturns.
Context {G : Generator}.
Context (W : Aggregators.Services) (E : Travel.Geo) (C : Model.Clock)
        (X : ContextProviders.ContextServices).
Context (cfg : AppConfig) (apts : dict (R * R))
        (providers : Aggregators.ProviderConfig)
        (modes : list string) (luggage : string) (r_legs : Z)
        (duration_days : R).
Hypothesis geodesic_total : forall p q, Travel.geodesic_miles E p q <> None.
Hypothesis mu_ok : mu (softmin_cfg cfg) <> 0.

Lemma modes_loop_returns (a : string) (ms : list string) (dist_miles : R)
    (drive_rv ride_rv rail_rv : Travel.TravelRV) (t tmin tmax k_ctx : R) :
  GcAux.modes_return G cfg luggage r_legs duration_days modes a ->
  incl ms modes ->
  0 <= Travel.sd drive_rv -> 0 <= Travel.sd ride_rv ->
  0 <= Travel.sd rail_rv ->
  forall (acc : dict R) (g : state G),
    exists d g',
      modes_loop cfg ms a dist_miles
        [("drive"%string, drive_rv); ("ride"%string, ride_rv);
         ("rail"%string, rail_rv)]
        r_legs duration_days t tmin tmax luggage k_ctx acc g = (Some d, g').
Proof.
  intros Hret Hincl Hd Hr Hl.
  induction ms as [| m ms IH]; intros acc g.
  - cbn [modes_loop]. unfold ret. eauto.
  - cbn [modes_loop]. rewrite bind_run.
    destruct (Hret m dist_miles drive_rv ride_rv rail_rv t tmin tmax k_ctx g)
      as (total & g1 & ->); [apply Hincl; now left | assumption ..|].
    apply IH. intros x Hx. apply Hincl. now right.
Qed.

Lemma airport_gc_returns (lon lat : R) (a : string) (g : state G) :
  dict_get apts a <> None ->
  GcAux.modes_return G cfg luggage r_legs duration_days modes a ->
  exists v g',
    airport_gc W E C X cfg apts providers lon lat a modes luggage r_legs
      duration_days g = (Some v, g').
Proof.
  intros Hapt Hret. unfold airport_gc. rewrite bind_run. unfold lift at 1.
  destruct (dict_get apts a) as [[alon alat] |]; [| contradiction].
  cbn [fst snd]. rewrite bind_run. unfold lift at 1.
  destruct (drive_estimate_returns W E geodesic_total lon lat alon alat
              (Some providers)) as (drv & -> & Hd).
  rewrite bind_run. unfold lift at 1.
  destruct (ride_estimate_returns W E geodesic_total lon lat alon alat None)
    as (rrv & -> & Hr).
  rewrite bind_run. unfold lift at 1.
  destruct (rail_estimate_returns E geodesic_total lon lat alon alat)
    as (lrv & -> & Hl).
  rewrite mode_rv_items.
  destruct (Model.schedule_window C (schedule cfg) a) as [[tdep tlo] thi].
  rewrite bind_run.
  match goal with
  | |- context [modes_loop cfg modes a ?d ?rv r_legs duration_days ?w1 ?w2 ?w3
                  luggage ?k ?acc ?g0] =>
      destruct (modes_loop_returns a modes d drv rrv lrv w1 w2 w3 k Hret
                  (incl_refl modes) Hd Hr Hl acc g0) as (pm & g1 & ->)
  end.
  unfold lift, Model.softmin.
  destruct (Req_dec_T (mu (softmin_cfg cfg)) 0); [contradiction |]. eauto.
Qed.

Lemma airports_loop_returns (lon lat : R) (airports : list string) :
  (forall a, In a airports ->
     dict_get apts a <> None
     /\ GcAux.modes_return G cfg luggage r_legs duration_days modes a) ->
  forall (acc : dict xfloat) (g : state G),
    exists d g',
      airports_loop W E C X cfg apts providers lon lat airports modes luggage
        r_legs duration_days acc g = (Some d, g').
Proof.
  induction airports as [| a airports IH]; intros Hok acc g.
  - cbn [airports_loop]. unfold ret. eauto.
  - cbn [airports_loop]. rewrite bind_run.
    destruct (Hok a (or_introl eq_refl)) as [Hapt Hret].
    destruct (airport_gc_returns lon lat a g Hapt Hret) as (v & g1 & ->).
    apply IH. intros x Hx. apply Hok. now right.
Qed.

Lemma origins_loop_returns (airports : list string) (origins : list Origin) :
  (forall a, In a airports ->
     dict_get apts a <> None
     /\ GcAux.modes_return G cfg luggage r_legs duration_days modes a) ->
  forall (acc : list Row) (g : state G),
    exists rows g',
      origins_loop W E C X cfg apts providers origins airports modes luggage
        r_legs duration_days acc g = (Some rows, g').
Proof.
  intros Hok. induction origins as [| o origins IH]; intros acc g.
  - cbn [origins_loop]. unfold ret. eauto.
  - cbn [origins_loop]. rewrite bind_run. unfold origin_row.
    rewrite bind_run.
    destruct (airports_loop_returns (origin_lon o) (origin_lat o) airports
                Hok [] g) as (d & g1 & ->).
    unfold ret at 1. apply IH.
Qed.

End TableReturns.

(** the frame of known airports and the dictionary made of it *)
Lemma airport_rows_known (airports : list string) :
  Forall (fun a => a = "HVN"%string \/ a = "JFK"%string \/ a = "LGA"%string
                   \/ a = "EWR"%string) airports ->
  exists ap, Data.airport_rows airports = Some ap
             /\ List.map Data.code ap = airports.
Proof.
  induction 1 as [| a airports Ha _ IH].
  - exists []. now split.
  - destruct IH as (ap & Hap & Hcodes). cbn [Data.airport_rows].
    rewrite Hap.
    destruct Ha as [-> | [-> | [-> | ->]]];
      (eexists; split; [reflexivity | cbn [List.map Data.code]; now f_equal]).
Qed.

Lemma apts_of_get (ap : list Data.Airport) (a : string) :
  forall acc : dict (R * R),
    dict_get (fold_left
                (fun d row =>
                   dict_set d (Data.code row) (Data.lon row, Data.lat row))
                ap acc) a <> None
    <-> In a (List.map Data.code ap) \/ dict_get acc a <> None.
Proof.
  induction ap as [| row ap IH]; intros acc; cbn [fold_left List.map].
  - simpl. tauto.
  - rewrite IH, dict_get_set. simpl.
    destruct (String.eqb (Data.code row) a) eqn:Ha.
    + apply String.eqb_eq in Ha. split; [intros _; now left; left |].
      intros _. right. discriminate.
    + apply String.eqb_neq in Ha. tauto.
Qed.

(** a configuration without the [shocks] or the [miss_slope] attribute
    makes every mode raise *)
Lemma missing_attribute_doomed {G : Generator} (cfg : AppConfig)
    (luggage : string) (r_legs : Z) (duration_days : R) (m a : string) :
  shocks (risk cfg) = None \/ miss_slope (rail (modes cfg)) = None ->
  doomed G cfg luggage r_legs duration_days m a.
Proof.
  intros Hmiss dist drv rrv lrv t tmin tmax k g.
  unfold mode_total. rewrite bind_run.
  destruct (lift (dict_get [("drive"%string, drv); ("ride"%string, rrv);
                            ("rail"%string, lrv)] m) g) as [[rv |] g0];
    [| reflexivity].
  rewrite bind_run.
  destruct (compute_components_for_mode cfg m a dist rv r_legs duration_days
              t tmin tmax luggage g0) as [[c |] g1] eqn:Hc; [| reflexivity].
  destruct Hmiss as [Hsh | Hslope].
  - rewrite bind_run.
    destruct (gaussian_samples (Travel.mean rv) (Travel.sd rv) default_size
                (Some 0) g1) as [[A |] g2]; [| reflexivity].
    rewrite bind_run.
    destruct (gaussian_samples (compute_proc_mean_minutes cfg a luggage)
                (Rmax 2 (0.2 * compute_proc_mean_minutes cfg a luggage))
                default_size (Some 0) g2) as [[P |] g3]; [| reflexivity].
    rewrite bind_run. unfold risk_with_shocks. rewrite bind_run.
    unfold lift at 1. now rewrite Hsh.
  - exfalso. revert Hc. unfold compute_components_for_mode.
    rewrite bind_run.
    destruct ((if String.eqb m "drive"
               then lift (cash_drive cfg a dist duration_days)
               else if String.eqb m "ride"
                    then ret (cash_ride cfg a dist (Travel.mean rv))
                    else ret (cash_rail cfg a)) g0) as [[cash |] g01];
      [| discriminate].
    rewrite bind_run.
    destruct (risk_component cfg r_legs rv
                (compute_proc_mean_minutes cfg a luggage) g01)
      as [[rk |] g02]; [| discriminate].
    rewrite bind_run.
    destruct (schedule_alignment cfg a t rv tmin tmax 1 2 g02)
      as [[sch |] g03]; [| discriminate].
    rewrite bind_run. unfold lift at 1, transfer_handling.
    rewrite Hslope. discriminate.
Qed.

(** [generalized_cost_delta] returns a table when the airports are known
    and at least one, every mode is "drive", "ride" or "rail", every
    airport has its parking rates if "drive" is requested, the geodesic
    distance never raises, [mu] is not 0 and, if a mode is requested at
    all, the tail level is in [[0,1]] and the configuration carries the
    [shocks] and [miss_slope] attributes.  Whenever it returns, it
    returns one row per origin, in the order of the origins: a row
    carries the origin's longitude and latitude and its zip code (the
    empty string if the origin has none), a cost column for exactly the
    requested airports, and a [delta_gc] computed from these columns.
    For a configuration without one of the two attributes, as
    [load_config] builds it, the table raises as soon as there is an
    origin, an airport and a mode. *)
Theorem table_rows_follow_origins {G : Generator} (W : Aggregators.Services)
    (E : Travel.Geo) (C : Model.Clock) (X : ContextProviders.ContextServices)
    (cfg : AppConfig) (origins : list Origin) (airports modes : list string)
    (luggage : string) (r_legs : Z) (duration_days : R) (g : state G) :
  (airports <> [] ->
   Forall (fun a => a = "HVN"%string \/ a = "JFK"%string \/ a = "LGA"%string
                    \/ a = "EWR"%string) airports ->
   Forall (fun m => m = "drive"%string \/ m = "ride"%string
                    \/ m = "rail"%string) modes ->
   (In "drive"%string modes ->
    forall a, In a airports ->
      parking_daily (drive (Config.modes cfg)) !! a <> None
      /\ parking_weekly (drive (Config.modes cfg)) !! a <> None) ->
   (forall p q, Travel.geodesic_miles E p q <> None) ->
   mu (softmin_cfg cfg) <> 0 ->
   (modes <> [] ->
    0 <= alpha (risk cfg) <= 1 /\ shocks (risk cfg) <> None
    /\ miss_slope (rail (Config.modes cfg)) <> None) ->
   exists rows g',
     generalized_cost_delta W E C X cfg origins airports modes luggage
       r_legs duration_days g = (Some rows, g'))
  /\ (forall rows g',
        generalized_cost_delta W E C X cfg origins airports modes luggage
          r_legs duration_days g = (Some rows, g') ->
        Forall2 (GcAux.row_of airports) origins rows)
  /\ (origins <> [] -> airports <> [] -> modes <> [] ->
      shocks (risk cfg) = None \/ miss_slope (rail (Config.modes cfg)) = None ->
      fst (generalized_cost_delta W E C X cfg origins airports modes luggage
             r_legs duration_days g) = None).
Proof.
  split; [| split].
  - intros Hne Hknown Hmodes Hrates Hgeo Hmu Hcfg.
    destruct (airport_rows_known airports Hknown) as (ap & Hap & Hcodes).
    unfold generalized_cost_delta. rewrite bind_run.
    unfold lift, Data.airports_gdf. rewrite Hap. cbn [mbind option_bind].
    destruct ap as [| row ap];
      [destruct airports; [contradiction | discriminate] |].
    apply origins_loop_returns; [exact Hgeo | exact Hmu |].
    intros a Ha. split.
    + apply apts_of_get. left. now rewrite Hcodes.
    + intros m dist drv rrv lrv t tmin tmax k g0 Hm Hd Hr Hl.
      assert (Hnm : modes <> []) by (intros ->; destruct Hm).
      destruct (Hcfg Hnm) as (Halpha & Hsh & Hslope).
      apply (mode_total_returns cfg luggage r_legs duration_days Halpha Hsh
               Hslope); try assumption.
      * rewrite List.Forall_forall in Hmodes. now apply Hmodes.
      * intros ->. now apply Hrates.
  - intros rows g'. unfold generalized_cost_delta, bind, lift.
    destruct (Data.airports_gdf airports) as [ap |]; [| discriminate].
    intros Hrun. apply origins_loop_rows in Hrun.
    now destruct Hrun as (new & -> & Hnew).
  - intros Ho Ha Hm Hmiss.
    destruct modes as [| m modes]; [contradiction |].
    destruct airports as [| a airports]; [contradiction |].
    apply (table_doomed W E C X cfg luggage r_legs duration_days m a);
      [now apply missing_attribute_doomed | now left | now left | exact Ho].
Qed.

Lemma table_rows_follow_origins_witness :
  exists rows g',
    @generalized_cost_delta Examples.replay Examples.services_ten
      Examples.seven_miles (Examples.table_clock ∅) Examples2.silent
      Examples2.plain_cfg [Examples2.new_haven] ["HVN"%string; "JFK"%string]
      ["drive"%string; "ride"%string; "rail"%string] "none" 1 3 []
    = (Some rows, g')
    /\ Forall2 (GcAux.row_of ["HVN"%string; "JFK"%string])
         [Examples2.new_haven] rows.
Proof.
  destruct (@table_rows_follow_origins Examples.replay Examples.services_ten
              Examples.seven_miles (Examples.table_clock ∅) Examples2.silent
              Examples2.plain_cfg [Examples2.new_haven]
              ["HVN"%string; "JFK"%string]
              ["drive"%string; "ride"%string; "rail"%string] "none" 1 3 [])
    as (Hret & Hrows & _).
  destruct Hret as (rows & g' & Hrun).
  - discriminate.
  - constructor; [now left |].
    constructor; [right; now left | constructor].
  - constructor; [now left |].
    constructor; [right; now left |].
    constructor; [right; now right | constructor].
  - intros _ a [<- | [<- | []]]; split; intros H; vm_compute in H;
      discriminate.
  - intros p q. simpl. discriminate.
  - simpl. lra.
  - intros _. split; [simpl; lra |]. split; discriminate.
  - exists rows, g'. split; [exact Hrun | exact (Hrows rows g' Hrun)].
Defined.

(** *** What the table does not depend on *)

Section Ext.
Context {G : Generator}.
Context (W W' : Aggregators.Services) (E : Travel.Geo) (C : Model.Clock)
        (X : ContextProviders.ContextServices).
Context (cfg cfg' : AppConfig) (apts : dict (R * R))
        (providers : Aggregators.ProviderConfig)
        (modes : list string) (luggage : string) (r_legs : Z)
        (duration_days : R).

Lemma modes_loop_ext (ms : list string) (a : string) (dist_miles : R)
    (mode_rv mode_rv' : dict Travel.TravelRV)
    (t_depart_min tmin_min tmax_min k_ctx : R) :
  (forall m (g : state G), In m ms ->
     mode_total cfg m a dist_miles mode_rv r_legs duration_days t_depart_min
       tmin_min tmax_min luggage k_ctx g
     = mode_total cfg' m a dist_miles mode_rv' r_legs duration_days
         t_depart_min tmin_min tmax_min luggage k_ctx g) ->
  forall (acc : dict R) (g : state G),
    modes_loop cfg ms a dist_miles mode_rv r_legs duration_days t_depart_min
      tmin_min tmax_min luggage k_ctx acc g
    = modes_loop cfg' ms a dist_miles mode_rv' r_legs duration_days
        t_depart_min tmin_min tmax_min luggage k_ctx acc g.
Proof.
  induction ms as [| m ms IH]; intros Hext acc g; [reflexivity |].
  cbn [modes_loop]. unfold bind. rewrite (Hext m g) by now left.
  destruct (mode_total cfg' m a dist_miles mode_rv' r_legs duration_days
              t_depart_min tmin_min tmax_min luggage k_ctx g) as [[total |] g1];
    [| reflexivity].
  apply IH. intros m' g' Hin. apply Hext. now right.
Qed.

Lemma airports_loop_ext (lon lat : R) (airports : list string) :
  (forall a (g : state G),
     airport_gc W E C X cfg apts providers lon lat a modes luggage r_legs
       duration_days g
     = airport_gc W' E C X cfg' apts providers lon lat a modes luggage r_legs
         duration_days g) ->
  forall (acc : dict xfloat) (g : state G),
    airports_loop W E C X cfg apts providers lon lat airports modes luggage
      r_legs duration_days acc g
    = airports_loop W' E C X cfg' apts providers lon lat airports modes
        luggage r_legs duration_days acc g.
Proof.
  intros Hext. induction airports as [| a airports IH]; intros acc g;
    [reflexivity |].
  cbn [airports_loop]. unfold bind. rewrite Hext.
  destruct (airport_gc W' E C X cfg' apts providers lon lat a modes luggage
              r_legs duration_days g) as [[v |] g1]; [apply IH | reflexivity].
Qed.

Lemma origins_loop_ext (airports : list string) (origins : list Origin) :
  (forall lon lat a (g : state G),
     airport_gc W E C X cfg apts providers lon lat a modes luggage r_legs
       duration_days g
     = airport_gc W' E C X cfg' apts providers lon lat a modes luggage r_legs
         duration_days g) ->
  forall (acc : list Row) (g : state G),
    origins_loop W E C X cfg apts providers origins airports modes luggage
      r_legs duration_days acc g
    = origins_loop W' E C X cfg' apts providers origins airports modes
        luggage r_legs duration_days acc g.
Proof.
  intros Hext. induction origins as [| o origins IH]; intros acc g;
    [reflexivity |].
  cbn [origins_loop]. unfold bind, origin_row, bind.
  rewrite (airports_loop_ext (origin_lon o) (origin_lat o) airports)
    by (intros a g0; apply Hext).
  destruct (airports_loop W' E C X cfg' apts providers (origin_lon o)
              (origin_lat o) airports modes luggage r_legs duration_days [] g)
    as [[d |] g1]; [apply IH | reflexivity].
Qed.

End Ext.

(** the analytic risk term advances the generator and raises as it would
    with any other multipliers; only its value depends on them *)
Lemma risk_component_multipliers {G : Generator} (cfg : AppConfig)
    (mult : RiskMultipliers) (r : Z) (rv : Travel.TravelRV) (proc : R)
    (g : state G) :
  snd (risk_component (GcAux.with_multipliers cfg mult) r rv proc g)
  = snd (risk_component cfg r rv proc g)
  /\ (fst (risk_component (GcAux.with_multipliers cfg mult) r rv proc g) = None
      <-> fst (risk_component cfg r rv proc g) = None).
Proof.
  unfold risk_component, bind, lift, ret.
  destruct (gaussian_samples (Travel.mean rv) (Travel.sd rv) default_size
              (Some 0) g) as [[A |] g1]; [| split; [reflexivity | tauto]].
  destruct (gaussian_samples proc (Rmax 2 (0.2 * proc)) default_size (Some 0)
              g1) as [[P |] g2]; [| split; [reflexivity | tauto]].
  change (alpha (risk (GcAux.with_multipliers cfg mult)))
    with (alpha (risk cfg)).
  destruct (cvar_minus_mean A (alpha (risk cfg)));
    [| split; [reflexivity | tauto]].
  destruct (cvar_minus_mean P (alpha (risk cfg)));
    split; try reflexivity; split; discriminate || tauto.
Qed.

(** the other cost terms do not read the multipliers *)
Lemma pure_terms_multipliers (cfg : AppConfig) (mult : RiskMultipliers) :
  (forall a d dur, cash_drive (GcAux.with_multipliers cfg mult) a d dur
                   = cash_drive cfg a d dur)
  /\ (forall a d mn, cash_ride (GcAux.with_multipliers cfg mult) a d mn
                     = cash_ride cfg a d mn)
  /\ (forall a, cash_rail (GcAux.with_multipliers cfg mult) a = cash_rail cfg a)
  /\ (forall r x y, timeval (GcAux.with_multipliers cfg mult) r x y
                    = timeval cfg r x y)
  /\ (forall a b r, transfer_handling (GcAux.with_multipliers cfg mult) a b r
                    = transfer_handling cfg a b r)
  /\ (forall r x p n, comfort (GcAux.with_multipliers cfg mult) r x p n
                      = comfort cfg r x p n)
  /\ (forall m d, carbon (GcAux.with_multipliers cfg mult) m d = carbon cfg m d)
  /\ (forall a l, compute_proc_mean_minutes (GcAux.with_multipliers cfg mult) a l
                  = compute_proc_mean_minutes cfg a l)
  /\ party_vot_per_minute (GcAux.with_multipliers cfg mult)
     = party_vot_per_minute cfg.
Proof. repeat split; reflexivity. Qed.

Lemma schedule_alignment_multipliers {G : Generator} (cfg : AppConfig)
    (mult : RiskMultipliers) (a : string) (t : R) (rv : Travel.TravelRV)
    (tmin tmax thetaE thetaL : R) (g : state G) :
  schedule_alignment (GcAux.with_multipliers cfg mult) a t rv tmin tmax
    thetaE thetaL g
  = schedule_alignment cfg a t rv tmin tmax thetaE thetaL g.
Proof. reflexivity. Qed.

Lemma risk_with_shocks_multipliers {G : Generator} (cfg : AppConfig)
    (mult : RiskMultipliers) (A_samples P_samples : list R) (g : state G) :
  risk_with_shocks (risk (GcAux.with_multipliers cfg mult)) A_samples
    P_samples g
  = risk_with_shocks (risk cfg) A_samples P_samples g.
Proof. reflexivity. Qed.

(** the components of a mode under other multipliers: the same generator
    state afterwards, the same exceptions, and the same terms but for the
    analytic risk *)
Lemma components_multipliers {G : Generator} (cfg : AppConfig)
    (mult : RiskMultipliers) (m a : string) (dist_miles : R)
    (rv : Travel.TravelRV) (r_legs : Z)
    (duration_days t_depart_min tmin_min tmax_min : R) (luggage : string)
    (g : state G) :
  match compute_components_for_mode (GcAux.with_multipliers cfg mult) m a
          dist_miles rv r_legs duration_days t_depart_min tmin_min tmax_min
          luggage g,
        compute_components_for_mode cfg m a dist_miles rv r_legs duration_days
          t_depart_min tmin_min tmax_min luggage g with
  | (Some c', g'), (Some c, g1) =>
      g' = g1
      /\ comp_cash c' = comp_cash c /\ comp_timeval c' = comp_timeval c
      /\ comp_sched c' = comp_sched c /\ comp_xfer c' = comp_xfer c
      /\ comp_comfort c' = comp_comfort c /\ comp_carbon c' = comp_carbon c
  | (None, g'), (None, g1) => g' = g1
  | _, _ => False
  end.
Proof.
  destruct (pure_terms_multipliers cfg mult)
    as (Hdrive & Hride & Hrail & Htv & Hxf & Hcmf & Hcrb & Hproc & _).
  unfold compute_components_for_mode.
  rewrite Hproc, Htv, Hxf, Hcmf, Hcrb, Hride, Hrail, Hdrive.
  rewrite !bind_run.
  destruct ((if String.eqb m "drive"
             then lift (cash_drive cfg a dist_miles duration_days)
             else if String.eqb m "ride"
                  then ret (cash_ride cfg a dist_miles (Travel.mean rv))
                  else ret (cash_rail cfg a)) g) as [[cash |] g0];
    [| reflexivity].
  rewrite !bind_run.
  destruct (risk_component_multipliers cfg mult r_legs rv
              (compute_proc_mean_minutes cfg a luggage) g0) as [Hsnd Hnone].
  destruct (risk_component (GcAux.with_multipliers cfg mult) r_legs rv
              (compute_proc_mean_minutes cfg a luggage) g0) as [[rk' |] g1'];
    destruct (risk_component cfg r_legs rv
                (compute_proc_mean_minutes cfg a luggage) g0) as [[rk |] g1];
    cbn [fst snd] in Hsnd, Hnone; subst.
  - rewrite !bind_run, schedule_alignment_multipliers.
    destruct (schedule_alignment cfg a t_depart_min rv tmin_min tmax_min 1 2 g1)
      as [[sch |] g2]; [| reflexivity].
    rewrite !bind_run. unfold lift.
    destruct (transfer_handling cfg a (String.eqb luggage "checked") r_legs)
      as [xf |]; [| reflexivity].
    unfold ret. cbn. repeat split; reflexivity.
  - destruct Hnone as [_ H]. specialize (H eq_refl). discriminate.
  - destruct Hnone as [H _]. specialize (H eq_refl). discriminate.
  - reflexivity.
Qed.

Lemma mode_total_multipliers {G : Generator} (cfg : AppConfig)
    (mult : RiskMultipliers) (m a : string) (dist_miles : R)
    (mode_rv : dict Travel.TravelRV) (r_legs : Z)
    (duration_days t_depart_min tmin_min tmax_min : R) (luggage : string)
    (k_ctx : R) (g : state G) :
  mode_total (GcAux.with_multipliers cfg mult) m a dist_miles mode_rv r_legs
    duration_days t_depart_min tmin_min tmax_min luggage k_ctx g
  = mode_total cfg m a dist_miles mode_rv r_legs duration_days t_depart_min
      tmin_min tmax_min luggage k_ctx g.
Proof.
  destruct (pure_terms_multipliers cfg mult)
    as (_ & _ & _ & _ & _ & _ & _ & Hproc & Hvot).
  unfold mode_total. rewrite Hproc, Hvot. rewrite !bind_run.
  destruct (lift (dict_get mode_rv m) g) as [[rv |] g0]; [| reflexivity].
  rewrite !bind_run.
  pose proof (components_multipliers cfg mult m a dist_miles rv r_legs
                duration_days t_depart_min tmin_min tmax_min luggage g0) as Hc.
  destruct (compute_components_for_mode (GcAux.with_multipliers cfg mult) m a
              dist_miles rv r_legs duration_days t_depart_min tmin_min tmax_min
              luggage g0) as [[c' |] g1'];
    destruct (compute_components_for_mode cfg m a dist_miles rv r_legs
                duration_days t_depart_min tmin_min tmax_min luggage g0)
      as [[c |] g1]; try contradiction; [| now subst].
  destruct Hc as (-> & H1 & H2 & H3 & H4 & H5 & H6).
  rewrite !bind_run.
  destruct (gaussian_samples (Travel.mean rv) (Travel.sd rv) default_size
              (Some 0) g1) as [[A |] g2]; [| reflexivity].
  rewrite !bind_run.
  destruct (gaussian_samples (compute_proc_mean_minutes cfg a luggage)
              (Rmax 2 (0.2 * compute_proc_mean_minutes cfg a luggage))
              default_size (Some 0) g2) as [[P |] g3]; [| reflexivity].
  rewrite !bind_run, risk_with_shocks_multipliers.
  destruct (risk_with_shocks (risk cfg) A P g3) as [[sh |] g4];
    [| reflexivity].
  now rewrite H1, H2, H3, H4, H5, H6.
Qed.

Lemma airport_gc_multipliers {G : Generator} (W : Aggregators.Services)
    (E : Travel.Geo) (C : Model.Clock) (X : ContextProviders.ContextServices)
    (cfg : AppConfig) (mult : RiskMultipliers) (apts : dict (R * R))
    (providers : Aggregators.ProviderConfig) (lon lat : R) (a : string)
    (modes : list string) (luggage : string) (r_legs : Z) (duration_days : R)
    (g : state G) :
  airport_gc W E C X (GcAux.with_multipliers cfg mult) apts providers lon lat a
    modes luggage r_legs duration_days g
  = airport_gc W E C X cfg apts providers lon lat a modes luggage r_legs
      duration_days g.
Proof.
  unfold airport_gc.
  change (schedule (GcAux.with_multipliers cfg mult)) with (schedule cfg).
  change (softmin_cfg (GcAux.with_multipliers cfg mult)) with (softmin_cfg cfg).
  rewrite !bind_run.
  destruct (lift (dict_get apts a) g) as [[[alon alat] |] g0]; [| reflexivity].
  cbn [fst snd]. rewrite !bind_run.
  destruct (lift (Travel.estimate_drive_time_minutes W E lon lat alon alat
                    (Some providers)) g0) as [[drv |] g1]; [| reflexivity].
  rewrite !bind_run.
  destruct (lift (Travel.estimate_ride_time_minutes W E lon lat alon alat None)
              g1) as [[rrv |] g2]; [| reflexivity].
  rewrite !bind_run.
  destruct (lift (Travel.estimate_rail_time_minutes E lon lat alon alat) g2)
    as [[lrv |] g3]; [| reflexivity].
  destruct (Model.schedule_window C (schedule cfg) a) as [[tdep tlo] thi].
  rewrite !bind_run.
  rewrite mode_rv_items.
  rewrite (modes_loop_ext (GcAux.with_multipliers cfg mult) cfg luggage r_legs
             duration_days modes a _
             [("drive", drv); ("ride", rrv); ("rail", lrv)]
             [("drive", drv); ("ride", rrv); ("rail", lrv)] tdep tlo thi _);
    [reflexivity |].
  intros m g' _. apply mode_total_multipliers.
Qed.

(** The risk multipliers of the configuration (weather, event,
    construction) have no effect on the table: they enter the analytic
    risk term only, which the adjusted total of a mode leaves out. *)
Theorem risk_multipliers_ignored {G : Generator} (W : Aggregators.Services)
    (E : Travel.Geo) (C : Model.Clock) (X : ContextProviders.ContextServices)
    (cfg : AppConfig) (mult : RiskMultipliers) (origins : list Origin)
    (airports modes : list string) (luggage : string) (r_legs : Z)
    (duration_days : R) (g : state G) :
  generalized_cost_delta W E C X (GcAux.with_multipliers cfg mult) origins
    airports modes luggage r_legs duration_days g
  = generalized_cost_delta W E C X cfg origins airports modes luggage r_legs
      duration_days g.
Proof.
  unfold generalized_cost_delta.
  change (providers (GcAux.with_multipliers cfg mult)) with (providers cfg).
  rewrite !bind_run.
  destruct (lift (Data.airports_gdf airports) g) as [[ap |] g0];
    [| reflexivity].
  apply origins_loop_ext. intros lon lat a g1. apply airport_gc_multipliers.
Qed.

Lemma aggregate_without_mapbox (W W' : Aggregators.Services)
    (origin dest : Aggregators.LatLon) (p : Aggregators.ProviderConfig) :
  Aggregators.enable_mapbox p = false ->
  Aggregators.google_body W = Aggregators.google_body W' ->
  Aggregators.ors_body W = Aggregators.ors_body W' ->
  Aggregators.aggregate_drive_minutes W origin dest p
  = Aggregators.aggregate_drive_minutes W' origin dest p.
Proof.
  intros Hm Hg Ho.
  unfold Aggregators.aggregate_drive_minutes, Aggregators.collected_vals,
    Aggregators.google_drive_minutes, Aggregators.ors_drive_minutes.
  rewrite Hg, Ho. unfold Aggregators.collect at 1 4. now rewrite Hm.
Qed.

Section SameEstimates.
Context {G : Generator}.
Context (W W' : Aggregators.Services) (E : Travel.Geo) (C : Model.Clock)
        (X : ContextProviders.ContextServices).
Context (cfg : AppConfig) (apts : dict (R * R))
        (providers : Aggregators.ProviderConfig)
        (modes : list string) (luggage : string) (r_legs : Z)
        (duration_days : R).

(** the airport cost depends on the routing services through the drive
    estimate only *)
Lemma airport_gc_same_drive (lon lat : R) (a : string) (g : state G) :
  (forall alon alat,
     Travel.estimate_drive_time_minutes W E lon lat alon alat (Some providers)
     = Travel.estimate_drive_time_minutes W' E lon lat alon alat
         (Some providers)) ->
  airport_gc W E C X cfg apts providers lon lat a modes luggage r_legs
    duration_days g
  = airport_gc W' E C X cfg apts providers lon lat a modes luggage r_legs
      duration_days g.
Proof.
  intros Hdrive. unfold airport_gc. rewrite !bind_run.
  destruct (lift (dict_get apts a) g) as [[[alon alat] |] g0]; [| reflexivity].
  cbn [fst snd]. now rewrite Hdrive.
Qed.

Lemma mode_total_not_drive (m a : string) (dist_miles : R)
    (drv drv' rrv lrv : Travel.TravelRV)
    (t_depart_min tmin_min tmax_min k_ctx : R) (g : state G) :
  m <> "drive" ->
  mode_total cfg m a dist_miles [("drive", drv); ("ride", rrv); ("rail", lrv)]
    r_legs duration_days t_depart_min tmin_min tmax_min luggage k_ctx g
  = mode_total cfg m a dist_miles
      [("drive", drv'); ("ride", rrv); ("rail", lrv)]
      r_legs duration_days t_depart_min tmin_min tmax_min luggage k_ctx g.
Proof.
  intros Hm. unfold mode_total. cbn [dict_get].
  assert (H : String.eqb "drive" m = false)
    by (apply String.eqb_neq; congruence).
  now rewrite H.
Qed.

Lemma airport_gc_not_drive (lon lat : R) (a : string) (g : state G) :
  (forall p q, Travel.geodesic_miles E p q <> None) ->
  ~ In "drive"%string modes ->
  airport_gc W E C X cfg apts providers lon lat a modes luggage r_legs
    duration_days g
  = airport_gc W' E C X cfg apts providers lon lat a modes luggage r_legs
      duration_days g.
Proof.
  intros Hgeo Hmodes. unfold airport_gc. rewrite !bind_run.
  destruct (lift (dict_get apts a) g) as [[[alon alat] |] g0]; [| reflexivity].
  cbn [fst snd].
  assert (Hsome : forall V, exists rv,
             Travel.estimate_drive_time_minutes V E lon lat alon alat
               (Some providers) = Some rv).
  { intros V. unfold Travel.estimate_drive_time_minutes.
    destruct (Travel.provider_tier _ _ _ _); [eauto |].
    destruct (Travel.network_tier _ _ _ _ _); [eauto |].
    destruct (Travel.geodesic_miles E (lat, lon) (alat, alon)) eqn:Hg;
      [eauto | now apply Hgeo in Hg]. }
  destruct (Hsome W) as (drv & ->). destruct (Hsome W') as (drv' & ->).
  rewrite !bind_run. cbn [lift].
  change (Travel.estimate_ride_time_minutes W' E lon lat alon alat None)
    with (Travel.estimate_ride_time_minutes W E lon lat alon alat None).
  destruct (Travel.estimate_ride_time_minutes W E lon lat alon alat None)
    as [rrv |]; [| reflexivity].
  rewrite !bind_run. cbn [lift].
  destruct (Travel.estimate_rail_time_minutes E lon lat alon alat)
    as [lrv |]; [| reflexivity].
  rewrite !bind_run. cbn [lift]. rewrite !mode_rv_items.
  destruct (Model.schedule_window C (schedule cfg) a) as [[tdep tlo] thi].
  rewrite !bind_run.
  rewrite (modes_loop_ext cfg cfg luggage r_legs duration_days modes a _
             [("drive", drv); ("ride", rrv); ("rail", lrv)]
             [("drive", drv'); ("ride", rrv); ("rail", lrv)] tdep tlo thi _);
    [reflexivity |].
  intros m g' Hin. apply mode_total_not_drive. intros ->. contradiction.
Qed.

End SameEstimates.

(** The provider settings that [generalized_cost_delta] builds from the
    configuration never enable Mapbox (the configuration has no such
    entry), so the table is the same whatever the Mapbox service would
    answer. *)
Theorem mapbox_never_consulted {G : Generator} (W W' : Aggregators.Services)
    (E : Travel.Geo) (C : Model.Clock) (X : ContextProviders.ContextServices)
    (cfg : AppConfig) (origins : list Origin) (airports modes : list string)
    (luggage : string) (r_legs : Z) (duration_days : R) (g : state G) :
  Aggregators.google_body W = Aggregators.google_body W' ->
  Aggregators.ors_body W = Aggregators.ors_body W' ->
  Aggregators.enable_mapbox
    (ContextProviders.build_provider_config
       (ContextProviders.providers_dict (providers cfg))) = false
  /\ generalized_cost_delta W E C X cfg origins airports modes luggage r_legs
       duration_days g
     = generalized_cost_delta W' E C X cfg origins airports modes luggage
         r_legs duration_days g.
Proof.
  intros Hg Ho. split; [reflexivity |].
  unfold generalized_cost_delta. rewrite !bind_run.
  destruct (lift (Data.airports_gdf airports) g) as [[ap |] g0];
    [| reflexivity].
  apply origins_loop_ext. intros lon lat a g1.
  apply airport_gc_same_drive. intros alon alat.
  unfold Travel.estimate_drive_time_minutes, Travel.provider_tier.
  rewrite (aggregate_without_mapbox W W' (lat, lon) (alat, alon)
             (ContextProviders.build_provider_config
                (ContextProviders.providers_dict (providers cfg))));
    [reflexivity | reflexivity | exact Hg | exact Ho].
Qed.

Lemma mapbox_never_consulted_witness :
  @generalized_cost_delta Examples.replay Examples.services_ten
    Examples.seven_miles (Examples.table_clock ∅) Examples2.silent
    Examples2.plain_cfg [Examples2.new_haven] ["HVN"; "JFK"] ["drive"]
    "none" 1 3 [0.2; 0.7]
  = @generalized_cost_delta Examples.replay
      Examples2.services_ten_without_mapbox
      Examples.seven_miles (Examples.table_clock ∅) Examples2.silent
      Examples2.plain_cfg [Examples2.new_haven] ["HVN"; "JFK"] ["drive"]
      "none" 1 3 [0.2; 0.7].
Proof.
  apply (@mapbox_never_consulted Examples.replay Examples.services_ten
           Examples2.services_ten_without_mapbox); reflexivity.
Defined.

(** The routing providers bear on the drive mode only: when "drive" is
    not among the requested modes (and the geodesic distance never
    raises), the table is the same whatever the providers answer.  In
    particular the rideshare estimate never uses them. *)
Theorem routing_providers_bear_on_drive_only {G : Generator}
    (W W' : Aggregators.Services) (E : Travel.Geo) (C : Model.Clock)
    (X : ContextProviders.ContextServices) (cfg : AppConfig)
    (origins : list Origin) (airports modes : list string) (luggage : string)
    (r_legs : Z) (duration_days : R) (g : state G) :
  (forall p q, Travel.geodesic_miles E p q <> None) ->
  ~ In "drive"%string modes ->
  generalized_cost_delta W E C X cfg origins airports modes luggage r_legs
    duration_days g
  = generalized_cost_delta W' E C X cfg origins airports modes luggage r_legs
      duration_days g.
Proof.
  intros Hgeo Hmodes. unfold generalized_cost_delta. rewrite !bind_run.
  destruct (lift (Data.airports_gdf airports) g) as [[ap |] g0];
    [| reflexivity].
  apply origins_loop_ext. intros lon lat a g1.
  now apply airport_gc_not_drive.
Qed.

Lemma routing_providers_bear_on_drive_only_witness :
  @generalized_cost_delta Examples.replay Examples.services_ten
    Examples.seven_miles (Examples.table_clock ∅) Examples2.silent
    Examples2.plain_cfg [Examples2.new_haven] ["HVN"; "JFK"] ["ride"; "rail"]
    "none" 1 3 [0.2; 0.7]
  = @generalized_cost_delta Examples.replay Examples.services_down
      Examples.seven_miles (Examples.table_clock ∅) Examples2.silent
      Examples2.plain_cfg [Examples2.new_haven] ["HVN"; "JFK"] ["ride"; "rail"]
      "none" 1 3 [0.2; 0.7].
Proof.
  apply (@routing_providers_bear_on_drive_only Examples.replay
           Examples.services_ten Examples.services_down).
  - intros p q. discriminate.
  - intros [H | [H | []]]; discriminate.
Defined.

End GcModelFacts.

(** ** aggregators.py and travel.py, further *)

Module ProvidersFacts.
Import Numeric NumericFacts Aggregators Travel ContextProviders.

Lemma weather_multiplier_range (X : ContextServices) (lat lon : R)
    (key : string) :
  1 <= weather_context_multiplier X lat lon key <= 2.
Proof.
  unfold weather_context_multiplier.
  destruct (weather_at_coords X lat lon key); [| lra].
  unfold clip. set (mult := 1 + _ + _ + _ + _).
  split.
  - apply Rmin_glb; [apply Rmax_r | lra].
  - apply Rmin_r.
Qed.

Lemma events_multiplier_range (X : ContextServices) (lat lon : R)
    (key : string) :
  1 <= events_context_multiplier X lat lon key <= 1.3.
Proof.
  unfold events_context_multiplier.
  destruct (events_total X lat lon key); [| lra].
  repeat (destruct (Z_le_dec _ _)); lra.
Qed.

(** The context multiplier is at least 1 and at most 2.6 (a weather factor
    clipped to [[1,2]] times an event factor of at most 1.3), whatever the
    services answer; it is exactly 1 when both services fail. *)
Theorem context_multiplier_bounds (X : ContextServices) (origin : R * R)
    (providers : ProviderConfig) :
  1 <= aggregate_context_multiplier X origin providers <= 2.6
  /\ ((forall lat lon key, weather_at_coords X lat lon key = None) ->
      (forall lat lon key, events_total X lat lon key = None) ->
      aggregate_context_multiplier X origin providers = 1).
Proof.
  unfold aggregate_context_multiplier. split.
  - pose proof (weather_multiplier_range X (snd origin) (fst origin)
                  (owm_api_key providers)) as Hw.
    pose proof (events_multiplier_range X (snd origin) (fst origin)
                  (ticketmaster_api_key providers)) as He.
    destruct (enable_weather providers && str_truthy (owm_api_key providers));
      destruct (enable_events providers
                && str_truthy (ticketmaster_api_key providers));
      cbn [app rprod fold_right]; nra.
  - intros Hw He.
    unfold weather_context_multiplier, events_context_multiplier.
    rewrite Hw, He.
    destruct (enable_weather providers && str_truthy (owm_api_key providers));
      destruct (enable_events providers
                && str_truthy (ticketmaster_api_key providers));
      cbn [app rprod fold_right]; lra.
Qed.

Lemma context_multiplier_bounds_witness :
  aggregate_context_multiplier Examples2.silent (-72.9, 41.3)
    Examples.providers_on = 1.
Proof.
  destruct (context_multiplier_bounds Examples2.silent (-72.9, 41.3)
              Examples.providers_on) as [_ H].
  apply H; reflexivity.
Defined.

(** every collected estimate is the non-zero answer of a provider *)
Lemma collect_origin (enabled : bool) (key : string) (call : string -> Reply)
    (vals : list R) (x : R) :
  In x (collect enabled key call vals) ->
  In x vals \/ (call key = Returned (Some x) /\ x <> 0).
Proof.
  unfold collect. destruct (enabled && str_truthy key); [| now left].
  destruct (call key) as [| [v |]]; try now left.
  unfold float_truthy. destruct (Req_dec_T v 0) as [| Hv]; [now left |].
  intros Hin. apply in_app_or in Hin. destruct Hin as [Hin | [<- | []]];
    [now left | now right].
Qed.

(** The blend never leaves the range of the provider estimates: what
    [aggregate_drive_minutes] returns lies between two collected
    estimates, each of them the non-zero answer of Google, OpenRouteService
    or Mapbox; with a single estimate it is that estimate. *)
Theorem aggregate_within_estimates (W : Services) (origin dest : LatLon)
    (providers : ProviderConfig) (r : R) :
  aggregate_drive_minutes W origin dest providers = Some r ->
  (exists lo hi,
     In lo (collected_vals W origin dest providers)
     /\ In hi (collected_vals W origin dest providers)
     /\ lo <= r <= hi)
  /\ (forall x, In x (collected_vals W origin dest providers) ->
        x <> 0
        /\ (google_drive_minutes W origin dest (google_api_key providers)
            = Returned (Some x)
            \/ ors_drive_minutes W origin dest (ors_api_key providers)
               = Returned (Some x)
            \/ mapbox_drive_minutes W origin dest (mapbox_api_key providers)
               = Returned (Some x)))
  /\ (forall v, collected_vals W origin dest providers = [v] -> r = v).
Proof.
  unfold aggregate_drive_minutes. intros Hagg.
  set (vals := collected_vals W origin dest providers) in *.
  assert (Hq : vals <> [] /\ quantile vals 0.75 = Some r).
  { destruct vals; [discriminate | split; [discriminate | exact Hagg]]. }
  destruct Hq as [Hne Hq]. split; [| split].
  - destruct (RiskExtra.quantile_between vals 0.75 Hne)
      as (x & y & g & Hx & Hy & Hg & Hq'); [lra |].
    rewrite Hq in Hq'. injection Hq' as ->.
    destruct (Rle_dec x y).
    + exists x, y. repeat split; try assumption; nra.
    + exists y, x. repeat split; try assumption; nra.
  - intros x Hx. unfold vals, collected_vals in Hx.
    apply collect_origin in Hx. destruct Hx as [Hx | [Hcall Hnz]];
      [| now split; [| right; right]].
    apply collect_origin in Hx. destruct Hx as [Hx | [Hcall Hnz]];
      [| now split; [| right; left]].
    apply collect_origin in Hx. destruct Hx as [[] | [Hcall Hnz]].
    now split; [| left].
  - intros v Hv. rewrite Hv in Hq.
    rewrite AggregatorsFacts.quantile_single in Hq by lra. congruence.
Qed.

Lemma aggregate_within_estimates_witness :
  exists lo hi,
    In lo (collected_vals Examples.services_ten (41.3, -72.9) (41.263, -72.887)
             Examples.providers_on)
    /\ In hi (collected_vals Examples.services_ten (41.3, -72.9)
                (41.263, -72.887) Examples.providers_on)
    /\ lo <= 10 <= hi.
Proof.
  destruct (aggregate_within_estimates Examples.services_ten (41.3, -72.9)
              (41.263, -72.887) Examples.providers_on 10) as [H _].
  - apply AggregatorsFacts.aggregate_ten.
  - exact H.
Defined.

Lemma min_by_spec {A} (key : A -> R) (best : A) (rest : list A) :
  In (min_by key best rest) (best :: rest)
  /\ forall x, In x (best :: rest) -> key (min_by key best rest) <= key x.
Proof.
  revert best. induction rest as [| y rest IH]; intros best; cbn [min_by].
  - split; [now left |]. intros x [<- | []]. lra.
  - destruct (Rlt_dec (key y) (key best)) as [Hlt | Hge].
    + destruct (IH y) as [Hin Hmin]. split.
      * destruct Hin as [<- | Hin]; [right; now left | right; now right].
      * intros x [<- | [<- | Hx]].
        -- pose proof (Hmin y (or_introl eq_refl)). lra.
        -- apply Hmin. now left.
        -- apply Hmin. now right.
    + destruct (IH best) as [Hin Hmin]. split.
      * destruct Hin as [<- | Hin]; [now left | right; now right].
      * intros x [<- | [<- | Hx]].
        -- apply Hmin. now left.
        -- pose proof (Hmin best (or_introl eq_refl)). lra.
        -- apply Hmin. now right.
Qed.

(** one hop: the shortest of the parallel edges, at a positive speed *)
Lemma hop_seconds_spec (edges : list EdgeData) (s : R) :
  hop_seconds edges = Some s ->
  exists data speed,
    In data edges
    /\ (forall e, In e edges ->
          default 0 (Travel.length data) <= default 0 (Travel.length e))
    /\ 0 < speed
    /\ s = default 0 (Travel.length data) / 1000 / speed * 3600.
Proof.
  destruct edges as [| e es]; [discriminate |]. cbn [hop_seconds]. cbv zeta.
  destruct (min_by_spec (fun d => default 0 (Travel.length d)) e es)
    as [Hin Hmin].
  set (data := min_by (fun d => default 0 (Travel.length d)) e es) in *.
  intros [= <-].
  set (speed := default (default 50 (speed_kphs data)) (speed_kph data)).
  exists data, (if Rle_dec speed 0 then 50 else speed).
  repeat split; try assumption.
  destruct (Rle_dec speed 0); lra.
Qed.

Lemma route_seconds_acc (hops : list (list EdgeData)) (acc : R) :
  (route_seconds acc hops = None <-> In [] hops)
  /\ (Forall (Forall (fun e => 0 <= default 0 (Travel.length e))) hops ->
      0 <= acc ->
      forall s, route_seconds acc hops = Some s -> acc <= s).
Proof.
  revert acc. induction hops as [| edges hops IH]; intros acc.
  - cbn [route_seconds]. split.
    + split; [discriminate | intros []].
    + intros _ _ s [= <-]. lra.
  - cbn [route_seconds].
    destruct (hop_seconds edges) as [secs |] eqn:Hhop.
    + destruct (IH (acc + secs)) as [Hnone Hpos]. split.
      * rewrite Hnone. split; [now right |].
        intros [Heq | Hin]; [subst edges; discriminate Hhop | exact Hin].
      * intros Hall Hacc s Hs.
        inversion Hall as [| ? ? Hedges Hrest]; subst.
        destruct (hop_seconds_spec edges secs Hhop)
          as (data & speed & Hin & _ & Hspeed & ->).
        rewrite Forall_forall in Hedges.
        assert (Hlen : 0 <= default 0 (Travel.length data))
          by (apply Hedges; now apply list_elem_of_In).
        assert (Hsecs : 0 <= default 0 (Travel.length data) / 1000 / speed * 3600).
        { apply Rmult_le_pos; [| lra].
          apply Rmult_le_pos; [lra |]. left. now apply Rinv_0_lt_compat. }
        specialize (Hpos Hrest). 
        assert (acc + default 0 (Travel.length data) / 1000 / speed * 3600 <= s)
          by (apply Hpos; [lra | exact Hs]).
        lra.
    + split; [| discriminate]. split; [| reflexivity].
      intros _. left. now destruct edges.
Qed.

(** The network tier fails on a route exactly when some step of the
    route has no edge.  Each step takes the shortest of its parallel
    edges at a positive speed (a speed that is missing counts as 50 km/h,
    as does one that is not positive), so edges of non-negative length give
    a non-negative travel time. *)
Theorem route_seconds_sound (hops : list (list EdgeData)) :
  (route_seconds 0 hops = None <-> In [] hops)
  /\ (Forall (Forall (fun e => 0 <= default 0 (Travel.length e))) hops ->
      forall s, route_seconds 0 hops = Some s -> 0 <= s)
  /\ (forall edges s, hop_seconds edges = Some s ->
        exists data speed,
          In data edges
          /\ (forall e, In e edges ->
                default 0 (Travel.length data) <= default 0 (Travel.length e))
          /\ 0 < speed
          /\ s = default 0 (Travel.length data) / 1000 / speed * 3600).
Proof.
  destruct (route_seconds_acc hops 0) as [Hnone Hpos].
  split; [exact Hnone |]. split.
  - intros Hall s Hs. apply (Hpos Hall); [lra | exact Hs].
  - exact hop_seconds_spec.
Qed.

Lemma route_seconds_sound_witness :
  exists s,
    route_seconds 0
      [[{| Travel.length := Some 1000; speed_kph := Some 60;
           speed_kphs := None |};
        {| Travel.length := Some 800; speed_kph := None;
           speed_kphs := None |}]] = Some s
    /\ 0 <= s.
Proof.
  eexists. split; [reflexivity |].
  destruct (route_seconds_sound
              [[{| Travel.length := Some 1000; speed_kph := Some 60;
                   speed_kphs := None |};
                {| Travel.length := Some 800; speed_kph := None;
                   speed_kphs := None |}]]) as (_ & H & _).
  apply H; [repeat constructor; simpl; lra | reflexivity].
Defined.

(** The drive estimate raises only when all three tiers fail: the
    providers give nothing, the network block raises and the geodesic
    distance raises too.  A tier that answers hides the failures of the
    tiers after it. *)
Theorem drive_estimate_raises_iff (W : Services) (E : Geo)
    (olon olat dlon dlat : R) (providers : option ProviderConfig) :
  estimate_drive_time_minutes W E olon olat dlon dlat providers = None
  <-> provider_tier W (olat, olon) (dlat, dlon) providers = None
      /\ network_tier E olon olat dlon dlat = None
      /\ geodesic_miles E (olat, olon) (dlat, dlon) = None.
Proof.
  unfold estimate_drive_time_minutes.
  destruct (provider_tier W (olat, olon) (dlat, dlon) providers).
  - split; [discriminate | intros [H _]; discriminate].
  - destruct (network_tier E olon olat dlon dlat).
    + split; [discriminate | intros (_ & H & _); discriminate].
    + destruct (geodesic_miles E (olat, olon) (dlat, dlon)).
      * split; [discriminate | intros (_ & _ & H); discriminate].
      * tauto.
Qed.

End ProvidersFacts.

(** ** qsi.py, further: the itinerary weight and the market score *)

Module QsiMarketFacts.
Import Numeric NumericFacts Qsi QsiFacts QsiMarket.

Lemma pi_mis_range (cfg : QSIConfig) (Lk : R) (h : string) :
  0 <= pi_mis cfg Lk h <= 1.
Proof.
  destruct (Rle_lt_dec (hub_mct cfg h) Lk) as [Hle | Hlt].
  - now apply pi_mis_above.
  - rewrite pi_mis_below by lra. lra.
Qed.



(** With a cancellation rate in [[0,1]], non-negative delay coefficients
    and a non-negative hub-risk exponent, the reliability factor is a
    number of [[0,1]]. *)
Theorem reliability_terms_unit_interval (cfg : QSIConfig) (k : Itinerary)
    (Lk : R) (h : string) :
  0 <= cancel_rate k <= 1 ->
  0 <= betaD cfg -> 0 <= betaV cfg ->
  0 <= betaW cfg * default 0.2 (WxRisk (hub_entry cfg h))
       + betaC cfg * default 0.3 (CapacityRisk (hub_entry cfg h)) ->
  0 <= reliability_terms cfg k Lk h <= 1.
Proof.
  intros Hc HD HV Hhub. unfold reliability_terms.
  pose proof (pi_mis_range cfg Lk h) as Hpi.
  set (e1 := exp (- betaD cfg * Rmax (delay_pos_mean k) 0
                  - betaV cfg * Rmax (delay_var k) 0)).
  set (e2 := exp (- betaW cfg * default 0.2 (WxRisk (hub_entry cfg h))
                  - betaC cfg * default 0.3 (CapacityRisk (hub_entry cfg h)))).
  assert (He1 : 0 < e1 <= 1).
  { split; [apply exp_pos |]. apply exp_le_1.
    pose proof (Rmax_r (delay_pos_mean k) 0).
    pose proof (Rmax_r (delay_var k) 0). nra. }
  assert (He2 : 0 < e2 <= 1).
  { split; [apply exp_pos |]. apply exp_le_1. lra. }
  set (c := 1 - cancel_rate k). set (p := 1 - pi_mis cfg Lk h).
  assert (Hc' : 0 <= c <= 1) by (unfold c; lra).
  assert (Hp' : 0 <= p <= 1) by (unfold p; lra).
  assert (H1 : 0 <= c * p <= 1) by nra.
  assert (H2 : 0 <= c * p * e1 <= 1) by nra.
  nra.
Qed.

Lemma reliability_terms_unit_interval_witness :
  0 <= reliability_terms Examples.qsi_defaults (Examples.via_ord 5) 30 "ORD"
    <= 1.
Proof.
  apply reliability_terms_unit_interval; simpl; try lra.
  unfold hub_entry. simpl. rewrite lookup_empty. simpl. lra.
Defined.

Section Timestamps.
Context (D : Calendar).

Lemma hod_penalty_none (tdep tarr : string) (eta_red eta_curfew : R) :
  hod_penalty D tdep tarr eta_red eta_curfew = None
  <-> isoparse D tdep = None \/ isoparse D tarr = None.
Proof.
  unfold hod_penalty.
  destruct (isoparse D tdep); destruct (isoparse D tarr); simpl;
    intuition; discriminate.
Qed.

Lemma bank_diffs_none (arr : timestamp D) (bts : list string) :
  bank_diffs D arr bts = None <-> exists t, In t bts /\ parse D t = None.
Proof.
  induction bts as [| t bts IH]; cbn [bank_diffs].
  - split; [discriminate | intros (t & [] & _)].
  - destruct (parse D t) as [b |] eqn:Hb; simpl.
    + destruct (bank_diffs D arr bts) as [diffs |]; simpl.
      * split; [discriminate |].
        intros (t' & [<- | Hin] & Ht'); [congruence |].
        assert (Hnone : (None : option (list R)) = None) by reflexivity.
        destruct IH as [_ IH]. specialize (IH (ex_intro _ t' (conj Hin Ht'))).
        discriminate.
      * split; [| reflexivity]. intros _.
        destruct IH as [IH _]. destruct (IH eq_refl) as (t' & Hin & Ht').
        exists t'. split; [now right | exact Ht'].
    + split; [| reflexivity]. intros _. exists t. split; [now left | exact Hb].
Qed.

Lemma bank_alignment_none (cfg : QSIConfig) (k : Itinerary) (h : string) :
  bank_alignment D cfg k h = None
  <-> isoparse D (tarr_iso k) = None
      \/ exists t, In t (bank_times (hub_entry cfg h)) /\ parse D t = None.
Proof.
  unfold bank_alignment.
  destruct (isoparse D (tarr_iso k)) as [arr |]; simpl.
  - pose proof (bank_diffs_none arr (bank_times (hub_entry cfg h))) as Hd.
    destruct (bank_times (hub_entry cfg h)) as [| t bts] eqn:Hb.
    + split; [discriminate |].
      intros [H | (t & [] & _)]. discriminate.
    + destruct (bank_diffs D arr (t :: bts)); simpl.
      * split; [discriminate |]. intros [H | H]; [discriminate |].
        apply Hd in H. discriminate.
      * split; [| reflexivity]. intros _. right. now apply Hd.
  - split; [now left | reflexivity].
Qed.

(** [itinerary_weight] has no handler for bad timestamps: it raises
    exactly when the departure or the arrival timestamp of the itinerary
    does not parse, or when one of the bank times configured for its hub
    does not parse. *)
Theorem itinerary_weight_raises_iff (cfg : Config.AppConfig) (k : Itinerary)
    (segment : string) (state : gmap string R) :
  itinerary_weight D cfg k segment state = None
  <-> isoparse D (tdep_iso k) = None
      \/ isoparse D (tarr_iso k) = None
      \/ exists t, In t (bank_times (hub_entry (Config.qsi cfg) (hub k)))
                   /\ parse D t = None.
Proof.
  unfold itinerary_weight.
  pose proof (hod_penalty_none (tdep_iso k) (tarr_iso k) 0.1 0.05) as Hh.
  pose proof (bank_alignment_none (Config.qsi cfg) k (hub k)) as Hb.
  destruct (hod_penalty D (tdep_iso k) (tarr_iso k) 0.1 0.05) as [phi |];
    simpl.
  - destruct (bank_alignment D (Config.qsi cfg) k (hub k)) as [Bk |]; simpl.
    + split; [discriminate |].
      intros [H | [H | H]].
      * assert (Hn : (None : option R) = None) by reflexivity.
        destruct Hh as [_ Hh]. specialize (Hh (or_introl H)). discriminate.
      * destruct Hh as [_ Hh]. specialize (Hh (or_intror H)). discriminate.
      * destruct Hb as [_ Hb]. specialize (Hb (or_intror H)). discriminate.
    + split; [| reflexivity]. intros _.
      destruct Hb as [Hb _]. destruct (Hb eq_refl) as [H | H]; tauto.
  - split; [| reflexivity]. intros _.
    destruct Hh as [Hh _]. destruct (Hh eq_refl); tauto.
Qed.

Lemma bank_alignment_nonneg (cfg : QSIConfig) (k : Itinerary) (h : string)
    (Bk : R) :
  bank_alignment D cfg k h = Some Bk -> 0 <= Bk.
Proof.
  unfold bank_alignment.
  destruct (isoparse D (tarr_iso k)) as [arr |]; [simpl | discriminate].
  destruct (bank_times (hub_entry cfg h)) as [| t bts].
  - intros [= <-]. lra.
  - destruct (bank_diffs D arr (t :: bts)); [simpl | discriminate].
    intros [= <-]. left. apply exp_pos.
Qed.

(** the weight is the share of flights not cancelled times a product of
    factors that are not negative *)
Lemma itinerary_weight_factored (cfg : Config.AppConfig) (k : Itinerary)
    (segment : string) (state : gmap string R) (w : R) :
  itinerary_weight D cfg k segment state = Some w ->
  0 <= xi (Config.qsi cfg) ->
  exists P : R, 0 <= P /\ w = (1 - cancel_rate k) * P.
Proof.
  unfold itinerary_weight.
  destruct (hod_penalty D (tdep_iso k) (tarr_iso k) 0.1 0.05) as [phi |];
    [simpl | discriminate].
  destruct (bank_alignment D (Config.qsi cfg) k (hub k)) as [Bk |] eqn:HB;
    [simpl | discriminate].
  intros [= <-] Hxi.
  apply bank_alignment_nonneg in HB.
  set (q := Config.qsi cfg) in *.
  assert (E1 : 0 <= exp (- segment_field q segment beta_P 0.01
                         * (block_minutes k + layover_minutes k)))
    by (left; apply exp_pos).
  assert (E2 : 0 <= exp (- (0.02) * layover_quality (layover_minutes k) (sk k)
                                      (L_star k) (U_star k) 0.03 0.01 0.02))
    by (left; apply exp_pos).
  assert (E3 : 0 <= exp (- (0.02) * phi)) by (left; apply exp_pos).
  assert (HREC : 0 <= reprotect q k (hub k)).
  { unfold reprotect. apply Rmult_le_pos; [left; apply exp_pos |].
    assert (0 <= IZR (Z.max (n_alternates_window k) 0))
      by (apply IZR_le; lia).
    nra. }
  assert (HPk : 0 <= product_score q k) by (left; apply exp_pos).
  assert (HAL : 0 <= perks q k) by (left; apply exp_pos).
  pose proof (price_availability_nonneg q k segment state) as HF.
  assert (HDk : 0 <= duplicates_scarcity q k).
  { unfold duplicates_scarcity.
    apply Rmult_le_pos; [| left; apply exp_pos].
    assert (0 <= IZR (Z.max (dupcount k) 0)) by (apply IZR_le; lia).
    left. apply Rdiv_lt_0_compat; lra. }
  assert (HI : 0 <= iops q k (hub k))
    by (unfold iops; apply Rmult_le_pos; left; apply exp_pos).
  assert (Hrest : 0 <= (1 - pi_mis q (layover_minutes k) (hub k))
                       * exp (- betaD q * Rmax (delay_pos_mean k) 0
                              - betaV q * Rmax (delay_var k) 0)
                       * exp (- betaW q * default 0.2 (WxRisk (hub_entry q (hub k)))
                              - betaC q
                                * default 0.3 (CapacityRisk (hub_entry q (hub k))))).
  { pose proof (pi_mis_range q (layover_minutes k) (hub k)).
    apply Rmult_le_pos; [apply Rmult_le_pos |];
      [lra | left; apply exp_pos | left; apply exp_pos]. }
  set (rest := (1 - pi_mis q (layover_minutes k) (hub k)) * _ * _) in Hrest.
  assert (HR : reliability_terms q k (layover_minutes k) (hub k)
               = (1 - cancel_rate k) * rest)
    by (unfold reliability_terms, rest; ring).
  rewrite HR.
  set (tail := reprotect q k (hub k)) in *.
  assert (Hfront : 0 <= 1 * exp (- segment_field q segment beta_P 0.01
                                 * (block_minutes k + layover_minutes k))
                        * exp (- (0.02) * layover_quality (layover_minutes k)
                                          (sk k) (L_star k) (U_star k)
                                          0.03 0.01 0.02)
                        * exp (- (0.02) * phi))
    by (do 3 (apply Rmult_le_pos; [| assumption]); lra).
  set (front := 1 * _ * _ * _) in *.
  assert (Hpos : 0 <= front * rest * tail * product_score q k * perks q k
                      * price_availability q k segment state
                      * duplicates_scarcity q k * Bk * iops q k (hub k))
    by (do 8 (apply Rmult_le_pos; [| assumption]); assumption).
  set (P := front * rest * tail * product_score q k * perks q k
            * price_availability q k segment state
            * duplicates_scarcity q k * Bk * iops q k (hub k)) in *.
  exists P. split; [exact Hpos |].
  unfold P, front. ring.
Qed.

(** The sign of an itinerary's weight is decided by the cancellation
    rate alone, once the alternates coefficient [xi] is not negative: the
    weight is never negative when the rate is at most 1 and never
    positive when the rate is at least 1.  Every other factor, short
    seats and prices above the reference included, only scales it by a
    number that is not negative. *)
Theorem itinerary_weight_sign (cfg : Config.AppConfig) (k : Itinerary)
    (segment : string) (state : gmap string R) (w : R) :
  itinerary_weight D cfg k segment state = Some w ->
  0 <= xi (Config.qsi cfg) ->
  (cancel_rate k <= 1 -> 0 <= w) /\ (1 <= cancel_rate k -> w <= 0).
Proof.
  intros Hw Hxi.
  destruct (itinerary_weight_factored cfg k segment state w Hw Hxi)
    as (P & HP & ->).
  split; intros Hc.
  - apply Rmult_le_pos; lra.
  - assert (0 <= (cancel_rate k - 1) * P) by (apply Rmult_le_pos; lra).
    lra.
Qed.

End Timestamps.


Lemma itinerary_weight_sign_witness :
  exists w : R,
    itinerary_weight Examples2.pocket_calendar Examples2.plain_cfg
      (Examples.via_ord 5) "leisure" ∅ = Some w
    /\ 0 <= xi (Config.qsi Examples2.plain_cfg)
    /\ Qsi.cancel_rate (Examples.via_ord 5) <= 1
    /\ 0 <= w.
Proof.
  eexists. split; [reflexivity |].
  assert (Hxi : 0 <= xi (Config.qsi Examples2.plain_cfg)) by (cbn; lra).
  assert (Hc : Qsi.cancel_rate (Examples.via_ord 5) <= 1) by (cbn; lra).
  split; [exact Hxi |]. split; [exact Hc |].
  exact (proj1 (itinerary_weight_sign Examples2.pocket_calendar
                  Examples2.plain_cfg (Examples.via_ord 5) "leisure" ∅ _
                  eq_refl Hxi) Hc).
Defined.


Section Market.
Context (D : Calendar).

(** An itinerary is scored from its hub and from its schedule,
    reliability, product and price attributes.  Its endpoints, its access
    mode, its inbound delay and taxi-in means and the weather risk,
    capacity risk and bank times that it carries itself are never read,
    and of the state only the price multiplier is. *)
Theorem itinerary_weight_reads (cfg : Config.AppConfig) (k : Itinerary)
    (segment : string) (st st' : gmap string R) (oa de ma : string)
    (idm iti wx cap : R) (banks : list string) :
  st' !! "price_multiplier" = st !! "price_multiplier" ->
  itinerary_weight D cfg
    (QsiAux.replace_unread k oa de ma idm iti wx cap banks) segment st'
  = itinerary_weight D cfg k segment st.
Proof.
  intros Hst.
  set (k' := QsiAux.replace_unread k oa de ma idm iti wx cap banks).
  assert (HF : price_availability (Config.qsi cfg) k' segment st'
               = price_availability (Config.qsi cfg) k segment st).
  { unfold price_availability, effective_price.
    now rewrite Hst. }
  unfold itinerary_weight. rewrite HF. reflexivity.
Qed.

Lemma itinerary_weight_unreadable (cfg : Config.AppConfig) (k : Itinerary)
    (segment : string) (state : gmap string R) :
  itinerary_weight D cfg k segment state = None
  <-> QsiAux.unreadable D (Config.qsi cfg) k.
Proof. apply itinerary_weight_raises_iff. Qed.

Lemma itineraries_loop_none (cfg : Config.AppConfig) (w_s : R) (s : string)
    (st : gmap string R) (itineraries : list Itinerary) (W_sum : R) :
  itineraries_loop D cfg w_s s st itineraries W_sum = None
  <-> exists k, In k itineraries /\ QsiAux.unreadable D (Config.qsi cfg) k.
Proof.
  revert W_sum. induction itineraries as [| k its IH]; intros W_sum.
  - simpl. split; [discriminate | intros (k & [] & _)].
  - cbn [itineraries_loop].
    pose proof (itinerary_weight_unreadable cfg k s st) as Hk.
    destruct (itinerary_weight D cfg k s st) as [w |]; simpl.
    + rewrite IH. split.
      * intros (k' & Hin & Hu). exists k'. split; [now right | exact Hu].
      * intros (k' & [<- | Hin] & Hu).
        -- apply Hk in Hu. discriminate.
        -- exists k'. now split.
    + split; [| reflexivity]. intros _. exists k.
      split; [now left | now apply Hk].
Qed.

Lemma states_loop_none (cfg : Config.AppConfig) (w_s : R) (s : string)
    (sts : list (gmap string R)) (itineraries : list Itinerary) (W_sum : R) :
  states_loop D cfg w_s s sts itineraries W_sum = None
  <-> sts <> []
      /\ exists k, In k itineraries /\ QsiAux.unreadable D (Config.qsi cfg) k.
Proof.
  revert W_sum. induction sts as [| st sts IH]; intros W_sum.
  - simpl. split; [discriminate | intros [H _]; contradiction].
  - cbn [states_loop].
    pose proof (itineraries_loop_none cfg w_s s st itineraries W_sum) as Hi.
    destruct (itineraries_loop D cfg w_s s st itineraries W_sum) as [W' |];
      simpl.
    + rewrite IH. split.
      * intros [_ Hu]. split; [discriminate | exact Hu].
      * intros [_ Hu]. apply Hi in Hu. discriminate.
    + split; [| reflexivity]. intros _.
      split; [discriminate | now apply Hi].
Qed.

Lemma segments_loop_none (cfg : Config.AppConfig) (segs : list string)
    (sts : list (gmap string R)) (itineraries : list Itinerary) (W_sum : R) :
  segments_loop D cfg segs sts itineraries W_sum = None
  <-> segs <> [] /\ sts <> []
      /\ exists k, In k itineraries /\ QsiAux.unreadable D (Config.qsi cfg) k.
Proof.
  revert W_sum. induction segs as [| s segs IH]; intros W_sum.
  - simpl. split; [discriminate | intros [H _]; contradiction].
  - cbn [segments_loop].
    pose proof (states_loop_none cfg
                  (segment_field (Config.qsi cfg) s seg_weight 1) s sts
                  itineraries W_sum) as Hs.
    destruct (states_loop D cfg _ s sts itineraries W_sum) as [W' |]; simpl.
    + rewrite IH. split.
      * intros (_ & Hne & Hu). split; [discriminate | now split].
      * intros (_ & Hne & Hu).
        assert (Hn : (None : option R) = None) by reflexivity.
        destruct Hs as [_ Hs]. specialize (Hs (conj Hne Hu)). discriminate.
    + split; [| reflexivity]. intros _.
      destruct Hs as [Hs _]. destruct (Hs eq_refl) as [Hne Hu].
      split; [discriminate | now split].
Qed.

Lemma normalised_states_nonempty (cfg : QSIConfig) :
  normalised_states cfg <> [].
Proof.
  unfold normalised_states.
  destruct (states cfg) as [| s sts]; discriminate.
Qed.

(** [qsi_plus_for_market] raises in two cases only: [muA] is 0 (the
    division in [softmin_access]), or at least one segment is asked for
    and some itinerary has a departure, an arrival or a configured bank
    time that does not parse.  With no segment asked for the itineraries
    are not looked at. *)
Theorem qsi_plus_for_market_raises_iff (cfg : Config.AppConfig)
    (per_mode_gc : list (string * R)) (itineraries : list Itinerary)
    (segs : list string) :
  qsi_plus_for_market D cfg per_mode_gc itineraries segs = None
  <-> muA (Config.qsi cfg) = 0
      \/ (segs <> []
          /\ exists k, In k itineraries
                       /\ QsiAux.unreadable D (Config.qsi cfg) k).
Proof.
  unfold qsi_plus_for_market.
  destruct (Req_dec_T (muA (Config.qsi cfg)) 0) as [Hmu | Hmu].
  - split; [now left | reflexivity].
  - pose proof (segments_loop_none cfg segs
                  (normalised_states (Config.qsi cfg)) itineraries 0) as Hl.
    pose proof (normalised_states_nonempty (Config.qsi cfg)) as Hne.
    destruct (segments_loop D cfg segs _ itineraries 0) as [W |]; simpl.
    + split; [discriminate |].
      intros [H | [Hs Hu]]; [contradiction |].
      destruct Hl as [_ Hl]. specialize (Hl (conj Hs (conj Hne Hu))).
      discriminate.
    + split; [| reflexivity]. intros _. right.
      destruct Hl as [Hl _]. destruct (Hl eq_refl) as (Hs & _ & Hu).
      now split.
Qed.

End Market.


Lemma itinerary_weight_reads_witness :
  itinerary_weight Examples2.pocket_calendar Examples2.plain_cfg
    (QsiAux.replace_unread (Examples.via_ord 5) "BDL" "LAX" "rail"
       25 9 0.9 0.9 ["13:30"])
    "leisure" (<["delay_mean_add" := 15]> ∅)
  = itinerary_weight Examples2.pocket_calendar Examples2.plain_cfg
      (Examples.via_ord 5) "leisure" ∅.
Proof.
  apply (itinerary_weight_reads Examples2.pocket_calendar Examples2.plain_cfg
           (Examples.via_ord 5) "leisure" ∅ (<["delay_mean_add" := 15]> ∅)).
  reflexivity.
Defined.

Lemma rsum_scaled {A : Type} (f : A -> R) (c : R) (l : list A) :
  rsum (List.map (fun x => f x / c) l) = rsum (List.map f l) / c.
Proof.
  induction l as [| x l IH]; cbn [List.map rsum fold_right].
  - unfold Rdiv. ring.
  - unfold rsum in IH. rewrite IH. unfold Rdiv. ring.
Qed.

Lemma normalised_weights (cfg : QSIConfig) :
  List.map (fun st => default 0 (st !! "weight")) (normalised_states cfg)
  = List.map
      (fun s => state_weight s
                / Rmax (rsum (List.map state_weight
                                (match states cfg with
                                 | [] => [base_state]
                                 | sts => sts
                                 end))) 0.000001)
      (match states cfg with [] => [base_state] | sts => sts end).
Proof.
  unfold normalised_states. rewrite List.map_map.
  apply List.map_ext. intros s. unfold state_dict.
  now rewrite lookup_insert_eq.
Qed.

(** The state weights that the market score uses sum to 1 whenever the
    configured weights sum to at least [1e-6], and also when no state is
    configured (the single base state then has weight 1). *)
Theorem normalised_weights_sum_to_one (cfg : QSIConfig) :
  states cfg = [] \/ 0.000001 <= rsum (List.map state_weight (states cfg)) ->
  rsum (List.map (fun st => default 0 (st !! "weight"))
          (normalised_states cfg)) = 1.
Proof.
  intros H. rewrite normalised_weights.
  set (sts := match states cfg with [] => [base_state] | sts => sts end).
  assert (Hsw : 0.000001 <= rsum (List.map state_weight sts)).
  { unfold sts. destruct H as [-> | H].
    - simpl. lra.
    - destruct (states cfg); [simpl in H; lra | exact H]. }
  rewrite (rsum_scaled state_weight). rewrite Rmax_left by exact Hsw.
  field. lra.
Qed.

Lemma normalised_weights_sum_to_one_witness :
  rsum (List.map (fun st => default 0 (st !! "weight"))
          (normalised_states Examples2.qsi_two_states)) = 1.
Proof.
  apply (normalised_weights_sum_to_one Examples2.qsi_two_states).
  right. simpl. lra.
Defined.


Section Accumulation.
Context (D : Calendar) (cfg : Config.AppConfig).
Hypothesis xi_nonneg : 0 <= xi (Config.qsi cfg).








End Accumulation.

Section Score.
Context (D : Calendar).


End Score.


End QsiMarketFacts.
